(** * Airfare Price Analyzer: the dashboard logic of [src/main.py]

    A shallow embedding of class [AirfarePredictionApp]: the in-memory
    data store, the filter engine, the feature derivation, the chart
    builders and the input handlers, followed by the properties that the
    specification states about them.

    Conventions of the embedding.
    - A pandas DataFrame is a [list] of row records, in row order.
    - Python floats are the rationals [Q] they denote: sums, means and
      comparisons are exact.  NaN is not a value of a fare, coordinate or
      distance column; a missing aggregate (min or max of an empty
      column, NaT) is [None].
    - Python [str] values are [string]s (ASCII).
    - A method that mutates [self] is a computation in the monad [M]:
      it threads the application state, collects what is printed and may
      raise; the state reached when an exception is raised is kept, as
      attribute assignments made before the raise are in Python.  What
      is collected as printed is the output of the application's own
      [print] calls.
    - numpy's binary floating-point arithmetic on array limits (the bin
      edges of the histogram) is not computed: whether it succeeds is
      left to the parameter [library_raises]. *)

From Stdlib Require Import List String Ascii ZArith QArith Qabs Qround Lia Bool.
From Stdlib Require Import Sorting.Sorted DecimalString Lqa Permutation.
Import ListNotations.

Local Open Scope string_scope.
Local Open Scope Q_scope.

Set Implicit Arguments.

(** ** Rationals: boolean comparisons and aggregates *)

Definition Qlt_bool (x y : Q) : bool := negb (Qle_bool y x).

Definition Qsum (l : list Q) : Q := fold_right Qplus 0 l.

(** [Series.mean()]: [None] stands for the NaN of an empty column. *)
Definition mean (l : list Q) : option Q :=
  match l with
  | [] => None
  | _ => Some (Qsum l / inject_Z (Z.of_nat (List.length l)))
  end.

(** [Series.min()] and [Series.max()] of a float column. *)
Definition Qmin (x y : Q) : Q := if Qle_bool x y then x else y.
Definition Qmax (x y : Q) : Q := if Qle_bool x y then y else x.

Definition series_min (l : list Q) : option Q :=
  match l with
  | [] => None
  | x :: xs => Some (fold_left Qmin xs x)
  end.

Definition series_max (l : list Q) : option Q :=
  match l with
  | [] => None
  | x :: xs => Some (fold_left Qmax xs x)
  end.

(** ** Generic list utilities: sorting and grouping *)

Section Sorting.
Variable A : Type.
Variable leb : A -> A -> bool.

Fixpoint insert_sorted (x : A) (l : list A) : list A :=
  match l with
  | [] => [x]
  | y :: ys => if leb x y then x :: l else y :: insert_sorted x ys
  end.

(** [sort_values] and [sorted]: the list in [leb] order.  pandas leaves
    the order of rows with equal keys to its sorting algorithm; this
    sort keeps them in row order.  The properties below are about the
    order of the keys, not about the place of tied rows. *)
Definition sort_by (l : list A) : list A := fold_right insert_sorted [] l.
End Sorting.

Section Grouping.
Variables (R K : Type).
Variable key_eqb : K -> K -> bool.
Variable key_leb : K -> K -> bool.

(** The distinct keys, in order of first appearance. *)
Fixpoint unique (l : list K) : list K :=
  match l with
  | [] => []
  | k :: ks => k :: filter (fun k' => negb (key_eqb k k')) (unique ks)
  end.

(** [df.groupby(key)]: one group per distinct key, groups in ascending
    key order (pandas sorts group keys), rows of a group in row
    order. *)
Definition groupby (key : R -> K) (df : list R) : list (K * list R) :=
  map (fun k => (k, filter (fun r => key_eqb (key r) k) df))
      (sort_by key_leb (unique (map key df))).
End Grouping.

(** ** Data model *)

(** One row of [processed-data.csv], with the columns the application
    reads. *)
Record Row := {
  airport_name_concat_1 : string;
  airport_name_concat_2 : string;
  season : string;
  year : Z;
  quarter : Z;
  fare : Q;
  fare_lg : Q;
  fare_low : Q;
  carrier_lg_name_concat : string;
  carrier_low_name_concat : string;
  airport_iata_1 : string;
  airport_iata_2 : string;
  state_1 : string;
  state_2 : string;
  latitude_1 : Q;
  longitude_1 : Q;
  latitude_2 : Q;
  longitude_2 : Q;
  nsmiles : Q
}.

Definition DataFrame := list Row.

(** A bokeh [Select] widget: its current value and its option list. *)
Record Select := {
  value : string;
  options : list string
}.

(** [widget == ''] where the left operand is the widget object itself,
    not its [value]: bokeh models define no [__eq__], so Python compares
    by identity and a widget is never equal to a [str]. *)
Definition select_eq_str (w : Select) (s : string) : bool := false.

(** ** Exceptions *)

Inductive Exn :=
| IndexError
| KeyError
| ValueError
| TypeError
| AttributeError
| DateParseError
| LibraryError.

Inductive Result (A : Type) :=
| Ok (a : A)
| Raise (e : Exn).

Arguments Ok {A} a.
Arguments Raise {A} e.

Definition result_bind {A B} (r : Result A) (k : A -> Result B) : Result B :=
  match r with
  | Ok a => k a
  | Raise e => Raise e
  end.

(** Apply a fallible function to each element, left to right. *)
Fixpoint result_map {A B} (f : A -> Result B) (l : list A) : Result (list B) :=
  match l with
  | [] => Ok []
  | x :: xs =>
      result_bind (f x) (fun y =>
      result_bind (result_map f xs) (fun ys => Ok (y :: ys)))
  end.

(** ** Strings *)

(** The ASCII characters that [str.split()] treats as white space. *)
Definition is_space (c : ascii) : bool :=
  let n := nat_of_ascii c in
  ((9 <=? n) && (n <=? 13) || (28 <=? n) && (n <=? 32))%nat.

Fixpoint skip_spaces (s : string) : string :=
  match s with
  | EmptyString => EmptyString
  | String c s' => if is_space c then skip_spaces s' else s
  end.

Fixpoint take_word (s : string) : string :=
  match s with
  | EmptyString => EmptyString
  | String c s' => if is_space c then EmptyString else String c (take_word s')
  end.

(** [s.split()[0]]: the first white-space separated word of [s];
    [IndexError] when there is none. *)
Definition split_first (s : string) : Result string :=
  match skip_spaces s with
  | EmptyString => Raise IndexError
  | w => Ok (take_word w)
  end.

Definition mem_string (s : string) (l : list string) : bool :=
  existsb (String.eqb s) l.

(** ** Formatting a float with [:.2f] *)

(** Round a non-negative rational to the nearest integer, ties to even. *)
Definition round_half_even (x : Q) : Z :=
  let f := Qfloor x in
  let r := x - inject_Z f in
  if Qlt_bool r (1 # 2) then f
  else if Qlt_bool (1 # 2) r then (f + 1)%Z
  else if Z.even f then f else (f + 1)%Z.

Definition decimal (n : Z) : string :=
  NilZero.string_of_uint (N.to_uint (Z.to_N n)).

Definition two_digits (n : Z) : string :=
  if (n <? 10)%Z then "0" ++ decimal n else decimal n.

(** [f'{v:.2f}']: sign, integer part, point, two decimals. *)
Definition format_2f (v : Q) : string :=
  let n := round_half_even (Qabs v * 100) in
  (if Qlt_bool v 0 then "-" else "")
    ++ decimal (n / 100) ++ "." ++ two_digits (n mod 100).

(** ** Dates *)

Record Timestamp := {
  ts_year : Z;
  ts_month : Z;
  ts_day : Z
}.

Definition ts_eqb (a b : Timestamp) : bool :=
  ((ts_year a =? ts_year b) && (ts_month a =? ts_month b)
   && (ts_day a =? ts_day b))%Z.

(** Chronological order: [a <= b]. *)
Definition ts_leb (a b : Timestamp) : bool :=
  ((ts_year a <? ts_year b)
   || (ts_year a =? ts_year b)
      && ((ts_month a <? ts_month b)
          || (ts_month a =? ts_month b) && (ts_day a <=? ts_day b)))%Z.

Definition later (m t : Timestamp) : Timestamp := if ts_leb m t then t else m.

(** [Series.max()] of a datetime column; [None] is NaT. *)
Definition ts_max (l : list Timestamp) : option Timestamp :=
  match l with
  | [] => None
  | x :: xs => Some (fold_left later xs x)
  end.

(** Quarters that pandas parses from "<year>-Q<quarter>" and turns into
    a time stamp whatever its version: quarters 1 to 4 of the years 1678
    to 2261 (the years that lie wholly inside the nanosecond range of
    [pd.Timestamp]).  The domain is a cautious one: pandas may convert
    years outside it as well, where the embedding reports a
    [DateParseError]; the properties below suppose [period_ok] of the
    rows they read. *)
Definition period_ok (yr q : Z) : bool :=
  ((1 <=? q) && (q <=? 4) && (1678 <=? yr) && (yr <=? 2261))%Z.

(** [pd.PeriodIndex(year + '-Q' + quarter, freq='Q').to_timestamp(freq='Q')]
    for one row: the last day of the quarter ('2024-Q1' gives
    2024-03-31). *)
Definition quarter_timestamp (yr q : Z) : Result Timestamp :=
  if period_ok yr q
  then Ok {| ts_year := yr;
             ts_month := (3 * q)%Z;
             ts_day := if ((q =? 1) || (q =? 4))%Z then 31%Z else 30%Z |}
  else Raise DateParseError.

(** One point of a time series: column [ds] and column [y] ([yhat] in
    the forecast tables). *)
Record Point := {
  ds : Timestamp;
  y : Q
}.

(** ** Binning: [numpy.linspace], [numpy.searchsorted] and [pandas.cut] *)

(** [np.linspace(start, stop, num)] *)
Definition linspace (start stop : Q) (num : nat) : list Q :=
  let step := (stop - start) / inject_Z (Z.of_nat (num - 1)) in
  map (fun i => start + inject_Z (Z.of_nat i) * step) (seq 0 num).

(** [bins.searchsorted(x, side='left')] on increasing [bins]: the number
    of leading edges that are strictly below [x]. *)
Fixpoint searchsorted_left (bins : list Q) (x : Q) : nat :=
  match bins with
  | [] => O
  | b :: bs => if Qlt_bool b x then S (searchsorted_left bs x) else O
  end.

(** [pd.cut(x, bins)] for one value, with the defaults [right=True] and
    [include_lowest=False]: the index [i] of the interval
    (bins[i], bins[i+1]] that holds [x], and [None] (NaN) when [x] is
    outside (bins[0], bins[-1]]. *)
Definition cut (bins : list Q) (x : Q) : option nat :=
  let ids := searchsorted_left bins x in
  if ((ids =? 0) || (ids =? List.length bins))%nat then None
  else Some (ids - 1)%nat.

(** [pd.cut(x, bins, labels=labels)] *)
Definition cut_labels {L} (bins : list Q) (labels : list L) (x : Q) : option L :=
  match cut bins x with
  | Some i => nth_error labels i
  | None => None
  end.

(** ** Feature derivation for the XGBoost and CatBoost models *)

(** A row of the frame returned by [feature_engineering]: the input row
    and the five derived columns. *)
Record Engineered := {
  base : Row;
  lat_diff : Q;
  lon_diff : Q;
  same_state : Z;
  route : string;
  distance_bin : option string
}.

Definition distance_bins : list Q := [0; 500; 1500; 3000; 6000].
Definition distance_labels : list string := ["short"; "medium"; "long"; "ultra"].

Definition feature_engineering_row (r : Row) : Engineered :=
  {| base := r;
     lat_diff := latitude_2 r - latitude_1 r;
     lon_diff := longitude_2 r - longitude_1 r;
     same_state := if (state_1 r =? state_2 r)%string then 1%Z else 0%Z;
     route := airport_iata_1 r ++ "-" ++ airport_iata_2 r;
     distance_bin := cut_labels distance_bins distance_labels (nsmiles r) |}.

Definition feature_engineering (df : DataFrame) : list Engineered :=
  map feature_engineering_row df.

(** The one-row frame handed to [predict]: the columns of
    [usable_features], in that order. *)
Record ModelInput := {
  in_year : Z;
  in_quarter : Z;
  in_season : string;
  in_airport_iata_1 : string;
  in_airport_iata_2 : string;
  in_state_1 : string;
  in_state_2 : string;
  in_latitude_1 : Q;
  in_longitude_1 : Q;
  in_latitude_2 : Q;
  in_longitude_2 : Q;
  in_nsmiles : Q;
  in_lat_diff : Q;
  in_lon_diff : Q;
  in_same_state : Z;
  in_route : string;
  in_distance_bin : option string
}.

(** [input_data.loc[:, 'year'] = current_year] followed by
    [input_data[usable_features]]. *)
Definition usable_features (current_year : Z) (e : Engineered) : ModelInput :=
  {| in_year := current_year;
     in_quarter := quarter (base e);
     in_season := season (base e);
     in_airport_iata_1 := airport_iata_1 (base e);
     in_airport_iata_2 := airport_iata_2 (base e);
     in_state_1 := state_1 (base e);
     in_state_2 := state_2 (base e);
     in_latitude_1 := latitude_1 (base e);
     in_longitude_1 := longitude_1 (base e);
     in_latitude_2 := latitude_2 (base e);
     in_longitude_2 := longitude_2 (base e);
     in_nsmiles := nsmiles (base e);
     in_lat_diff := lat_diff e;
     in_lon_diff := lon_diff e;
     in_same_state := same_state e;
     in_route := route e;
     in_distance_bin := distance_bin e |}.

(** ** Chart structures

    What each chart builder hands to the plotting library: the opacity
    and the data it aggregated.  Styling options and axis ranges are not
    part of the model.  The chart fields of the state hold what is
    drawn: the last chart a DynamicMap callback gave, and for the two
    bar charts the bars last rendered into the layout. *)

(** The histogram: its opacity and the fare column handed to
    [np.histogram]; the bin edges and counts are numpy's, computed in
    binary floating point, and are not part of the model. *)
Record Histogram := {
  hist_alpha : Q;
  hist_fares : list Q
}.

(** One row of [avg_fare_by_year]. *)
Record QuarterAvg := {
  date : Timestamp;
  avg_fare : Q;
  avg_fare_lg : Q;
  avg_fare_low : Q
}.

(** The three forecast curves of the line chart: overall,
    largest-carrier and lowest-cost-carrier. *)
Record ForecastCurves := {
  filtered_prophet_fare_df : list Point;
  filtered_prophet_fare_lg_df : list Point;
  filtered_prophet_fare_low_df : list Point
}.

Record LineChart := {
  line_alpha : Q;
  avg_fare_by_year : list QuarterAvg;
  prophet_curves : option ForecastCurves
}.

Record BoxWhisker := {
  box_alpha : Q;
  box_data : list (option string * Q)
}.

Record Bars := {
  bars_alpha : Q;
  avg_data : list (string * Q)
}.

Record Choropleth := {
  colors : list string;
  avg_fares : list string;
  color_bar_palette : list string;
  color_bar_factors : list string;
  origin_xy : Q * Q;
  origin_marker_alpha : Q;
  dest_xy : Q * Q;
  dest_marker_alpha : Q
}.

Record Charts := {
  choropleth : option Choropleth;
  hv_histogram : option Histogram;
  hv_line_chart : option LineChart;
  hv_seasonal_boxplot : option BoxWhisker;
  hv_lg_bar_chart : option Bars;
  hv_low_bar_chart : option Bars
}.

(** ** Application state: the mutable attributes of the app object *)

Record App := {
  dropdown_origin : Select;
  dropdown_destination : Select;
  dropdown_season : Select;
  dropdown_ml_model : Select;
  analysis_results_text : string;
  prophet_fare_df : option (list Point);
  prophet_fare_lg_df : option (list Point);
  prophet_fare_low_df : option (list Point);
  charts : Charts
}.

Definition set_dropdown_origin (w : Select) (st : App) : App :=
  {| dropdown_origin := w;
     dropdown_destination := dropdown_destination st;
     dropdown_season := dropdown_season st;
     dropdown_ml_model := dropdown_ml_model st;
     analysis_results_text := analysis_results_text st;
     prophet_fare_df := prophet_fare_df st;
     prophet_fare_lg_df := prophet_fare_lg_df st;
     prophet_fare_low_df := prophet_fare_low_df st;
     charts := charts st |}.

Definition set_dropdown_destination (w : Select) (st : App) : App :=
  {| dropdown_origin := dropdown_origin st;
     dropdown_destination := w;
     dropdown_season := dropdown_season st;
     dropdown_ml_model := dropdown_ml_model st;
     analysis_results_text := analysis_results_text st;
     prophet_fare_df := prophet_fare_df st;
     prophet_fare_lg_df := prophet_fare_lg_df st;
     prophet_fare_low_df := prophet_fare_low_df st;
     charts := charts st |}.

Definition set_dropdown_season (w : Select) (st : App) : App :=
  {| dropdown_origin := dropdown_origin st;
     dropdown_destination := dropdown_destination st;
     dropdown_season := w;
     dropdown_ml_model := dropdown_ml_model st;
     analysis_results_text := analysis_results_text st;
     prophet_fare_df := prophet_fare_df st;
     prophet_fare_lg_df := prophet_fare_lg_df st;
     prophet_fare_low_df := prophet_fare_low_df st;
     charts := charts st |}.

Definition set_dropdown_ml_model (w : Select) (st : App) : App :=
  {| dropdown_origin := dropdown_origin st;
     dropdown_destination := dropdown_destination st;
     dropdown_season := dropdown_season st;
     dropdown_ml_model := w;
     analysis_results_text := analysis_results_text st;
     prophet_fare_df := prophet_fare_df st;
     prophet_fare_lg_df := prophet_fare_lg_df st;
     prophet_fare_low_df := prophet_fare_low_df st;
     charts := charts st |}.

Definition set_analysis_results_text (t : string) (st : App) : App :=
  {| dropdown_origin := dropdown_origin st;
     dropdown_destination := dropdown_destination st;
     dropdown_season := dropdown_season st;
     dropdown_ml_model := dropdown_ml_model st;
     analysis_results_text := t;
     prophet_fare_df := prophet_fare_df st;
     prophet_fare_lg_df := prophet_fare_lg_df st;
     prophet_fare_low_df := prophet_fare_low_df st;
     charts := charts st |}.

(** The three assignments to [prophet_fare_df], [prophet_fare_lg_df] and
    [prophet_fare_low_df], which the code always makes together. *)
Definition set_prophet (f lg low : option (list Point)) (st : App) : App :=
  {| dropdown_origin := dropdown_origin st;
     dropdown_destination := dropdown_destination st;
     dropdown_season := dropdown_season st;
     dropdown_ml_model := dropdown_ml_model st;
     analysis_results_text := analysis_results_text st;
     prophet_fare_df := f;
     prophet_fare_lg_df := lg;
     prophet_fare_low_df := low;
     charts := charts st |}.

Definition set_charts (c : Charts) (st : App) : App :=
  {| dropdown_origin := dropdown_origin st;
     dropdown_destination := dropdown_destination st;
     dropdown_season := dropdown_season st;
     dropdown_ml_model := dropdown_ml_model st;
     analysis_results_text := analysis_results_text st;
     prophet_fare_df := prophet_fare_df st;
     prophet_fare_lg_df := prophet_fare_lg_df st;
     prophet_fare_low_df := prophet_fare_low_df st;
     charts := c |}.

Definition set_value (v : string) (w : Select) : Select :=
  {| value := v; options := options w |}.

Definition set_options (o : list string) (w : Select) : Select :=
  {| value := value w; options := o |}.

Definition set_choropleth (c : Choropleth) (st : App) : App :=
  set_charts {| choropleth := Some c;
                hv_histogram := hv_histogram (charts st);
                hv_line_chart := hv_line_chart (charts st);
                hv_seasonal_boxplot := hv_seasonal_boxplot (charts st);
                hv_lg_bar_chart := hv_lg_bar_chart (charts st);
                hv_low_bar_chart := hv_low_bar_chart (charts st) |} st.

Definition set_hv_histogram (h : Histogram) (st : App) : App :=
  set_charts {| choropleth := choropleth (charts st);
                hv_histogram := Some h;
                hv_line_chart := hv_line_chart (charts st);
                hv_seasonal_boxplot := hv_seasonal_boxplot (charts st);
                hv_lg_bar_chart := hv_lg_bar_chart (charts st);
                hv_low_bar_chart := hv_low_bar_chart (charts st) |} st.

Definition set_hv_line_chart (l : LineChart) (st : App) : App :=
  set_charts {| choropleth := choropleth (charts st);
                hv_histogram := hv_histogram (charts st);
                hv_line_chart := Some l;
                hv_seasonal_boxplot := hv_seasonal_boxplot (charts st);
                hv_lg_bar_chart := hv_lg_bar_chart (charts st);
                hv_low_bar_chart := hv_low_bar_chart (charts st) |} st.

Definition set_hv_seasonal_boxplot (b : BoxWhisker) (st : App) : App :=
  set_charts {| choropleth := choropleth (charts st);
                hv_histogram := hv_histogram (charts st);
                hv_line_chart := hv_line_chart (charts st);
                hv_seasonal_boxplot := Some b;
                hv_lg_bar_chart := hv_lg_bar_chart (charts st);
                hv_low_bar_chart := hv_low_bar_chart (charts st) |} st.

Definition set_hv_lg_bar_chart (b : Bars) (st : App) : App :=
  set_charts {| choropleth := choropleth (charts st);
                hv_histogram := hv_histogram (charts st);
                hv_line_chart := hv_line_chart (charts st);
                hv_seasonal_boxplot := hv_seasonal_boxplot (charts st);
                hv_lg_bar_chart := Some b;
                hv_low_bar_chart := hv_low_bar_chart (charts st) |} st.

Definition set_hv_low_bar_chart (b : Bars) (st : App) : App :=
  set_charts {| choropleth := choropleth (charts st);
                hv_histogram := hv_histogram (charts st);
                hv_line_chart := hv_line_chart (charts st);
                hv_seasonal_boxplot := hv_seasonal_boxplot (charts st);
                hv_lg_bar_chart := hv_lg_bar_chart (charts st);
                hv_low_bar_chart := Some b |} st.

(** ** What the application loads and the libraries it calls *)

Inductive ChartId :=
| ChoroplethChart
| HistogramChart
| LineChartChart
| SeasonalBoxplotChart
| LgBarChart
| LowBarChart.

(** The files read by [__init__] and the library values the methods
    use.  The models are their [predict(...)[0]]; the forecast tables
    are the three JSON dictionaries, keyed by route.

    [library_raises c st] says whether rendering chart [c] in state [st]
    fails inside numpy, pandas, HoloViews or bokeh for a reason that is
    not modelled here (for the histogram: in [np.arange], [np.histogram]
    or [np.max] over the fares).  The results below are stated for
    every such parameter; where one supposes that a rendering does not
    fail, it says so. *)
Record Loaded := {
  df : DataFrame;
  xgb_model : ModelInput -> Q;
  catboost_model : ModelInput -> Q;
  decision_tree_model : list Z -> Q;
  random_forest_model : list Z -> Q;
  decision_forest_model_columns : list string;
  prophet_fare_dfs : string -> option (list Point);
  prophet_farelg_dfs : string -> option (list Point);
  prophet_farelow_dfs : string -> option (list Point);
  states : list (string * string);
  palette : list string;
  current_year : Z;
  library_raises : ChartId -> App -> bool
}.

(** The secondary forecast tables: [{}] in [__init__]. *)
Definition prophet_fare_dfs2 (route_key : string) : option (list Point) := None.
Definition prophet_farelg_dfs2 (route_key : string) : option (list Point) := None.
Definition prophet_farelow_dfs2 (route_key : string) : option (list Point) := None.

Definition EXCLUDED : list string := ["HI"; "AK"].
Definition multi_airport_codes : list string :=
  ["ACY"; "ORD"; "DTW"; "LGA"; "IAD"; "EGE"].

(** ** The monad of methods *)

Definition M (A : Type) : Type := App -> Result A * App * list string.

Definition ret {A} (a : A) : M A := fun st => (Ok a, st, []).

Definition bind {A B} (m : M A) (k : A -> M B) : M B :=
  fun st =>
    match m st with
    | (Ok a, st1, out1) =>
        match k a st1 with
        | (r, st2, out2) => (r, st2, (out1 ++ out2)%list)
        end
    | (Raise e, st1, out1) => (Raise e, st1, out1)
    end.

Definition raise {A} (e : Exn) : M A := fun st => (Raise e, st, []).
Definition get : M App := fun st => (Ok st, st, []).
Definition modify (f : App -> App) : M unit := fun st => (Ok tt, f st, []).
Definition print (line : string) : M unit := fun st => (Ok tt, st, [line]).

Definition lift {A} (r : Result A) : M A :=
  match r with
  | Ok a => ret a
  | Raise e => raise e
  end.

Declare Scope method_scope.
Delimit Scope method_scope with method.
Notation "x <- m ;; k" := (bind m (fun x => k))
  (at level 61, m at next level, right associativity) : method_scope.
Notation "m ;; k" := (bind m (fun _ => k))
  (at level 61, right associativity) : method_scope.

Definition result_of {A} (o : Result A * App * list string) : Result A := fst (fst o).
Definition state_of {A} (o : Result A * App * list string) : App := snd (fst o).
Definition printed {A} (o : Result A * App * list string) : list string := snd o.

Local Open Scope method_scope.

(** ** Utilities *)

Definition placeholder_text : string := "Est. Price:<h2>$   -  </h2>".

(** [_update_analysis_results] *)
Definition _update_analysis_results (v : Q) : M unit :=
  if Qeq_bool v 0
  then modify (set_analysis_results_text placeholder_text)
  else modify (set_analysis_results_text
                 ("Est. Price:<h2>$ " ++ format_2f v ++ "</h2>")).

(** [_get_filtered_data] *)
Definition _get_filtered_data (env : Loaded) (st : App) (filter_season : bool)
  : DataFrame :=
  let filtered_df := df env in
  let filtered_df :=
    if negb (value (dropdown_origin st) =? "")%string
    then filter (fun r => (airport_name_concat_1 r =? value (dropdown_origin st))%string)
                filtered_df
    else filtered_df in
  let filtered_df :=
    if negb (value (dropdown_destination st) =? "")%string
    then filter (fun r => (airport_name_concat_2 r =? value (dropdown_destination st))%string)
                filtered_df
    else filtered_df in
  let filtered_df :=
    if filter_season
    then if negb (value (dropdown_season st) =? "")%string
         then filter (fun r => (season r =? value (dropdown_season st))%string)
                     filtered_df
         else filtered_df
    else filtered_df in
  filtered_df.

(** The mean of a non-empty group. *)
Definition group_mean (l : list Q) : Q :=
  Qsum l / inject_Z (Z.of_nat (List.length l)).

(** [frame.groupby(key).agg({col: 'mean'})] with string keys. *)
Definition groupby_mean {R} (key : R -> string) (col : R -> Q) (frame : list R)
  : list (string * Q) :=
  map (fun g => (fst g, group_mean (map col (snd g))))
      (groupby String.eqb String.leb key frame).

(** A dictionary read: [d[k]] is [assoc k d], [k in d] is whether it is
    [Some]. *)
Definition assoc {V} (k : string) (d : list (string * V)) : option V :=
  option_map snd (find (fun kv => (fst kv =? k)%string) d).

(** ** Opacity of the charts *)

(** The test at the head of the four redraw functions:
    [any([self.dropdown_origin.value == '', self.dropdown_destination == ''])].
    Its second operand compares the destination widget, not the
    widget's value, with the empty string. *)
Definition chart_alpha (st : App) : Q :=
  if (value (dropdown_origin st) =? "")%string
     || select_eq_str (dropdown_destination st) ""
  then 0
  else 0.8.

(** ** Choropleth *)

(** Two rows of a (name, longitude, latitude) frame are duplicates. *)
Definition coords_eqb (a b : string * (Q * Q)) : bool :=
  (fst a =? fst b)%string
  && Qeq_bool (fst (snd a)) (fst (snd b))
  && Qeq_bool (snd (snd a)) (snd (snd b)).

(** [self.df[[name, longitude, latitude]].drop_duplicates()]: the
    distinct triples, each at its first appearance. *)
Definition coords_table (name_col : Row -> string) (lon lat : Row -> Q)
           (frame : DataFrame) : list (string * (Q * Q)) :=
  unique coords_eqb (map (fun r => (name_col r, (lon r, lat r))) frame).

(** [self.airport_coords[name]]: the dictionary is built from the
    distinct triples of the origin columns and then updated from those
    of the destination columns; in each comprehension a later triple
    replaces an earlier one with the same name. *)
Definition airport_coords (env : Loaded) (name : string) : Result (Q * Q) :=
  match find (fun e => (fst e =? name)%string)
             (rev (coords_table airport_name_concat_2 longitude_2 latitude_2 (df env))) with
  | Some e => Ok (snd e)
  | None =>
      match find (fun e => (fst e =? name)%string)
                 (rev (coords_table airport_name_concat_1 longitude_1 latitude_1 (df env))) with
      | Some e => Ok (snd e)
      | None => Raise KeyError
      end
  end.

(** [self.state_mapping[code]] *)
Definition state_mapping (env : Loaded) (code : string) : Result string :=
  match assoc code (states env) with
  | Some name => Ok name
  | None => Raise KeyError
  end.

(** The state codes that are drawn: [code for code in states if code not
    in self.EXCLUDED]. *)
Definition rendered_codes (env : Loaded) : list string :=
  filter (fun code => negb (mem_string code EXCLUDED)) (map fst (states env)).

Definition choropleth_default_colors (env : Loaded) : list string :=
  map (fun _ => "#FFFFFF") (rendered_codes env).

Definition choropleth_default_fares (env : Loaded) : list string :=
  map (fun _ => "-") (rendered_codes env).

(** The mean fare per destination state for one origin:
    [self.df[self.df['airport_name_concat_1'] == origin_value]
       .groupby('state_2').agg({'fare': 'mean'})]. *)
Definition state_fares (env : Loaded) (origin_value : string) : list (string * Q) :=
  groupby_mean state_2 fare
    (filter (fun r => (airport_name_concat_1 r =? origin_value)%string) (df env)).

(** [np.linspace(fare.min() - 0.001, fare.max() + 0.001, num=7)];
    [None] when the aggregate is empty and the extremes are NaN: the
    seven edges are then NaN, which [pd.cut] refuses. *)
Definition choropleth_bins (fares : list (string * Q)) : option (list Q) :=
  match series_min (map snd fares), series_max (map snd fares) with
  | Some lo, Some hi => Some (linspace (lo - 0.001) (hi + 0.001) 7)
  | _, _ => None
  end.

(** [pd.cut(df['fare'], bins=bins, labels=list(range(6))).to_dict()] *)
Definition choropleth_labels (fares : list (string * Q)) (bins : list Q)
  : list (string * option nat) :=
  map (fun kv => (fst kv, cut_labels bins (seq 0 6) (snd kv))) fares.

(** One turn of the loop over the drawn states: the colour and the
    hover text of the state [code]. *)
Definition state_entry (env : Loaded) (fares : list (string * Q))
           (d : list (string * option nat)) (code : string)
  : Result (string * string) :=
  result_bind (state_mapping env code) (fun name =>
    match assoc name d with
    | Some label =>
        match label with
        | Some i =>
            match nth_error (palette env) i with
            | Some color =>
                match assoc name fares with
                | Some f => Ok (color, "$" ++ format_2f f)
                | None => Raise KeyError
                end
            | None => Raise IndexError
            end
        | None => Raise TypeError
        end
    | None => Ok ("#FFFFFF", "-")
    end).

Definition state_entries (env : Loaded) (fares : list (string * Q))
           (bins : list Q) : Result (list (string * string)) :=
  result_map (state_entry env fares (choropleth_labels fares bins))
             (rendered_codes env).

(** The labels of the colour bar: the mid point of each of the six
    bins. *)
Definition color_bar_labels (bins : list Q) : list string :=
  map (fun i => "$" ++ format_2f ((1 # 2) * (nth i bins 0 + nth (S i) bins 0)))
      (seq 0 6).

(** Assignments to the glyphs and data sources of the choropleth. *)
Definition with_state_colors (cs fs pal factors : list string) (c : Choropleth)
  : Choropleth :=
  {| colors := cs;
     avg_fares := fs;
     color_bar_palette := pal;
     color_bar_factors := factors;
     origin_xy := origin_xy c;
     origin_marker_alpha := origin_marker_alpha c;
     dest_xy := dest_xy c;
     dest_marker_alpha := dest_marker_alpha c |}.

Definition with_origin_marker (xy : Q * Q) (a : Q) (c : Choropleth) : Choropleth :=
  {| colors := colors c;
     avg_fares := avg_fares c;
     color_bar_palette := color_bar_palette c;
     color_bar_factors := color_bar_factors c;
     origin_xy := xy;
     origin_marker_alpha := a;
     dest_xy := dest_xy c;
     dest_marker_alpha := dest_marker_alpha c |}.

Definition with_dest_marker (xy : Q * Q) (a : Q) (c : Choropleth) : Choropleth :=
  {| colors := colors c;
     avg_fares := avg_fares c;
     color_bar_palette := color_bar_palette c;
     color_bar_factors := color_bar_factors c;
     origin_xy := origin_xy c;
     origin_marker_alpha := origin_marker_alpha c;
     dest_xy := xy;
     dest_marker_alpha := a |}.

Definition modify_choropleth (f : Choropleth -> Choropleth) : M unit :=
  st <- get ;;
  match choropleth (charts st) with
  | Some c => modify (set_choropleth (f c))
  | None => raise AttributeError
  end.

Definition reset_state_colors (env : Loaded) : M unit :=
  modify_choropleth (with_state_colors (choropleth_default_colors env)
                                       (choropleth_default_fares env)
                                       ["#D3D3D3"] ["$0.00"]).

(** [_update_choropleth].  The bins are computed and [pd.cut] is called
    before the test [df.shape[0] > 0]: with an empty aggregate [pd.cut]
    raises [ValueError] on the NaN edges, so the branch that resets the
    colours when no data is available is never taken. *)
Definition _update_choropleth (env : Loaded) : M unit :=
  st <- get ;;
  if library_raises env ChoroplethChart st then raise LibraryError else
  let origin_value := value (dropdown_origin st) in
  (if (origin_value =? "")%string
   then
     reset_state_colors env ;;
     modify_choropleth (fun c => with_origin_marker (origin_xy c) 0 c)
   else
     xy <- lift (airport_coords env origin_value) ;;
     modify_choropleth (with_origin_marker xy 1) ;;
     let fares := state_fares env origin_value in
     match choropleth_bins fares with
     | Some bins =>
         entries <- lift (state_entries env fares bins) ;;
         modify_choropleth (with_state_colors (map fst entries) (map snd entries)
                                              (palette env) (color_bar_labels bins))
     | None => raise ValueError
     end) ;;
  let destination_value := value (dropdown_destination st) in
  if (destination_value =? "")%string
  then modify_choropleth (fun c => with_dest_marker (dest_xy c) 0 c)
  else
    xy <- lift (airport_coords env destination_value) ;;
    modify_choropleth (with_dest_marker xy 1).

(** ** Histogram *)

(** [_redraw_holoviews_histogram]: the opacity and the fares of the
    season-filtered selection.  [np.arange] refuses the NaN limits of an
    empty selection. *)
Definition _redraw_holoviews_histogram (env : Loaded) (st : App) : Result Histogram :=
  let alpha := chart_alpha st in
  let filtered_df := _get_filtered_data env st true in
  match filtered_df with
  | [] => Raise ValueError
  | _ => Ok {| hist_alpha := alpha; hist_fares := map fare filtered_df |}
  end.

(** What running a redraw callback gives: the chart, or the exception
    of the callback or of the library under it. *)
Definition callback {A} (env : Loaded) (c : ChartId) (redraw : App -> Result A)
           (st : App) : Result A :=
  if library_raises env c st then Raise LibraryError else redraw st.

(** [hv.render(hv.DynamicMap(redraw, ...))] in an [_initialize_*]
    method: the callback is run for the first rendering and its
    exception is the method's. *)
Definition render {A} (env : Loaded) (c : ChartId) (redraw : App -> Result A)
           (store : A -> App -> App) : M unit :=
  st <- get ;;
  a <- lift (callback env c redraw st) ;;
  modify (store a).

(** [DynamicMap.event()] in an [_update_*] method: HoloViews runs the
    callback and, when it raises, reports the exception instead of
    passing it on; [event()] returns, the method goes on and the chart
    keeps its last rendering. *)
Definition event {A} (env : Loaded) (c : ChartId) (redraw : App -> Result A)
           (store : A -> App -> App) : M unit :=
  st <- get ;;
  match callback env c redraw st with
  | Ok a => modify (store a)
  | Raise _ => ret tt
  end.

(** [_initialize_histogram] and [_update_histogram] *)
Definition _initialize_histogram (env : Loaded) : M unit :=
  render env HistogramChart (_redraw_holoviews_histogram env) set_hv_histogram.

Definition _update_histogram (env : Loaded) : M unit :=
  event env HistogramChart (_redraw_holoviews_histogram env) set_hv_histogram.

(** ** Line chart *)

(** The [date] column added to a frame: one time stamp per row. *)
Definition with_dates (frame : DataFrame) : Result (list (Timestamp * Row)) :=
  result_map (fun r => result_bind (quarter_timestamp (year r) (quarter r))
                                   (fun d => Ok (d, r)))
             frame.

(** [groupby('date')] with the mean of the three fare columns. *)
Definition mean_by_date (dated : list (Timestamp * Row)) : list QuarterAvg :=
  map (fun g => {| date := fst g;
                   avg_fare := group_mean (map (fun x => fare (snd x)) (snd g));
                   avg_fare_lg := group_mean (map (fun x => fare_lg (snd x)) (snd g));
                   avg_fare_low := group_mean (map (fun x => fare_low (snd x)) (snd g)) |})
      (groupby ts_eqb ts_leb fst dated).

(** [frame[frame.ds >= max_date]]; a comparison with NaT is false. *)
Definition from_date (max_date : option Timestamp) (frame : list Point) : list Point :=
  filter (fun p => match max_date with
                   | Some m => ts_leb m (ds p)
                   | None => false
                   end) frame.

(** [_redraw_holoviews_line_chart] *)
Definition _redraw_holoviews_line_chart (env : Loaded) (st : App) : Result LineChart :=
  let alpha := chart_alpha st in
  let filtered_df := _get_filtered_data env st false in
  result_bind (with_dates filtered_df) (fun dated =>
    let avg_fare_by_year := mean_by_date dated in
    match prophet_fare_df st with
    | Some fare_df =>
        let max_date := ts_max (map fst dated) in
        match prophet_fare_lg_df st, prophet_fare_low_df st with
        | Some fare_lg_df, Some fare_low_df =>
            Ok {| line_alpha := alpha;
                  avg_fare_by_year := avg_fare_by_year;
                  prophet_curves :=
                    Some {| filtered_prophet_fare_df := from_date max_date fare_df;
                            filtered_prophet_fare_lg_df := from_date max_date fare_lg_df;
                            filtered_prophet_fare_low_df := from_date max_date fare_low_df |} |}
        | _, _ => Raise TypeError
        end
    | None =>
        Ok {| line_alpha := alpha;
              avg_fare_by_year := avg_fare_by_year;
              prophet_curves := None |}
    end).

(** [_initialize_line_chart] and [_update_line_chart] *)
Definition _initialize_line_chart (env : Loaded) : M unit :=
  render env LineChartChart (_redraw_holoviews_line_chart env) set_hv_line_chart.

Definition _update_line_chart (env : Loaded) : M unit :=
  event env LineChartChart (_redraw_holoviews_line_chart env) set_hv_line_chart.

(** ** Seasonal box plot *)

Definition season_order : list string := ["Spring"; "Summer"; "Fall"; "Winter"].

(** The position of a season in [season_order]; a value outside it is
    NaN in the categorical column and sorts last. *)
Fixpoint index_of (s : string) (l : list string) : nat :=
  match l with
  | [] => O
  | x :: xs => if (x =? s)%string then O else S (index_of s xs)
  end.

Definition season_category (s : string) : option string :=
  if mem_string s season_order then Some s else None.

(** [_redraw_holoviews_seasonal_boxplot] *)
Definition _redraw_holoviews_seasonal_boxplot (env : Loaded) (st : App) : BoxWhisker :=
  let alpha := chart_alpha st in
  let filtered_df := _get_filtered_data env st false in
  let filtered_df :=
    sort_by (fun a b => (index_of (season a) season_order
                         <=? index_of (season b) season_order)%nat)
            filtered_df in
  {| box_alpha := alpha;
     box_data := map (fun r => (season_category (season r), fare r)) filtered_df |}.

(** [_initialize_seasonal_boxplot] and [_update_seasonal_boxplot] *)
Definition _initialize_seasonal_boxplot (env : Loaded) : M unit :=
  render env SeasonalBoxplotChart
         (fun st => Ok (_redraw_holoviews_seasonal_boxplot env st))
         set_hv_seasonal_boxplot.

Definition _update_seasonal_boxplot (env : Loaded) : M unit :=
  event env SeasonalBoxplotChart
        (fun st => Ok (_redraw_holoviews_seasonal_boxplot env st))
        set_hv_seasonal_boxplot.

(** ** Carrier bar charts *)

(** [sort_values("avg_fare", ascending=False)]: the larger mean first. *)
Definition fare_desc (a b : string * Q) : bool := Qle_bool (snd b) (snd a).

(** The frame [avg_data] of [_redraw_holoviews_bar_chart]. *)
Definition bar_chart_data (env : Loaded) (st : App) (carrier_type : string)
  : list (string * Q) :=
  let filtered_df := _get_filtered_data env st true in
  let col := if (carrier_type =? "lg")%string then fare_lg else fare_low in
  let name_col := if (carrier_type =? "lg")%string
                  then carrier_lg_name_concat else carrier_low_name_concat in
  let avg_data :=
    firstn 10 (sort_by fare_desc (groupby_mean name_col col filtered_df)) in
  filter (fun a => Qlt_bool 0 (snd a)) avg_data.

(** [_redraw_holoviews_bar_chart] *)
Definition _redraw_holoviews_bar_chart (env : Loaded) (st : App)
           (carrier_type : string) : Bars :=
  let alpha := chart_alpha st in
  {| bars_alpha := alpha; avg_data := bar_chart_data env st carrier_type |}.

(** [_update_lg_bar_chart] and [_update_low_bar_chart]: the method
    itself calls the redraw function and [hv.render], so an exception
    under them is the method's; [_initialize_lg_bar_chart] and
    [_initialize_low_bar_chart] make the same two calls. *)
Definition _update_lg_bar_chart (env : Loaded) : M unit :=
  st <- get ;;
  if library_raises env LgBarChart st then raise LibraryError else
  modify (set_hv_lg_bar_chart (_redraw_holoviews_bar_chart env st "lg")).

Definition _update_low_bar_chart (env : Loaded) : M unit :=
  st <- get ;;
  if library_raises env LowBarChart st then raise LibraryError else
  modify (set_hv_low_bar_chart (_redraw_holoviews_bar_chart env st "low")).

(** ** Input handlers *)

(** [[''] + sorted(list(frame[col].unique()))] *)
Definition dropdown_options (col : Row -> string) (frame : DataFrame) : list string :=
  "" :: sort_by String.leb (unique String.eqb (map col frame)).

Definition clear_prophet : M unit := modify (set_prophet None None None).

(** [_handle_origin_input_change] *)
Definition _handle_origin_input_change (env : Loaded) (new : string) : M unit :=
  let new_options :=
    if (new =? "")%string
    then dropdown_options airport_name_concat_2 (df env)
    else dropdown_options airport_name_concat_2
           (filter (fun r => (airport_name_concat_1 r =? new)%string) (df env)) in
  modify (fun st => set_dropdown_destination
                      (set_options new_options (dropdown_destination st)) st) ;;
  _update_choropleth env ;;
  _update_histogram env ;;
  clear_prophet ;;
  _update_line_chart env ;;
  _update_seasonal_boxplot env ;;
  _update_lg_bar_chart env ;;
  _update_low_bar_chart env.

(** [_handle_destination_input_change] *)
Definition _handle_destination_input_change (env : Loaded) (new : string) : M unit :=
  let new_options :=
    if (new =? "")%string
    then dropdown_options airport_name_concat_1 (df env)
    else dropdown_options airport_name_concat_1
           (filter (fun r => (airport_name_concat_2 r =? new)%string) (df env)) in
  modify (fun st => set_dropdown_origin
                      (set_options new_options (dropdown_origin st)) st) ;;
  _update_choropleth env ;;
  _update_histogram env ;;
  clear_prophet ;;
  _update_line_chart env ;;
  _update_seasonal_boxplot env ;;
  _update_lg_bar_chart env ;;
  _update_low_bar_chart env.

(** [_handle_season_input_change] *)
Definition _handle_season_input_change (env : Loaded) (new : string) : M unit :=
  _update_analysis_results 0 ;;
  _update_histogram env ;;
  _update_lg_bar_chart env ;;
  _update_low_bar_chart env.

(** [_handle_ml_model_input_change] *)
Definition _handle_ml_model_input_change (env : Loaded) (new : string) : M unit :=
  _update_analysis_results 0 ;;
  clear_prophet ;;
  _update_line_chart env.

(** ** The analyze button *)

(** The estimate of the XGBoost / CatBoost branch. *)
Definition tree_ensemble_estimate (env : Loaded) (st : App) : Q :=
  let filtered_data := _get_filtered_data env st false in
  match feature_engineering filtered_data with
  | [] => 0
  | first_row :: _ =>
      let input_data := usable_features (current_year env) first_row in
      let model_choice := value (dropdown_ml_model st) in
      if (model_choice =? "XGBoost")%string then xgb_model env input_data
      else if (model_choice =? "CatBoost")%string then catboost_model env input_data
      else 0
  end.

(** The historical series of a route, one row per date. *)
Record TsRow := {
  ts_date : Timestamp;
  ts_fare : Q;
  ts_fare_lg : Q;
  ts_fare_low : Q
}.

Definition ts_of_avg (a : QuarterAvg) : TsRow :=
  {| ts_date := date a; ts_fare := avg_fare a;
     ts_fare_lg := avg_fare_lg a; ts_fare_low := avg_fare_low a |}.

Definition ts_of_row (x : Timestamp * Row) : TsRow :=
  {| ts_date := fst x; ts_fare := fare (snd x);
     ts_fare_lg := fare_lg (snd x); ts_fare_low := fare_low (snd x) |}.

(** [pd.DataFrame(fcst)] followed by the reads of its columns ['ds'] and
    ['yhat']: a missing or empty list of records has no such column. *)
Definition forecast_frame (fcst : option (list Point)) : Result (list Point) :=
  match fcst with
  | Some (p :: ps) => Ok (p :: ps)
  | _ => Raise KeyError
  end.

Definition ineligible_message : list string :=
  ["Selected route ineligible for FB Prophet forecasting.";
   "Please select a different route."].

Definition print_ineligible : M unit :=
  print "Selected route ineligible for FB Prophet forecasting." ;;
  print "Please select a different route.".

(** [Series.max()] of the integer column [year]; [None] is NaN. *)
Definition year_max (frame : DataFrame) : option Z :=
  match map year frame with
  | [] => None
  | x :: xs => Some (fold_left Z.max xs x)
  end.

(** The FB Prophet branch once origin and destination are known to be
    set. *)
Definition prophet_forecast (env : Loaded) (origin destination : string) : M unit :=
  src <- lift (split_first origin) ;;
  dst <- lift (split_first destination) ;;
  let route_key := src ++ "-" ++ dst in
  st <- get ;;
  let ts_df := _get_filtered_data env st false in
  if negb (match year_max ts_df with Some m => (m =? 2024)%Z | None => false end)
  then print_ineligible
  else
    dated <- lift (with_dates ts_df) ;;
    let multi := mem_string src multi_airport_codes
                 || mem_string dst multi_airport_codes in
    let ts_df :=
      if multi
      then map ts_of_avg (mean_by_date dated)
      else map ts_of_row (sort_by (fun a b => ts_leb (fst a) (fst b)) dated) in
    let fcst := if multi then prophet_fare_dfs2 route_key
                else prophet_fare_dfs env route_key in
    let fcst_lg := if multi then prophet_farelg_dfs2 route_key
                   else prophet_farelg_dfs env route_key in
    let fcst_low := if multi then prophet_farelow_dfs2 route_key
                    else prophet_farelow_dfs env route_key in
    match fcst with
    | None => print_ineligible
    | Some _ =>
        fcst_df <- lift (forecast_frame fcst) ;;
        fcst_lg_df <- lift (forecast_frame fcst_lg) ;;
        fcst_low_df <- lift (forecast_frame fcst_low) ;;
        let history col := map (fun r => {| ds := ts_date r; y := col r |}) ts_df in
        modify (set_prophet (Some (history ts_fare ++ fcst_df)%list)
                            (Some (history ts_fare_lg ++ fcst_lg_df)%list)
                            (Some (history ts_fare_low ++ fcst_low_df)%list)) ;;
        _update_line_chart env
    end.

(** The one-hot row of the Decision Tree / Random Forest branch, in the
    training column order: [pd.get_dummies] makes one column per
    selected value, the columns missing from the training list are
    added as zeros and the row is reordered on that list. *)
Definition one_hot_row (columns : list string) (origin destination season_value : string)
  : list Z :=
  let dummies := ["airport_name_concat_1_" ++ origin;
                  "airport_name_concat_2_" ++ destination;
                  "season_" ++ season_value] in
  map (fun c => if mem_string c dummies then 1%Z else 0%Z) columns.

(** [_handle_analyze_button_click] *)
Definition _handle_analyze_button_click (env : Loaded) : M unit :=
  st <- get ;;
  let origin := value (dropdown_origin st) in
  let destination := value (dropdown_destination st) in
  let season_value := value (dropdown_season st) in
  let model_choice := value (dropdown_ml_model st) in
  if mem_string model_choice ["XGBoost"; "CatBoost"] then
    let estimated_price := tree_ensemble_estimate env st in
    _update_analysis_results estimated_price
  else if (model_choice =? "FB Prophet")%string then
    _update_analysis_results 0 ;;
    if (origin =? "")%string || (destination =? "")%string
    then print "Please select valid Origin and Destination from dropdown."
    else prophet_forecast env origin destination
  else if mem_string model_choice ["Decision Tree"; "Random Forest"] then
    if (origin =? "")%string || (destination =? "")%string || (season_value =? "")%string
    then print "Please select valid Origin and Destination and Season from dropdown."
    else
      let input_df_encoded :=
        one_hot_row (decision_forest_model_columns env) origin destination season_value in
      let prediction :=
        if (model_choice =? "Decision Tree")%string
        then decision_tree_model env input_df_encoded
        else if (model_choice =? "Random Forest")%string
        then random_forest_model env input_df_encoded
        else 0 in
      _update_analysis_results prediction
  else print "Error".

(** ** Start-up and events *)

(** The attributes after [__init__]: no chart is built yet. *)
Definition init (env : Loaded) : App :=
  {| dropdown_origin :=
       {| value := ""; options := dropdown_options airport_name_concat_1 (df env) |};
     dropdown_destination :=
       {| value := ""; options := dropdown_options airport_name_concat_2 (df env) |};
     dropdown_season :=
       {| value := ""; options := [""; "Spring"; "Summer"; "Fall"; "Winter"] |};
     dropdown_ml_model :=
       {| value := "";
          options := [""; "FB Prophet"; "Random Forest"; "Decision Tree";
                      "XGBoost"; "CatBoost"] |};
     analysis_results_text := placeholder_text;
     prophet_fare_df := None;
     prophet_fare_lg_df := None;
     prophet_fare_low_df := None;
     charts := {| choropleth := None;
                  hv_histogram := None;
                  hv_line_chart := None;
                  hv_seasonal_boxplot := None;
                  hv_lg_bar_chart := None;
                  hv_low_bar_chart := None |} |}.

(** [_initialize_choropleth]: every state white, both markers hidden at
    the position of San Diego. *)
Definition _initialize_choropleth (env : Loaded) : M unit :=
  xy0 <- lift (airport_coords env "SAN - San Diego International Airport") ;;
  modify (set_choropleth
            {| colors := choropleth_default_colors env;
               avg_fares := choropleth_default_fares env;
               color_bar_palette := ["#D3D3D3"];
               color_bar_factors := ["$0.00"];
               origin_xy := xy0;
               origin_marker_alpha := 0;
               dest_xy := xy0;
               dest_marker_alpha := 0 |}).

Definition _initialize_lg_bar_chart (env : Loaded) : M unit :=
  _update_lg_bar_chart env.

Definition _initialize_low_bar_chart (env : Loaded) : M unit :=
  _update_low_bar_chart env.

(** [build]: the six [_initialize_*] methods. *)
Definition build (env : Loaded) : M unit :=
  _initialize_choropleth env ;;
  _initialize_histogram env ;;
  _initialize_line_chart env ;;
  _initialize_seasonal_boxplot env ;;
  _initialize_lg_bar_chart env ;;
  _initialize_low_bar_chart env.

Inductive Event :=
| OriginChanged (new : string)
| DestinationChanged (new : string)
| SeasonChanged (new : string)
| ModelChanged (new : string)
| AnalyzeClicked.

(** bokeh assigns the new value to the widget and then calls the
    handler registered with [on_change].  An event is a call of the
    handler: bokeh makes none when the value assigned is the one the
    widget has, so the events below with the current value stand for
    no run of the application. *)
Definition dispatch (env : Loaded) (ev : Event) : M unit :=
  match ev with
  | OriginChanged new =>
      modify (fun st => set_dropdown_origin (set_value new (dropdown_origin st)) st) ;;
      _handle_origin_input_change env new
  | DestinationChanged new =>
      modify (fun st => set_dropdown_destination
                          (set_value new (dropdown_destination st)) st) ;;
      _handle_destination_input_change env new
  | SeasonChanged new =>
      modify (fun st => set_dropdown_season (set_value new (dropdown_season st)) st) ;;
      _handle_season_input_change env new
  | ModelChanged new =>
      modify (fun st => set_dropdown_ml_model
                          (set_value new (dropdown_ml_model st)) st) ;;
      _handle_ml_model_input_change env new
  | AnalyzeClicked => _handle_analyze_button_click env
  end.

(** The states the application can be in: the state left by [build] and
    every state left by an event handler, whether it returned or
    raised. *)
Inductive reachable (env : Loaded) : App -> Prop :=
| reachable_build : reachable env (state_of (build env (init env)))
| reachable_event (st : App) (ev : Event) :
    reachable env st -> reachable env (state_of (dispatch env ev st)).

(** ** The specification's reading, for comparison with the code *)

(** The conjunction of the equality predicates of the fields that are
    set. *)
Definition matches_selection (origin destination season_value : string)
           (filter_season : bool) (r : Row) : bool :=
  ((origin =? "")%string || (airport_name_concat_1 r =? origin)%string)
  && ((destination =? "")%string || (airport_name_concat_2 r =? destination)%string)
  && (negb filter_season || (season_value =? "")%string
      || (season r =? season_value)%string).

(** The distance categories as the specification words them: short
    below 500, medium below 1500, long below 3000, ultra below 6000. *)
Definition spec_distance_bin (d : Q) : option string :=
  if Qlt_bool d 500 then Some "short"
  else if Qlt_bool d 1500 then Some "medium"
  else if Qlt_bool d 3000 then Some "long"
  else if Qlt_bool d 6000 then Some "ultra"
  else None.

(** The opacity rule as the specification words it: visible only when
    both origin and destination are set. *)
Definition spec_chart_alpha (st : App) : Q :=
  if (value (dropdown_origin st) =? "")%string
     || (value (dropdown_destination st) =? "")%string
  then 0
  else 0.8.

(** The periods of every row can be turned into time stamps. *)
Definition periods_ok (frame : DataFrame) : bool :=
  forallb (fun r => period_ok (year r) (quarter r)) frame.

(** ** A small data store, used to exercise the definitions *)

Definition SAN := "SAN - San Diego International Airport".
Definition LAX := "LAX - Los Angeles International Airport".
Definition ORD := "ORD - Chicago O'Hare International Airport".
Definition SEA := "SEA - Seattle-Tacoma International Airport".
Definition JFK := "JFK - John F. Kennedy International Airport".

Definition sample_row (o d s : string) (yr q : Z) (f flg flow : Q)
           (clg clow io id so sd : string) (la1 lo1 la2 lo2 miles : Q) : Row :=
  {| airport_name_concat_1 := o; airport_name_concat_2 := d; season := s;
     year := yr; quarter := q; fare := f; fare_lg := flg; fare_low := flow;
     carrier_lg_name_concat := clg; carrier_low_name_concat := clow;
     airport_iata_1 := io; airport_iata_2 := id; state_1 := so; state_2 := sd;
     latitude_1 := la1; longitude_1 := lo1; latitude_2 := la2; longitude_2 := lo2;
     nsmiles := miles |}.

Definition sample_df : DataFrame :=
  [ sample_row SAN LAX "Winter" 2023 4 118.25 125 97.5
      "WN - Southwest Airlines" "AS - Alaska Airlines"
      "SAN" "LAX" "California" "California" 32.73 (-117.19) 33.94 (-118.41) 109;
    sample_row SAN LAX "Spring" 2024 1 120.5 130 99.99
      "WN - Southwest Airlines" "NK - Spirit Airlines"
      "SAN" "LAX" "California" "California" 32.73 (-117.19) 33.94 (-118.41) 109;
    sample_row SAN ORD "Summer" 2024 2 310 325.75 280
      "UA - United Airlines" "NK - Spirit Airlines"
      "SAN" "ORD" "California" "Illinois" 32.73 (-117.19) 41.98 (-87.9) 1723;
    sample_row SAN SEA "Fall" 2024 3 210.4 0 180
      "AS - Alaska Airlines" "AS - Alaska Airlines"
      "SAN" "SEA" "California" "Washington" 32.73 (-117.19) 47.45 (-122.31) 1050;
    sample_row JFK LAX "Summer" 2023 3 402.1 420 350
      "DL - Delta Air Lines" "B6 - JetBlue Airways"
      "JFK" "LAX" "New York" "California" 40.64 (-73.78) 33.94 (-118.41) 2475;
    sample_row LAX SAN "Spring" 2024 1 119 128 98
      "WN - Southwest Airlines" "AS - Alaska Airlines"
      "LAX" "SAN" "California" "California" 33.94 (-118.41) 32.73 (-117.19) 500 ].

Definition sample_date (yr m d : Z) : Timestamp :=
  {| ts_year := yr; ts_month := m; ts_day := d |}.

Definition sample_forecast (scale : Q) : list Point :=
  [ {| ds := sample_date 2023 12 31; y := 119 * scale |};
    {| ds := sample_date 2024 3 31; y := 121 * scale |};
    {| ds := sample_date 2024 6 30; y := 124.5 * scale |};
    {| ds := sample_date 2024 9 30; y := 126 * scale |} ].

Definition sample_table (scale : Q) (route_key : string) : option (list Point) :=
  if (route_key =? "SAN-LAX")%string then Some (sample_forecast scale) else None.

Definition sample_env : Loaded :=
  {| df := sample_df;
     xgb_model := fun x => 50 + (1 # 10) * in_nsmiles x;
     catboost_model := fun x => 45 + (1 # 8) * in_nsmiles x;
     decision_tree_model := fun x => inject_Z (fold_right Z.add 0%Z x) * 40;
     random_forest_model := fun x => inject_Z (fold_right Z.add 0%Z x) * 42;
     decision_forest_model_columns :=
       ["airport_name_concat_1_" ++ SAN; "airport_name_concat_1_" ++ JFK;
        "airport_name_concat_2_" ++ LAX; "airport_name_concat_2_" ++ ORD;
        "season_Spring"; "season_Summer"; "season_Fall"; "season_Winter"];
     prophet_fare_dfs := sample_table 1;
     prophet_farelg_dfs := sample_table 1.1;
     prophet_farelow_dfs := sample_table 0.8;
     states := [("CA", "California"); ("HI", "Hawaii"); ("IL", "Illinois");
                ("NY", "New York"); ("WA", "Washington")];
     palette := ["#1a9850"; "#91cf60"; "#d9ef8b"; "#fee08b"; "#fc8d59"; "#d73027"];
     current_year := 2026;
     library_raises := fun _ _ => false |}.

Definition after (env : Loaded) (ev : Event) (st : App) : App :=
  state_of (dispatch env ev st).

Definition sample_start : App := state_of (build sample_env (init sample_env)).

(** Origin chosen, destination still unset. *)
Definition sample_origin_only : App :=
  after sample_env (OriginChanged SAN) sample_start.

(** The route SAN to LAX with the FB Prophet model. *)
Definition sample_san_lax : App :=
  after sample_env (ModelChanged "FB Prophet")
    (after sample_env (DestinationChanged LAX) sample_origin_only).

(** A route through a code with several airports. *)
Definition sample_san_ord : App :=
  after sample_env (ModelChanged "FB Prophet")
    (after sample_env (DestinationChanged ORD) sample_origin_only).

(** A route whose history ends in 2023. *)
Definition sample_jfk_lax : App :=
  after sample_env (ModelChanged "FB Prophet")
    (after sample_env (DestinationChanged LAX)
       (after sample_env (OriginChanged JFK) sample_start)).

(** A pair of airports with no row in the store, with the XGBoost
    model. *)
Definition sample_no_data : App :=
  after sample_env (ModelChanged "XGBoost")
    (after sample_env (DestinationChanged SEA)
       (after sample_env (OriginChanged JFK) sample_start)).

(** A route of exactly 500 miles. *)
Definition sample_row_500 : Row :=
  sample_row LAX SAN "Spring" 2024 1 119 128 98
    "WN - Southwest Airlines" "AS - Alaska Airlines"
    "LAX" "SAN" "California" "California" 33.94 (-118.41) 32.73 (-117.19) 500.

(** The route SAN to LAX after a successful FB Prophet analysis. *)
Definition sample_forecasted : App :=
  after sample_env AnalyzeClicked sample_san_lax.

(** ** Reasoning about methods *)

(** [hoare P m Q E]: started in a state where [P] holds, the method [m]
    ends in a state where [Q] holds if it returns and in a state where
    [E] holds if it raises. *)
Definition hoare {A} (P : App -> Prop) (m : M A) (Q E : App -> Prop) : Prop :=
  forall st, P st ->
    match m st with
    | (Ok _, st', _) => Q st'
    | (Raise _, st', _) => E st'
    end.

(** A property of the state that does not look at the charts. *)
Definition chart_blind (P : App -> Prop) : Prop :=
  forall c st, P st -> P (set_charts c st).

(** The table the FB Prophet branch consults for a route: the secondary
    table when either code names several airports. *)
Definition consulted_forecast (env : Loaded) (src dst : string)
  : option (list Point) :=
  if mem_string src multi_airport_codes || mem_string dst multi_airport_codes
  then prophet_fare_dfs2 (src ++ "-" ++ dst)
  else prophet_fare_dfs env (src ++ "-" ++ dst).

(** The display shows the placeholder whenever the FB Prophet model is
    selected. *)
Definition prophet_display_reset (st : App) : Prop :=
  value (dropdown_ml_model st) = "FB Prophet" ->
  analysis_results_text st = placeholder_text.

Definition shows_placeholder (st : App) : Prop :=
  analysis_results_text st = placeholder_text.

(** The four dropdown widgets of [st] are those of [s0]. *)
Definition same_dropdowns (s0 st : App) : Prop :=
  dropdown_origin st = dropdown_origin s0
  /\ dropdown_destination st = dropdown_destination s0
  /\ dropdown_season st = dropdown_season s0
  /\ dropdown_ml_model st = dropdown_ml_model s0.

(** The options a dropdown offers besides the empty one. *)
Definition airport_options (col : Row -> string) (frame : DataFrame) : list string :=
  sort_by String.leb (unique String.eqb (map col frame)).

(** Every character of the string is white space. *)
Fixpoint all_spaces (s : string) : bool :=
  match s with
  | EmptyString => true
  | String c s' => is_space c && all_spaces s'
  end.

(** No character of the string is white space. *)
Fixpoint no_space (s : string) : bool :=
  match s with
  | EmptyString => true
  | String c s' => negb (is_space c) && no_space s'
  end.

(** A stored series: the history of one fare column followed by the
    forecast. *)
Definition stored_series (col : TsRow -> Q) (hist : list TsRow) (fcst : list Point)
  : option (list Point) :=
  Some (map (fun r => {| ds := ts_date r; y := col r |}) hist ++ fcst)%list.


(** The dropdowns and the charts other than the line chart. *)
Definition analyze_frame (s0 st : App) : Prop :=
  same_dropdowns s0 st
  /\ choropleth (charts st) = choropleth (charts s0)
  /\ hv_histogram (charts st) = hv_histogram (charts s0)
  /\ hv_seasonal_boxplot (charts st) = hv_seasonal_boxplot (charts s0)
  /\ hv_lg_bar_chart (charts st) = hv_lg_bar_chart (charts s0)
  /\ hv_low_bar_chart (charts st) = hv_low_bar_chart (charts s0).

(** The forecast cache is empty and the line chart is what its redraw
    callback, run with the charts [c] of that moment, made of the chart
    [old]: the chart the callback gave, without forecast curve, or
    still [old] when the callback failed. *)
Definition forecast_cleared (env : Loaded) (old : option LineChart) (st : App)
  : Prop :=
  prophet_fare_df st = None
  /\ prophet_fare_lg_df st = None
  /\ prophet_fare_low_df st = None
  /\ exists c,
       match callback env LineChartChart (_redraw_holoviews_line_chart env)
                      (set_charts c st) with
       | Ok l => hv_line_chart (charts st) = Some l
                 /\ prophet_curves l = None
                 /\ _redraw_holoviews_line_chart env st = Ok l
       | Raise _ => hv_line_chart (charts st) = old
       end.

(** The forecast cache and the line chart of [st] are those of [s0]. *)
Definition forecast_kept (s0 st : App) : Prop :=
  prophet_fare_df st = prophet_fare_df s0
  /\ prophet_fare_lg_df st = prophet_fare_lg_df s0
  /\ prophet_fare_low_df st = prophet_fare_low_df s0
  /\ hv_line_chart (charts st) = hv_line_chart (charts s0).
(** * Properties *)

(** ** Rationals *)

Lemma Qlt_bool_iff (a b : Q) : Qlt_bool a b = true <-> a < b.
Proof.
  unfold Qlt_bool. rewrite negb_true_iff. split; intro H.
  - apply Qnot_le_lt. intro L. apply Qle_bool_iff in L. congruence.
  - destruct (Qle_bool b a) eqn:E; [|reflexivity].
    apply Qle_bool_iff in E. exfalso. exact (Qlt_not_le _ _ H E).
Qed.

Lemma Qlt_bool_false_iff (a b : Q) : Qlt_bool a b = false <-> b <= a.
Proof.
  unfold Qlt_bool. rewrite negb_false_iff. apply Qle_bool_iff.
Qed.

(** ** Filter engine *)

Lemma filter_all {A} (l : list A) : filter (fun _ => true) l = l.
Proof.
  induction l as [|x l IH]; simpl; [reflexivity | now rewrite IH].
Qed.

Lemma filter_twice {A} (f g : A -> bool) (l : list A) :
  filter g (filter f l) = filter (fun x => f x && g x) l.
Proof.
  induction l as [|x l IH]; simpl; [reflexivity|].
  destruct (f x); simpl; [destruct (g x)|]; now rewrite IH.
Qed.

(** The filter engine is one pass over the data store with the
    conjunction of the predicates of the fields that are set. *)
Lemma get_filtered_data_filter (env : Loaded) (st : App) (filter_season : bool) :
  _get_filtered_data env st filter_season
  = filter (matches_selection (value (dropdown_origin st))
                              (value (dropdown_destination st))
                              (value (dropdown_season st)) filter_season)
           (df env).
Proof.
  unfold _get_filtered_data, matches_selection.
  destruct (value (dropdown_origin st) =? "")%string,
           (value (dropdown_destination st) =? "")%string,
           filter_season,
           (value (dropdown_season st) =? "")%string;
    cbn [negb orb]; rewrite ?filter_twice;
    first [ apply filter_ext; intro r;
            now rewrite ?andb_true_r, ?andb_true_l, ?andb_assoc
          | symmetry; apply forallb_filter_id, forallb_forall; reflexivity ].
Qed.

(** C1.  The result of the filter engine is the subset of the data
    store that satisfies the conjunction of the equality predicates of
    the non-empty fields: origin on [airport_name_concat_1], destination
    on [airport_name_concat_2], and season when season filtering is
    requested.  When origin and destination are both set every output
    row equals both values; when all fields are empty the full data
    store is returned. *)
Theorem filter_engine_conjunction (env : Loaded) (st : App) (filter_season : bool) :
  let origin := value (dropdown_origin st) in
  let destination := value (dropdown_destination st) in
  let season_value := value (dropdown_season st) in
  let out := _get_filtered_data env st filter_season in
  out = filter (matches_selection origin destination season_value filter_season)
               (df env)
  /\ (forall r, In r out <->
        In r (df env)
        /\ (origin <> "" -> airport_name_concat_1 r = origin)
        /\ (destination <> "" -> airport_name_concat_2 r = destination)
        /\ (filter_season = true -> season_value <> "" -> season r = season_value))
  /\ (origin <> "" -> destination <> "" ->
      forall r, In r out ->
        airport_name_concat_1 r = origin /\ airport_name_concat_2 r = destination)
  /\ (origin = "" -> destination = "" ->
      (filter_season = true -> season_value = "") -> out = df env).
Proof.
  intros origin destination season_value out.
  assert (E : out = filter (matches_selection origin destination season_value
                                              filter_season) (df env))
    by apply get_filtered_data_filter.
  assert (M : forall r,
             matches_selection origin destination season_value filter_season r = true
             <-> (origin <> "" -> airport_name_concat_1 r = origin)
                 /\ (destination <> "" -> airport_name_concat_2 r = destination)
                 /\ (filter_season = true -> season_value <> "" ->
                     season r = season_value)).
  { intro r. unfold matches_selection.
    rewrite !andb_true_iff, !orb_true_iff, negb_true_iff, !String.eqb_eq.
    destruct (string_dec origin "") as [Ho|Ho],
             (string_dec destination "") as [Hd|Hd],
             (string_dec season_value "") as [Hs|Hs],
             filter_season; intuition congruence. }
  split; [exact E|].
  split; [|split].
  - intro r. rewrite E, filter_In, M. tauto.
  - intros Ho Hd r Hr. rewrite E, filter_In, M in Hr. tauto.
  - intros Ho Hd Hs. rewrite E.
    apply forallb_filter_id, forallb_forall. intros r _. apply M.
    destruct filter_season; intuition congruence.
Qed.

Lemma filter_engine_conjunction_witness :
  _get_filtered_data sample_env sample_san_lax false
  = filter (fun r => (airport_name_concat_1 r =? SAN)%string
                     && (airport_name_concat_2 r =? LAX)%string) sample_df
  /\ _get_filtered_data sample_env (init sample_env) true = sample_df.
Proof.
  destruct (filter_engine_conjunction sample_env sample_san_lax false)
    as (E & _ & _ & _).
  destruct (filter_engine_conjunction sample_env (init sample_env) true)
    as (_ & _ & _ & F).
  split.
  - rewrite E. reflexivity.
  - apply F; reflexivity.
Defined.

(** ** The result display *)

Lemma decimal_head (n : Z) :
  exists c s, decimal n = String c s /\ c <> " "%char.
Proof.
  unfold decimal.
  destruct (N.to_uint (Z.to_N n)); simpl;
    eexists; eexists; (split; [reflexivity | discriminate]).
Qed.

(** A formatted number never starts with a blank. *)
Lemma format_2f_head (v : Q) :
  exists c s, format_2f v = String c s /\ c <> " "%char.
Proof.
  unfold format_2f.
  destruct (Qlt_bool v 0).
  - simpl. eexists; eexists; (split; [reflexivity | discriminate]).
  - destruct (decimal_head (round_half_even (Qabs v * 100) / 100))
      as (c & s & E & N).
    rewrite E. simpl. eexists; eexists; (split; [reflexivity | exact N]).
Qed.

Lemma price_text_not_placeholder (v : Q) :
  "Est. Price:<h2>$ " ++ format_2f v ++ "</h2>" <> placeholder_text.
Proof.
  destruct (format_2f_head v) as (c & s & E & N).
  rewrite E. unfold placeholder_text. simpl. intro H.
  apply N. congruence.
Qed.

(** C10.  The display shows the placeholder text exactly when the value
    passed to the update is zero, and otherwise the value formatted to
    two decimals; so a prediction of exactly zero leaves the same text
    as the reset [_update_analysis_results(0.)]. *)
Theorem display_placeholder_iff_zero (v : Q) (st : App) :
  let st' := state_of (_update_analysis_results v st) in
  result_of (_update_analysis_results v st) = Ok tt
  /\ (analysis_results_text st' = "Est. Price:<h2>$   -  </h2>" <-> v == 0)
  /\ (~ v == 0 ->
      analysis_results_text st' = "Est. Price:<h2>$ " ++ format_2f v ++ "</h2>")
  /\ (v == 0 -> st' = state_of (_update_analysis_results 0 st)).
Proof.
  unfold _update_analysis_results.
  destruct (Qeq_bool v 0) eqn:E; cbn.
  - apply Qeq_bool_iff in E. repeat split; auto. contradiction.
  - apply Qeq_bool_neq in E. repeat split; auto; try contradiction.
    intro H. exfalso. exact (price_text_not_placeholder v H).
Qed.

Lemma display_placeholder_iff_zero_witness :
  analysis_results_text
    (state_of (_update_analysis_results (0 # 7) sample_san_lax))
  = placeholder_text
  /\ analysis_results_text
       (state_of (_update_analysis_results 123.456 sample_san_lax))
     = "Est. Price:<h2>$ 123.46</h2>".
Proof.
  split.
  - apply (display_placeholder_iff_zero (0 # 7) sample_san_lax). reflexivity.
  - destruct (display_placeholder_iff_zero 123.456 sample_san_lax)
      as (_ & _ & H & _).
    rewrite H; [reflexivity | discriminate].
Defined.

(** ** The analyze button: tree-ensemble models *)

(** C7.  With the XGBoost or CatBoost model and an empty filtered
    selection, the analyze handler raises nothing, takes the zero
    sentinel as its estimate and shows the placeholder text. *)
Theorem empty_selection_placeholder (env : Loaded) (st : App) :
  value (dropdown_ml_model st) = "XGBoost"
  \/ value (dropdown_ml_model st) = "CatBoost" ->
  _get_filtered_data env st false = [] ->
  tree_ensemble_estimate env st = 0
  /\ _handle_analyze_button_click env st
     = (Ok tt, set_analysis_results_text "Est. Price:<h2>$   -  </h2>" st, []).
Proof.
  intros Hm He.
  assert (Z0 : tree_ensemble_estimate env st = 0).
  { unfold tree_ensemble_estimate. now rewrite He. }
  split; [exact Z0|].
  unfold _handle_analyze_button_click, bind, get.
  destruct Hm as [Hm|Hm]; rewrite Hm; cbn [mem_string existsb String.eqb Ascii.eqb Bool.eqb orb];
    rewrite Z0; reflexivity.
Qed.

Lemma empty_selection_placeholder_witness :
  analysis_results_text
    (state_of (_handle_analyze_button_click sample_env sample_no_data))
  = placeholder_text
  /\ result_of (_handle_analyze_button_click sample_env sample_no_data) = Ok tt.
Proof.
  assert (H := empty_selection_placeholder sample_env sample_no_data
                 (or_introl eq_refl) eq_refl).
  destruct H as [_ H]. rewrite H. split; reflexivity.
Defined.

(** ** Feature derivation *)

Lemma distance_bin_cases (d : Q) :
  cut_labels distance_bins distance_labels d
  = if Qlt_bool 0 d then
      if Qlt_bool 500 d then
        if Qlt_bool 1500 d then
          if Qlt_bool 3000 d then
            if Qlt_bool 6000 d then None else Some "ultra"
          else Some "long"
        else Some "medium"
      else Some "short"
    else None.
Proof.
  unfold cut_labels, cut, distance_bins, distance_labels. cbn [searchsorted_left].
  destruct (Qlt_bool 0 d); [|reflexivity].
  destruct (Qlt_bool 500 d); [|reflexivity].
  destruct (Qlt_bool 1500 d); [|reflexivity].
  destruct (Qlt_bool 3000 d); [|reflexivity].
  destruct (Qlt_bool 6000 d); reflexivity.
Qed.

Ltac q_cases :=
  repeat match goal with
         | |- context [Qlt_bool ?a ?b] =>
             let E := fresh "E" in
             destruct (Qlt_bool a b) eqn:E;
             [apply Qlt_bool_iff in E | apply Qlt_bool_false_iff in E]
         end.

(** The distance categories are the half-open intervals (0, 500],
    (500, 1500], (1500, 3000] and (3000, 6000]. *)
Lemma distance_bin_intervals (d : Q) :
  let b := cut_labels distance_bins distance_labels d in
  (b = Some "short" <-> 0 < d <= 500)
  /\ (b = Some "medium" <-> 500 < d <= 1500)
  /\ (b = Some "long" <-> 1500 < d <= 3000)
  /\ (b = Some "ultra" <-> 3000 < d <= 6000)
  /\ (b = None <-> d <= 0 \/ 6000 < d).
Proof.
  cbv zeta. rewrite distance_bin_cases.
  q_cases; repeat split; intros; try discriminate; try reflexivity; try lra.
  all: try (exfalso; lra).
  all: try (destruct H; lra).
Qed.

(** C4, as stated, fails at a bin edge: a distance of exactly 500 miles
    is not below 500, so the specification's wording makes it medium,
    while the code puts it in the short category. *)
Lemma distance_bin_edge_counterexample :
  nsmiles sample_row_500 = 500
  /\ distance_bin (feature_engineering_row sample_row_500) = Some "short"
  /\ spec_distance_bin (nsmiles sample_row_500) = Some "medium"
  /\ ~ (forall r : Row,
          distance_bin (feature_engineering_row r) = spec_distance_bin (nsmiles r)).
Proof.
  repeat split.
  intro H. specialize (H sample_row_500). discriminate H.
Qed.

(** C4, amended.  For every input row the derivation computes
    [lat_diff] and [lon_diff] as destination minus origin, [same_state]
    as the 0/1 flag of equal state codes and [route] as the two IATA
    codes joined by "-"; it bins [nsmiles] into the four ordered
    categories short for (0, 500], medium for (500, 1500], long for
    (1500, 3000] and ultra for (3000, 6000], and into none outside
    (0, 6000]; and the row handed to the model has its year replaced by
    the current calendar year. *)
Theorem feature_derivation (env : Loaded) (r : Row) :
  let e := feature_engineering_row r in
  let x := usable_features (current_year env) e in
  lat_diff e = latitude_2 r - latitude_1 r
  /\ lon_diff e = longitude_2 r - longitude_1 r
  /\ (state_1 r = state_2 r -> same_state e = 1%Z)
  /\ (state_1 r <> state_2 r -> same_state e = 0%Z)
  /\ route e = airport_iata_1 r ++ "-" ++ airport_iata_2 r
  /\ distance_labels = ["short"; "medium"; "long"; "ultra"]
  /\ (distance_bin e = Some "short" <-> 0 < nsmiles r <= 500)
  /\ (distance_bin e = Some "medium" <-> 500 < nsmiles r <= 1500)
  /\ (distance_bin e = Some "long" <-> 1500 < nsmiles r <= 3000)
  /\ (distance_bin e = Some "ultra" <-> 3000 < nsmiles r <= 6000)
  /\ (distance_bin e = None <-> nsmiles r <= 0 \/ 6000 < nsmiles r)
  /\ in_year x = current_year env
  /\ (forall (st : App) (rest : DataFrame),
        _get_filtered_data env st false = r :: rest ->
        (value (dropdown_ml_model st) = "XGBoost" ->
         tree_ensemble_estimate env st = xgb_model env x)
        /\ (value (dropdown_ml_model st) = "CatBoost" ->
            tree_ensemble_estimate env st = catboost_model env x)).
Proof.
  cbv zeta.
  destruct (distance_bin_intervals (nsmiles r)) as (B1 & B2 & B3 & B4 & B5).
  repeat match goal with |- _ /\ _ => split end;
    try reflexivity; try assumption.
  - intro E. cbn. apply String.eqb_eq in E. now rewrite E.
  - intro E. cbn. apply String.eqb_neq in E. now rewrite E.
  - intros st rest F. unfold tree_ensemble_estimate. rewrite F. cbn [feature_engineering map].
    split; intro Hm; rewrite Hm; reflexivity.
Qed.

Lemma feature_derivation_witness :
  same_state (feature_engineering_row sample_row_500) = 1%Z
  /\ distance_bin (feature_engineering_row sample_row_500) = Some "short"
  /\ in_year (usable_features (current_year sample_env)
                              (feature_engineering_row sample_row_500)) = 2026%Z.
Proof.
  destruct (feature_derivation sample_env sample_row_500)
    as (_ & _ & S & _ & _ & _ & B & _ & _ & _ & _ & Y & _).
  split; [apply S; reflexivity|].
  split; [apply B; split; [reflexivity | discriminate] | exact Y].
Defined.

(** ** Sorting and grouping *)

Section SortingFacts.
Context {A : Type}.
Variable leb : A -> A -> bool.
Variable R : A -> A -> Prop.
Hypothesis leb_R : forall a b, leb a b = true <-> R a b.
Hypothesis R_total : forall a b, R a b \/ R b a.
Hypothesis R_trans : forall a b c, R a b -> R b c -> R a c.

Lemma insert_sorted_In (x z : A) (l : list A) :
  In z (insert_sorted leb x l) <-> z = x \/ In z l.
Proof.
  induction l as [|h l IH]; simpl.
  - intuition.
  - destruct (leb x h); simpl; rewrite ?IH; intuition.
Qed.

Lemma sort_by_In (z : A) (l : list A) : In z (sort_by leb l) <-> In z l.
Proof.
  induction l as [|h l IH]; simpl; [tauto|].
  rewrite insert_sorted_In, IH. intuition.
Qed.

Lemma insert_sorted_sorted (x : A) (l : list A) :
  StronglySorted R l -> StronglySorted R (insert_sorted leb x l).
Proof.
  induction 1 as [|h l S IH F]; simpl.
  - constructor; constructor.
  - destruct (leb x h) eqn:E.
    + apply leb_R in E. constructor; [now constructor|].
      constructor; [exact E|].
      eapply Forall_impl; [|exact F]. intros b Hb. now apply R_trans with h.
    + assert (Hhx : R h x).
      { destruct (R_total x h) as [H|H]; [|exact H].
        apply leb_R in H. congruence. }
      constructor; [exact IH|].
      apply Forall_forall. intros b Hb. apply insert_sorted_In in Hb.
      destruct Hb as [->|Hb]; [exact Hhx|].
      rewrite Forall_forall in F. now apply F.
Qed.

Lemma sort_by_sorted (l : list A) : StronglySorted R (sort_by leb l).
Proof.
  induction l as [|h l IH]; simpl; [constructor|].
  now apply insert_sorted_sorted.
Qed.

Lemma sort_by_length (l : list A) :
  List.length (sort_by leb l) = List.length l.
Proof.
  assert (I : forall x l', List.length (insert_sorted leb x l') = S (List.length l')).
  { intros x l'. induction l' as [|h l' IH]; simpl; [reflexivity|].
    destruct (leb x h); simpl; [reflexivity | now rewrite IH]. }
  induction l as [|h l IH]; simpl; [reflexivity|]. now rewrite I, IH.
Qed.
End SortingFacts.

Lemma insert_sorted_In_any {A} (leb : A -> A -> bool) (x z : A) (l : list A) :
  In z (insert_sorted leb x l) -> z = x \/ In z l.
Proof.
  induction l as [|h l IH]; simpl.
  - intuition.
  - destruct (leb x h); simpl; intuition.
Qed.

Lemma sort_by_In_any {A} (leb : A -> A -> bool) (z : A) (l : list A) :
  In z (sort_by leb l) <-> In z l.
Proof.
  induction l as [|h l IH]; simpl; [tauto|].
  split.
  - intro H. apply insert_sorted_In_any in H. intuition.
  - intros [->|H].
    + clear IH. induction (sort_by leb l) as [|h' l' IH']; simpl; [now left|].
      destruct (leb z h'); simpl; auto.
    + apply IH in H. clear IH.
      induction (sort_by leb l) as [|h' l' IH']; simpl in *; [tauto|].
      destruct (leb h h'); simpl; intuition.
Qed.

Lemma In_firstn {A} (n : nat) (l : list A) (x : A) :
  In x (firstn n l) -> In x l.
Proof.
  revert n. induction l as [|h l IH]; intros [|n]; simpl; try tauto.
  intros [->|H]; [now left | right; eauto].
Qed.

Lemma StronglySorted_firstn {A} (R : A -> A -> Prop) (n : nat) (l : list A) :
  StronglySorted R l -> StronglySorted R (firstn n l).
Proof.
  intro S. revert n. induction S as [|h l S IH F]; intro n.
  - rewrite firstn_nil. constructor.
  - destruct n as [|n]; simpl; [constructor|].
    constructor; [apply IH|].
    apply Forall_forall. intros b Hb.
    rewrite Forall_forall in F. apply F. eapply In_firstn. exact Hb.
Qed.

Lemma StronglySorted_filter {A} (R : A -> A -> Prop) (f : A -> bool) (l : list A) :
  StronglySorted R l -> StronglySorted R (filter f l).
Proof.
  induction 1 as [|h l S IH F]; simpl; [constructor|].
  destruct (f h); [|exact IH].
  constructor; [exact IH|].
  apply Forall_forall. intros b Hb. apply filter_In in Hb.
  rewrite Forall_forall in F. now apply F.
Qed.

Lemma insert_sorted_NoDup {A} (leb : A -> A -> bool) (x : A) (l : list A) :
  ~ In x l -> NoDup l -> NoDup (insert_sorted leb x l).
Proof.
  induction l as [|h l IH]; simpl; intros Hx Hl.
  - constructor; [tauto | constructor].
  - destruct (leb x h).
    + constructor; [simpl; tauto | exact Hl].
    + inversion Hl as [|? ? Hh Hl']; subst.
      constructor.
      * intro Hin. apply insert_sorted_In_any in Hin.
        destruct Hin as [->|Hin]; tauto.
      * apply IH; tauto.
Qed.

Lemma sort_by_NoDup {A} (leb : A -> A -> bool) (l : list A) :
  NoDup l -> NoDup (sort_by leb l).
Proof.
  induction 1 as [|h l Hh Hl IH]; simpl; [constructor|].
  apply insert_sorted_NoDup; [|exact IH].
  now rewrite sort_by_In_any.
Qed.

Section GroupingFacts.
Context {R K : Type}.
Variable key_eqb : K -> K -> bool.
Variable key_leb : K -> K -> bool.
Hypothesis key_eqb_eq : forall a b, key_eqb a b = true <-> a = b.

Lemma unique_In (k : K) (l : list K) : In k (unique key_eqb l) <-> In k l.
Proof.
  induction l as [|h l IH]; simpl; [tauto|].
  rewrite filter_In, IH, negb_true_iff.
  destruct (key_eqb h k) eqn:E.
  - apply key_eqb_eq in E. subst. intuition congruence.
  - assert (h <> k) by (intro; subst; rewrite (proj2 (key_eqb_eq k k) eq_refl) in E;
                        discriminate).
    intuition.
Qed.

Lemma unique_NoDup (l : list K) : NoDup (unique key_eqb l).
Proof.
  induction l as [|h l IH]; simpl; constructor.
  - rewrite filter_In, negb_true_iff.
    rewrite (proj2 (key_eqb_eq h h) eq_refl). intros [_ H]. discriminate.
  - now apply NoDup_filter.
Qed.

Lemma groupby_keys (key : R -> K) (frame : list R) :
  map fst (groupby key_eqb key_leb key frame)
  = sort_by key_leb (unique key_eqb (map key frame)).
Proof.
  unfold groupby. rewrite map_map. simpl. apply map_id.
Qed.

Lemma groupby_keys_NoDup (key : R -> K) (frame : list R) :
  NoDup (map fst (groupby key_eqb key_leb key frame)).
Proof.
  rewrite groupby_keys. apply sort_by_NoDup, unique_NoDup.
Qed.

(** A group holds exactly the rows with its key, and every key of the
    frame has a group. *)
Lemma groupby_In (key : R -> K) (frame : list R) (k : K) (rows : list R) :
  In (k, rows) (groupby key_eqb key_leb key frame)
  <-> In k (map key frame)
      /\ rows = filter (fun r => key_eqb (key r) k) frame.
Proof.
  unfold groupby. rewrite in_map_iff. split.
  - intros (k' & E & Hin). injection E as -> <-.
    rewrite sort_by_In_any, unique_In in Hin. tauto.
  - intros (Hin & ->). exists k. split; [reflexivity|].
    now rewrite sort_by_In_any, unique_In.
Qed.
End GroupingFacts.

Lemma groupby_mean_In {R} (key : R -> string) (col : R -> Q) (frame : list R)
      (k : string) (v : Q) :
  In (k, v) (groupby_mean key col frame)
  <-> In k (map key frame)
      /\ v = group_mean (map col (filter (fun r => (key r =? k)%string) frame)).
Proof.
  unfold groupby_mean. rewrite in_map_iff. split.
  - intros ((k', rows) & E & Hin). simpl in E. injection E as -> <-.
    apply (groupby_In String.eqb String.leb String.eqb_eq) in Hin.
    destruct Hin as (Hk & ->). tauto.
  - intros (Hk & ->).
    exists (k, filter (fun r => (key r =? k)%string) frame). split; [reflexivity|].
    now apply (groupby_In String.eqb String.leb String.eqb_eq).
Qed.

Lemma groupby_mean_NoDup {R} (key : R -> string) (col : R -> Q) (frame : list R) :
  NoDup (map fst (groupby_mean key col frame)).
Proof.
  unfold groupby_mean. rewrite map_map. simpl.
  apply (groupby_keys_NoDup String.eqb String.leb String.eqb_eq).
Qed.

(** ** Carrier bar charts *)

(** C6.  For every selection state and both carrier variants the bar
    chart data, obtained by grouping the filtered rows by carrier name
    and taking the mean fare, has at most 10 entries, is sorted by
    descending mean fare and holds only strictly positive means. *)
Theorem bar_chart_top_ten (env : Loaded) (st : App) (carrier_type : string) :
  let bars := avg_data (_redraw_holoviews_bar_chart env st carrier_type) in
  let filtered_df := _get_filtered_data env st true in
  let col := if (carrier_type =? "lg")%string then fare_lg else fare_low in
  let name_col := if (carrier_type =? "lg")%string
                  then carrier_lg_name_concat else carrier_low_name_concat in
  (List.length bars <= 10)%nat
  /\ StronglySorted (fun a b => snd b <= snd a) bars
  /\ Forall (fun a => 0 < snd a) bars
  /\ Forall (fun a =>
               In (fst a) (map name_col filtered_df)
               /\ snd a = group_mean
                            (map col (filter (fun r => (name_col r =? fst a)%string)
                                             filtered_df)))
            bars.
Proof.
  cbv zeta. unfold _redraw_holoviews_bar_chart, bar_chart_data. cbn [avg_data].
  set (filtered_df := _get_filtered_data env st true).
  set (col := if (carrier_type =? "lg")%string then fare_lg else fare_low).
  set (name_col := if (carrier_type =? "lg")%string
                   then carrier_lg_name_concat else carrier_low_name_concat).
  set (means := groupby_mean name_col col filtered_df).
  repeat split.
  - eapply Nat.le_trans; [apply filter_length_le | apply firstn_le_length].
  - apply StronglySorted_filter, StronglySorted_firstn.
    apply (@sort_by_sorted _ fare_desc).
    + intros a b. unfold fare_desc. apply Qle_bool_iff.
    + intros a b. destruct (Qlt_le_dec (snd a) (snd b)) as [H|H]; [right|left]; auto.
      now apply Qlt_le_weak.
    + intros a b c Hab Hbc. now apply Qle_trans with (snd b).
  - apply Forall_forall. intros a Ha. apply filter_In in Ha.
    now apply Qlt_bool_iff.
  - apply Forall_forall. intros [k v] Ha. apply filter_In in Ha.
    destruct Ha as [Ha _]. apply In_firstn in Ha.
    apply sort_by_In_any in Ha. now apply groupby_mean_In in Ha.
Qed.

(** ** Dates *)

Lemma ts_leb_iff (a b : Timestamp) :
  ts_leb a b = true
  <-> (ts_year a < ts_year b
       \/ ts_year a = ts_year b
          /\ (ts_month a < ts_month b
              \/ ts_month a = ts_month b /\ ts_day a <= ts_day b))%Z.
Proof.
  unfold ts_leb.
  rewrite !orb_true_iff, !andb_true_iff, !orb_true_iff, !andb_true_iff.
  rewrite !Z.ltb_lt, !Z.eqb_eq, Z.leb_le. tauto.
Qed.

Lemma ts_leb_refl (a : Timestamp) : ts_leb a a = true.
Proof. apply ts_leb_iff. lia. Qed.

Lemma ts_leb_trans (a b c : Timestamp) :
  ts_leb a b = true -> ts_leb b c = true -> ts_leb a c = true.
Proof. rewrite !ts_leb_iff. lia. Qed.

Lemma ts_leb_total (a b : Timestamp) : ts_leb a b = true \/ ts_leb b a = true.
Proof. rewrite !ts_leb_iff. lia. Qed.

Lemma fold_later (l : list Timestamp) (a : Timestamp) :
  (fold_left later l a = a \/ In (fold_left later l a) l)
  /\ ts_leb a (fold_left later l a) = true
  /\ forall t, In t l -> ts_leb t (fold_left later l a) = true.
Proof.
  revert a. induction l as [|h l IH]; intro a; simpl.
  - split; [now left|]. split; [apply ts_leb_refl | tauto].
  - destruct (IH (later a h)) as (I1 & I2 & I3).
    assert (Ha : ts_leb a (later a h) = true).
    { unfold later. destruct (ts_leb a h) eqn:E; [exact E | apply ts_leb_refl]. }
    assert (Hh : ts_leb h (later a h) = true).
    { unfold later. destruct (ts_leb a h) eqn:E; [apply ts_leb_refl|].
      destruct (ts_leb_total a h); congruence. }
    split; [|split].
    + destruct I1 as [I1|I1]; [|now right; right].
      rewrite I1. unfold later. destruct (ts_leb a h); [right; now left | now left].
    + now apply ts_leb_trans with (later a h).
    + intros t [<-|Ht]; [now apply ts_leb_trans with (later a h) | now apply I3].
Qed.

(** The maximum of a date column is one of its dates and is at or after
    each of them. *)
Lemma ts_max_upper (l : list Timestamp) (m : Timestamp) :
  ts_max l = Some m -> In m l /\ forall t, In t l -> ts_leb t m = true.
Proof.
  destruct l as [|a l]; [discriminate|]. simpl. intro E. injection E as <-.
  destruct (fold_later l a) as (I1 & I2 & I3). fold later. split.
  - destruct I1 as [I1|I1]; [left; now rewrite I1 | now right].
  - intros t [<-|Ht]; [exact I2 | now apply I3].
Qed.

Lemma result_map_Ok {A B} (f : A -> Result B) (l : list A) (out : list B) :
  result_map f l = Ok out -> Forall2 (fun a b => f a = Ok b) l out.
Proof.
  revert out. induction l as [|a l IH]; simpl; intros out E.
  - injection E as <-. constructor.
  - destruct (f a) as [b|e] eqn:Fa; simpl in E; [|discriminate].
    destruct (result_map f l) as [bs|e] eqn:Fl; simpl in E; [|discriminate].
    injection E as <-. constructor; [exact Fa | now apply IH].
Qed.

Lemma result_map_total {A B} (f : A -> Result B) (l : list A) :
  (forall a, In a l -> exists b, f a = Ok b) ->
  exists out, result_map f l = Ok out.
Proof.
  induction l as [|a l IH]; simpl; intro H.
  - now exists [].
  - destruct (H a (or_introl eq_refl)) as (b & ->).
    destruct IH as (bs & ->); [intros; apply H; now right|].
    now exists (b :: bs).
Qed.

(** When every period is valid each row gets its date. *)
Lemma with_dates_total (frame : DataFrame) :
  periods_ok frame = true -> exists dated, with_dates frame = Ok dated.
Proof.
  intro H. apply result_map_total. intros r Hr.
  unfold periods_ok in H. rewrite forallb_forall in H. specialize (H r Hr).
  unfold quarter_timestamp. rewrite H. simpl. eauto.
Qed.

Lemma with_dates_In (frame : DataFrame) (dated : list (Timestamp * Row))
      (r : Row) (d : Timestamp) :
  with_dates frame = Ok dated ->
  In r frame -> quarter_timestamp (year r) (quarter r) = Ok d ->
  In d (map fst dated).
Proof.
  intros E. apply result_map_Ok in E.
  induction E as [|a x l out Hax _ IH]; simpl; [tauto|].
  intros [->|Hr] Hd.
  - left. rewrite Hd in Hax. simpl in Hax. now injection Hax as <-.
  - right. now apply IH.
Qed.

(** ** Line chart *)

Lemma from_date_In (max_date : option Timestamp) (frame : list Point) (p : Point) :
  In p (from_date max_date frame)
  <-> In p frame /\ exists m, max_date = Some m /\ ts_leb m (ds p) = true.
Proof.
  unfold from_date. rewrite filter_In.
  destruct max_date as [m|].
  - split; [intros [H1 H2]; eauto | intros (H1 & m' & E & H2)].
    injection E as <-. tauto.
  - split; [intros [_ H]; discriminate | intros (_ & m & E & _); discriminate].
Qed.

(** C8.  When a forecast has been computed and the line chart is
    redrawn, every point of the three rendered forecast curves
    (overall, largest carrier, lowest-cost carrier) is dated at or
    after the last historical date of the filtered route, hence at or
    after every historical date: the continuation never starts before
    the last historical date.  The redraw does render the curves when
    the periods of the route are valid. *)
Theorem forecast_continuation_starts_at_last_date
        (env : Loaded) (st : App) (fare_df fare_lg_df fare_low_df : list Point) :
  prophet_fare_df st = Some fare_df ->
  prophet_fare_lg_df st = Some fare_lg_df ->
  prophet_fare_low_df st = Some fare_low_df ->
  let filtered_df := _get_filtered_data env st false in
  (periods_ok filtered_df = true ->
   exists chart curves,
     _redraw_holoviews_line_chart env st = Ok chart
     /\ prophet_curves chart = Some curves)
  /\ (forall chart curves,
        _redraw_holoviews_line_chart env st = Ok chart ->
        prophet_curves chart = Some curves ->
        forall p,
          In p (filtered_prophet_fare_df curves)
          \/ In p (filtered_prophet_fare_lg_df curves)
          \/ In p (filtered_prophet_fare_low_df curves) ->
          exists dates max_date,
            result_map (fun r => quarter_timestamp (year r) (quarter r)) filtered_df
            = Ok dates
            /\ ts_max dates = Some max_date
            /\ ts_leb max_date (ds p) = true
            /\ forall d, In d dates -> ts_leb d (ds p) = true).
Proof.
  intros Hf Hlg Hlow filtered_df.
  unfold _redraw_holoviews_line_chart. fold filtered_df.
  rewrite Hf, Hlg, Hlow.
  split.
  - intro Hok. destruct (with_dates_total filtered_df Hok) as (dated & ->).
    simpl. eexists. eexists. split; reflexivity.
  - intros chart curves E Hc p Hp.
    destruct (with_dates filtered_df) as [dated|e] eqn:Ed; simpl in E; [|discriminate].
    injection E as <-. simpl in Hc. injection Hc as <-. simpl in Hp.
    assert (Hdates : result_map (fun r => quarter_timestamp (year r) (quarter r))
                                filtered_df = Ok (map fst dated)).
    { clear - Ed. unfold with_dates in Ed. revert dated Ed.
      induction filtered_df as [|r l IH]; simpl; intros dated Ed.
      - now injection Ed as <-.
      - destruct (quarter_timestamp (year r) (quarter r)) as [d|e]; simpl in *;
          [|discriminate].
        destruct (result_map _ l) as [ds|e] eqn:El; simpl in Ed; [|discriminate].
        injection Ed as <-. now rewrite (IH ds eq_refl). }
    assert (Hm : exists m, ts_max (map fst dated) = Some m /\ ts_leb m (ds p) = true).
    { destruct Hp as [Hp|[Hp|Hp]]; apply from_date_In in Hp; tauto. }
    destruct Hm as (m & Em & Hm).
    exists (map fst dated), m. repeat split; try assumption.
    intros d Hd. apply ts_leb_trans with m; [|exact Hm].
    now apply (ts_max_upper _ Em).
Qed.


Lemma forecast_continuation_starts_at_last_date_witness :
  exists chart curves,
    _redraw_holoviews_line_chart sample_env sample_forecasted = Ok chart
    /\ prophet_curves chart = Some curves
    /\ Forall (fun p => ts_leb (sample_date 2024 3 31) (ds p) = true)
              (filtered_prophet_fare_df curves).
Proof.
  destruct (prophet_fare_df sample_forecasted) as [f|] eqn:Hf;
    [|vm_compute in Hf; discriminate Hf].
  destruct (prophet_fare_lg_df sample_forecasted) as [flg|] eqn:Hlg;
    [|vm_compute in Hlg; discriminate Hlg].
  destruct (prophet_fare_low_df sample_forecasted) as [flow|] eqn:Hlow;
    [|vm_compute in Hlow; discriminate Hlow].
  destruct (forecast_continuation_starts_at_last_date
              sample_env sample_forecasted Hf Hlg Hlow) as [H G].
  destruct H as (chart & curves & E & C); [vm_compute; reflexivity|].
  exists chart, curves. split; [exact E|]. split; [exact C|].
  apply Forall_forall. intros p Hp.
  destruct (G chart curves E C p (or_introl Hp)) as (dates & m & Ed & Em & Hm & _).
  vm_compute in Ed. injection Ed as <-. vm_compute in Em. injection Em as <-.
  exact Hm.
Defined.

(** ** Minimum, maximum and binning *)

Lemma Qmin_spec (a b : Q) : Qmin a b <= a /\ Qmin a b <= b /\ (Qmin a b = a \/ Qmin a b = b).
Proof.
  unfold Qmin. destruct (Qle_bool a b) eqn:E.
  - apply Qle_bool_iff in E. repeat split; auto; lra.
  - assert (b < a) by (apply Qlt_bool_iff; unfold Qlt_bool; now rewrite E).
    repeat split; auto; lra.
Qed.

Lemma Qmax_spec (a b : Q) : a <= Qmax a b /\ b <= Qmax a b /\ (Qmax a b = a \/ Qmax a b = b).
Proof.
  unfold Qmax. destruct (Qle_bool a b) eqn:E.
  - apply Qle_bool_iff in E. repeat split; auto; lra.
  - assert (b < a) by (apply Qlt_bool_iff; unfold Qlt_bool; now rewrite E).
    repeat split; auto; lra.
Qed.

Lemma fold_Qmin (l : list Q) (a : Q) :
  In (fold_left Qmin l a) (a :: l)
  /\ forall x, In x (a :: l) -> fold_left Qmin l a <= x.
Proof.
  revert a. induction l as [|h l IH]; intro a; simpl.
  - split; [now left|]. intros x [<-|[]]. lra.
  - destruct (IH (Qmin a h)) as [I1 I2].
    destruct (Qmin_spec a h) as (Ma & Mh & Me).
    split.
    + destruct I1 as [I1|I1]; [|now right; right].
      rewrite <- I1. destruct Me as [->| ->]; [now left | right; now left].
    + intros x [<-|[<-|Hx]].
      * apply Qle_trans with (Qmin a h); [apply I2; now left | exact Ma].
      * apply Qle_trans with (Qmin a h); [apply I2; now left | exact Mh].
      * apply I2. now right.
Qed.

Lemma fold_Qmax (l : list Q) (a : Q) :
  In (fold_left Qmax l a) (a :: l)
  /\ forall x, In x (a :: l) -> x <= fold_left Qmax l a.
Proof.
  revert a. induction l as [|h l IH]; intro a; simpl.
  - split; [now left|]. intros x [<-|[]]. lra.
  - destruct (IH (Qmax a h)) as [I1 I2].
    destruct (Qmax_spec a h) as (Ma & Mh & Me).
    split.
    + destruct I1 as [I1|I1]; [|now right; right].
      rewrite <- I1. destruct Me as [->| ->]; [now left | right; now left].
    + intros x [<-|[<-|Hx]].
      * apply Qle_trans with (Qmax a h); [exact Ma | apply I2; now left].
      * apply Qle_trans with (Qmax a h); [exact Mh | apply I2; now left].
      * apply I2. now right.
Qed.

(** The minimum of a column is one of its values and a lower bound. *)
Lemma series_min_spec (l : list Q) (lo : Q) :
  series_min l = Some lo -> In lo l /\ forall x, In x l -> lo <= x.
Proof.
  destruct l as [|a l]; [discriminate|]. simpl. intro E. injection E as <-.
  apply fold_Qmin.
Qed.

Lemma series_max_spec (l : list Q) (hi : Q) :
  series_max l = Some hi -> In hi l /\ forall x, In x l -> x <= hi.
Proof.
  destruct l as [|a l]; [discriminate|]. simpl. intro E. injection E as <-.
  apply fold_Qmax.
Qed.

(** [searchsorted_left] stops at the first edge that is not below the
    value. *)
Lemma searchsorted_left_spec (bins : list Q) (x : Q) :
  let k := searchsorted_left bins x in
  (k <= List.length bins)%nat
  /\ (forall j, (j < k)%nat -> nth j bins 0 < x)
  /\ ((k < List.length bins)%nat -> x <= nth k bins 0).
Proof.
  induction bins as [|b bins IH]; simpl.
  - repeat split; intros; lia.
  - destruct (Qlt_bool b x) eqn:E.
    + apply Qlt_bool_iff in E. destruct IH as (I1 & I2 & I3).
      split; [lia|]. split.
      * intros [|j] Hj; [exact E | apply I2; lia].
      * intro Hk. apply I3. lia.
    + apply Qlt_bool_false_iff in E.
      split; [lia|]. split; [intros; lia | intros _; exact E].
Qed.

(** On increasing edges the position found by [searchsorted_left]
    separates the edges below the value from the others, as a binary
    search does. *)
Lemma searchsorted_left_sorted (bins : list Q) (x : Q) :
  StronglySorted Qle bins ->
  forall j, (searchsorted_left bins x <= j < List.length bins)%nat ->
            x <= nth j bins 0.
Proof.
  induction 1 as [|b bins S IH F]; simpl; intros j Hj; [lia|].
  destruct (Qlt_bool b x) eqn:E.
  - destruct j as [|j]; [lia|]. apply IH. lia.
  - apply Qlt_bool_false_iff in E. destruct j as [|j]; [exact E|].
    rewrite Forall_forall in F.
    apply Qle_trans with b; [exact E|]. apply F, nth_In. lia.
Qed.

(** A value inside (first edge, last edge] falls in the interval
    (bins[i], bins[i+1]] that [cut] names. *)
Lemma cut_bracket (bins : list Q) (x : Q) (n : nat) :
  List.length bins = S n ->
  nth 0 bins 0 < x -> x <= nth n bins 0 ->
  exists i, cut bins x = Some i /\ (i < n)%nat
            /\ nth i bins 0 < x /\ x <= nth (S i) bins 0.
Proof.
  intros L Hlo Hhi. unfold cut.
  destruct (searchsorted_left_spec bins x) as (I1 & I2 & I3).
  set (k := searchsorted_left bins x) in *.
  assert (K0 : k <> 0%nat).
  { intro K. rewrite K in I3. specialize (I3 ltac:(lia)). lra. }
  assert (Kn : (k < S n)%nat).
  { destruct (Nat.lt_ge_cases k (S n)) as [H|H]; [exact H|].
    specialize (I2 n ltac:(lia)). lra. }
  destruct (Nat.eqb_spec k 0) as [?|_]; [contradiction|].
  destruct (Nat.eqb_spec k (List.length bins)) as [?|_]; [lia|]. simpl.
  exists (k - 1)%nat. split; [reflexivity|]. split; [lia|]. split.
  - apply I2. lia.
  - replace (S (k - 1)) with k by lia. apply I3. lia.
Qed.

(** ** Dictionaries *)

Lemma assoc_In {V} (k : string) (v : V) (d : list (string * V)) :
  NoDup (map fst d) -> In (k, v) d -> assoc k d = Some v.
Proof.
  unfold assoc. induction d as [|[k' v'] d IH]; simpl; intros N H; [tauto|].
  inversion N as [|? ? Hk N']; subst.
  destruct H as [E|H].
  - injection E as -> ->. now rewrite String.eqb_refl.
  - destruct (String.eqb_spec k' k) as [->|_]; [|now apply IH].
    exfalso. apply Hk. change k with (fst (k, v)). now apply in_map.
Qed.

Lemma assoc_None {V} (k : string) (d : list (string * V)) :
  ~ In k (map fst d) -> assoc k d = None.
Proof.
  unfold assoc. induction d as [|[k' v'] d IH]; simpl; intro H; [reflexivity|].
  destruct (String.eqb_spec k' k) as [->|_]; [tauto|]. apply IH. tauto.
Qed.

Lemma assoc_Some_In {V} (k : string) (v : V) (d : list (string * V)) :
  assoc k d = Some v -> In (k, v) d.
Proof.
  unfold assoc. induction d as [|[k' v'] d IH]; simpl; [discriminate|].
  destruct (String.eqb_spec k' k) as [->|_]; simpl.
  - intro E. injection E as ->. now left.
  - intro E. right. now apply IH.
Qed.

Lemma assoc_map {V W} (f : V -> W) (k : string) (d : list (string * V)) :
  assoc k (map (fun kv => (fst kv, f (snd kv))) d) = option_map f (assoc k d).
Proof.
  unfold assoc. induction d as [|[k' v'] d IH]; simpl; [reflexivity|].
  destruct (k' =? k)%string; [reflexivity | exact IH].
Qed.

(** ** Running a method step by step *)

Lemma bind_ret {A B} (a : A) (k : A -> M B) (st : App) :
  bind (ret a) k st = k a st.
Proof. unfold bind, ret. now destruct (k a st) as [[r s] out]. Qed.

Lemma bind_modify {B} (f : App -> App) (k : unit -> M B) (st : App) :
  bind (modify f) k st = k tt (f st).
Proof. unfold bind, modify. now destruct (k tt (f st)) as [[r s] out]. Qed.

Lemma bind_get {B} (k : App -> M B) (st : App) : bind get k st = k st st.
Proof. unfold bind, get. now destruct (k st st) as [[r s] out]. Qed.

Lemma bind_raise {A B} (e : Exn) (k : A -> M B) (st : App) :
  bind (raise e) k st = (Raise e, st, []).
Proof. reflexivity. Qed.

Lemma bind_lift_Ok {A B} (a : A) (k : A -> M B) (st : App) :
  bind (lift (Ok a)) k st = k a st.
Proof. apply bind_ret. Qed.

Lemma bind_lift_Raise {A B} (e : Exn) (k : A -> M B) (st : App) :
  bind (lift (@Raise A e)) k st = (Raise e, st, []).
Proof. reflexivity. Qed.

Lemma bind_print {B} (line : string) (k : unit -> M B) (st : App) :
  bind (print line) k st
  = (result_of (k tt st), state_of (k tt st), line :: printed (k tt st)).
Proof. unfold bind, print. now destruct (k tt st) as [[r s] out]. Qed.

Lemma bind_bind {A B C} (m : M A) (k : A -> M B) (h : B -> M C) (st : App) :
  bind (bind m k) h st = bind m (fun a => bind (k a) h) st.
Proof.
  unfold bind. destruct (m st) as [[[a|e] s1] o1]; [|reflexivity].
  destruct (k a s1) as [[[b|e] s2] o2]; [|reflexivity].
  destruct (h b s2) as [[r s3] o3]. now rewrite app_assoc.
Qed.

Lemma update_analysis_results_zero :
  _update_analysis_results 0 = modify (set_analysis_results_text placeholder_text).
Proof. reflexivity. Qed.

Ltac run :=
  repeat first
    [ rewrite bind_bind
    | rewrite bind_modify
    | rewrite bind_get
    | rewrite bind_ret
    | rewrite bind_raise
    | rewrite bind_lift_Ok
    | rewrite bind_lift_Raise
    | rewrite update_analysis_results_zero ].
(** ** The coordinate dictionary *)

Lemma coords_eqb_refl (a : string * (Q * Q)) : coords_eqb a a = true.
Proof.
  unfold coords_eqb. rewrite String.eqb_refl. simpl.
  apply andb_true_iff. split; apply Qeq_bool_iff; reflexivity.
Qed.

Lemma coords_eqb_trans (a b c : string * (Q * Q)) :
  coords_eqb a b = true -> coords_eqb b c = true -> coords_eqb a c = true.
Proof.
  unfold coords_eqb. rewrite !andb_true_iff, !String.eqb_eq, !Qeq_bool_iff.
  intros ((-> & H1) & H2) ((-> & H3) & H4). repeat split.
  - now rewrite H1.
  - now rewrite H2.
Qed.

Lemma coords_eqb_name (a b : string * (Q * Q)) :
  coords_eqb a b = true -> fst a = fst b.
Proof.
  unfold coords_eqb. rewrite !andb_true_iff, String.eqb_eq. tauto.
Qed.

(** The duplicate-free list keeps elements of the list, and one
    duplicate of each. *)
Lemma unique_incl {K} (eqb : K -> K -> bool) (l : list K) (k : K) :
  In k (unique eqb l) -> In k l.
Proof.
  induction l as [|a l IH]; simpl; [tauto|].
  intros [H|H]; [now left|]. apply filter_In in H. right. now apply IH.
Qed.

Lemma unique_represents {K} (eqb : K -> K -> bool) (l : list K) (k : K) :
  (forall a, eqb a a = true) ->
  (forall a b c, eqb a b = true -> eqb b c = true -> eqb a c = true) ->
  In k l -> exists k', In k' (unique eqb l) /\ eqb k' k = true.
Proof.
  intros Hrefl Htrans. induction l as [|a l IH]; simpl; [tauto|].
  intros [->|H].
  - exists k. split; [now left | apply Hrefl].
  - destruct (IH H) as (k' & I' & E').
    destruct (eqb a k') eqn:Ea.
    + exists a. split; [now left | now apply Htrans with k'].
    + exists k'. split; [|exact E']. right. apply filter_In.
      split; [exact I' | now rewrite Ea].
Qed.

(** A look-up in one of the two comprehensions: the entry found comes
    from a row with the name, and none is found only when no row has
    the name. *)
Lemma coords_table_find (name_col : Row -> string) (lon lat : Row -> Q)
      (frame : DataFrame) (name : string) :
  match find (fun e => (fst e =? name)%string)
             (rev (coords_table name_col lon lat frame)) with
  | Some e => exists r, In r frame /\ name_col r = name /\ snd e = (lon r, lat r)
  | None => forall r, In r frame -> name_col r <> name
  end.
Proof.
  destruct (find _ _) as [e|] eqn:E.
  - apply find_some in E. destruct E as [I N].
    apply in_rev, unique_incl, in_map_iff in I. destruct I as (r & <- & Hr).
    apply String.eqb_eq in N. exists r. simpl in *. tauto.
  - intros r Hr Hn.
    destruct (@unique_represents _ coords_eqb
                (map (fun r => (name_col r, (lon r, lat r))) frame)
                (name_col r, (lon r, lat r)) coords_eqb_refl coords_eqb_trans)
      as (e & Ie & Ee).
    { apply in_map_iff. now exists r. }
    apply coords_eqb_name in Ee. simpl in Ee.
    assert (F := find_none _ _ E e). simpl in F.
    rewrite Ee, Hn, String.eqb_refl in F.
    discriminate F. apply -> in_rev. exact Ie.
Qed.

(** Every airport name of the data store has coordinates. *)
Lemma airport_coords_total (env : Loaded) (name : string) (r : Row) :
  In r (df env) ->
  airport_name_concat_1 r = name \/ airport_name_concat_2 r = name ->
  exists xy, airport_coords env name = Ok xy.
Proof.
  intros Hr Hn. unfold airport_coords.
  assert (F2 := coords_table_find airport_name_concat_2 longitude_2 latitude_2
                                  (df env) name).
  destruct (find _ (rev (coords_table airport_name_concat_2 _ _ _))) as [e|];
    [eauto|].
  assert (F1 := coords_table_find airport_name_concat_1 longitude_1 latitude_1
                                  (df env) name).
  destruct (find _ (rev (coords_table airport_name_concat_1 _ _ _))) as [e|];
    [eauto|].
  exfalso. destruct Hn as [Hn|Hn]; [exact (F1 r Hr Hn) | exact (F2 r Hr Hn)].
Qed.
(** ** Assignments to the choropleth *)

Lemma result_map_length {A B} (f : A -> Result B) (l : list A) (out : list B) :
  result_map f l = Ok out -> List.length out = List.length l.
Proof.
  intro E. apply result_map_Ok in E.
  induction E; simpl; [reflexivity | now f_equal].
Qed.

Lemma bind_modify_choropleth {B} (f : Choropleth -> Choropleth) (k : unit -> M B)
      (st : App) (c : Choropleth) :
  choropleth (charts st) = Some c ->
  bind (modify_choropleth f) k st = k tt (set_choropleth (f c) st).
Proof.
  intro E. unfold modify_choropleth. rewrite bind_bind, bind_get, E.
  apply bind_modify.
Qed.

Lemma modify_choropleth_run (f : Choropleth -> Choropleth) (st : App) (c : Choropleth) :
  choropleth (charts st) = Some c ->
  modify_choropleth f st = (Ok tt, set_choropleth (f c) st, []).
Proof.
  intro E. unfold modify_choropleth. now rewrite bind_get, E.
Qed.

Lemma bind_modify_choropleth_set {B} (f : Choropleth -> Choropleth)
      (k : unit -> M B) (st : App) (c : Choropleth) :
  bind (modify_choropleth f) k (set_choropleth c st)
  = k tt (set_choropleth (f c) st).
Proof.
  now rewrite (@bind_modify_choropleth _ f k (set_choropleth c st) c eq_refl).
Qed.

(** The last part of [_update_choropleth], which places the destination
    marker, leaves the colours, the hover texts and the colour bar as
    they are, whether the destination has coordinates or not. *)
Lemma dest_marker_keeps_colors (env : Loaded) (st : App) (c1 : Choropleth) :
  let tail := if (value (dropdown_destination st) =? "")%string
              then modify_choropleth (fun c => with_dest_marker (dest_xy c) 0 c)
              else (xy <- lift (airport_coords env (value (dropdown_destination st))) ;;
                    modify_choropleth (with_dest_marker xy 1)) in
  exists c,
    choropleth (charts (state_of (tail (set_choropleth c1 st)))) = Some c
    /\ colors c = colors c1
    /\ avg_fares c = avg_fares c1
    /\ color_bar_palette c = color_bar_palette c1
    /\ color_bar_factors c = color_bar_factors c1.
Proof.
  cbv zeta.
  destruct (value (dropdown_destination st) =? "")%string.
  - rewrite (@modify_choropleth_run _ _ c1) by reflexivity.
    eexists. split; [reflexivity|]. cbn. tauto.
  - destruct (airport_coords env (value (dropdown_destination st))) as [xy|e].
    + rewrite bind_lift_Ok, (@modify_choropleth_run _ _ c1) by reflexivity.
      eexists. split; [reflexivity|]. cbn. tauto.
    + rewrite bind_lift_Raise. exists c1. cbn. tauto.
Qed.

(** An origin with a non-empty aggregate is the origin of a row. *)
Lemma state_fares_origin (env : Loaded) (origin_value : string) :
  state_fares env origin_value <> [] ->
  exists r, In r (df env) /\ airport_name_concat_1 r = origin_value.
Proof.
  unfold state_fares.
  destruct (filter (fun r => (airport_name_concat_1 r =? origin_value)%string) (df env))
    as [|r l] eqn:E.
  - intro H. exfalso. apply H. reflexivity.
  - intros _. assert (I : In r (r :: l)) by now left.
    rewrite <- E in I. apply filter_In in I. destruct I as [I N].
    apply String.eqb_eq in N. eauto.
Qed.

(** ** Choropleth *)

(** The seven edges over [a, b] of [np.linspace(a, b, num=7)]: evenly
    spaced, strictly increasing when [a < b], from [a] to [b]. *)
Lemma linspace_7 (a b : Q) :
  let bins := linspace a b 7 in
  List.length bins = 7%nat
  /\ (forall i, (i <= 6)%nat ->
        nth i bins 0 == a + inject_Z (Z.of_nat i) * ((b - a) / 6))
  /\ nth 0 bins 0 == a
  /\ nth 6 bins 0 == b
  /\ (a < b -> forall i, (i < 6)%nat -> nth i bins 0 < nth (S i) bins 0).
Proof.
  cbv zeta.
  assert (N : forall i, (i <= 6)%nat ->
                nth i (linspace a b 7) 0
                = a + inject_Z (Z.of_nat i) * ((b - a) / inject_Z (Z.of_nat 6))).
  { intros i Hi. do 7 (destruct i as [|i]; [reflexivity|]). lia. }
  split; [reflexivity|]. split; [|split; [|split]].
  - intros i Hi. now rewrite N.
  - rewrite N by lia. simpl. field.
  - rewrite N by lia. simpl. field.
  - intros Hab i Hi. rewrite !N by lia.
    set (step := (b - a) / inject_Z (Z.of_nat 6)).
    assert (Hs : 0 < step).
    { unfold step. apply Qlt_shift_div_l; [reflexivity | lra]. }
    rewrite Nat2Z.inj_succ, <- Z.add_1_r, inject_Z_plus.
    setoid_replace ((inject_Z (Z.of_nat i) + inject_Z 1) * step)
      with (inject_Z (Z.of_nat i) * step + step) by ring.
    lra.
Qed.

Lemma state_mapping_rendered (env : Loaded) (code : string) :
  In code (rendered_codes env) -> exists name, state_mapping env code = Ok name.
Proof.
  unfold rendered_codes, state_mapping. rewrite filter_In. intros [H _].
  destruct (assoc code (states env)) as [name|] eqn:E; [eauto|].
  exfalso. revert H E. unfold assoc.
  induction (states env) as [|[c n] l IH]; simpl; [tauto|].
  destruct (String.eqb_spec c code) as [->|Hne]; simpl; [discriminate|].
  intros [H|H]; [contradiction | now apply IH].
Qed.

(** C5.  For an origin with a non-empty aggregate of mean fares per
    destination state the bin edges are 7 evenly spaced points from the
    least fare minus 0.001 to the greatest fare plus 0.001, which makes
    6 bins; every state with data gets the bin whose bounds hold its
    mean fare, and the palette colour of that bin; every drawn state
    without data gets the colour '#FFFFFF'.  These are the colours of
    the map: after [_update_choropleth] has run with that origin
    selected, the colour column of the choropleth holds, for each drawn
    state in turn, the palette colour of the bin of its mean fare, or
    '#FFFFFF' when no fare is known for it, the hover texts are the
    fares, and the colour bar shows the palette over the six bins. *)
Theorem choropleth_six_bins (env : Loaded) (origin_value : string) :
  let fares := state_fares env origin_value in
  fares <> [] ->
  List.length (palette env) = 6%nat ->
  exists lo hi bins entries,
    series_min (map snd fares) = Some lo
    /\ series_max (map snd fares) = Some hi
    /\ choropleth_bins fares = Some bins
    /\ List.length bins = 7%nat
    /\ (forall i, (i <= 6)%nat ->
          nth i bins 0
          == (lo - 0.001)
             + inject_Z (Z.of_nat i) * (((hi + 0.001) - (lo - 0.001)) / 6))
    /\ nth 0 bins 0 == lo - 0.001
    /\ nth 6 bins 0 == hi + 0.001
    /\ (forall i, (i < 6)%nat -> nth i bins 0 < nth (S i) bins 0)
    /\ (forall name f, In (name, f) fares ->
          exists i color,
            (i < 6)%nat
            /\ assoc name (choropleth_labels fares bins) = Some (Some i)
            /\ nth i bins 0 < f <= nth (S i) bins 0
            /\ nth_error (palette env) i = Some color
            /\ forall code, state_mapping env code = Ok name ->
                 state_entry env fares (choropleth_labels fares bins) code
                 = Ok (color, "$" ++ format_2f f))
    /\ (forall code name,
          state_mapping env code = Ok name -> ~ In name (map fst fares) ->
          state_entry env fares (choropleth_labels fares bins) code
          = Ok ("#FFFFFF", "-"))
    /\ state_entries env fares bins = Ok entries
    /\ Forall2 (fun code e =>
                  state_entry env fares (choropleth_labels fares bins) code = Ok e)
               (rendered_codes env) entries
    /\ (forall st c0,
          value (dropdown_origin st) = origin_value ->
          origin_value <> "" ->
          choropleth (charts st) = Some c0 ->
          library_raises env ChoroplethChart st = false ->
          exists c,
            choropleth (charts (state_of (_update_choropleth env st))) = Some c
            /\ colors c = map fst entries
            /\ avg_fares c = map snd entries
            /\ color_bar_palette c = palette env
            /\ color_bar_factors c = color_bar_labels bins
            /\ Forall2 (fun code color =>
                          forall name, state_mapping env code = Ok name ->
                            (forall f, In (name, f) fares ->
                               exists i, (i < 6)%nat
                                         /\ nth i bins 0 < f <= nth (S i) bins 0
                                         /\ nth_error (palette env) i = Some color)
                            /\ (~ In name (map fst fares) -> color = "#FFFFFF"))
                       (rendered_codes env) (colors c)).
Proof.
  intros fares Hne Hpal.
  assert (ND : NoDup (map fst fares)) by apply groupby_mean_NoDup.
  destruct (series_min (map snd fares)) as [lo|] eqn:Elo;
    [|destruct fares; [contradiction | discriminate]].
  destruct (series_max (map snd fares)) as [hi|] eqn:Ehi;
    [|destruct fares; [contradiction | discriminate]].
  destruct (series_min_spec _ Elo) as [Ilo Blo].
  destruct (series_max_spec _ Ehi) as [Ihi Bhi].
  set (bins := linspace (lo - 0.001) (hi + 0.001) 7).
  destruct (linspace_7 (lo - 0.001) (hi + 0.001)) as (L & Nth & N0 & N6 & Inc).
  fold bins in L, Nth, N0, N6, Inc.
  assert (Hlohi : lo <= hi) by (apply Bhi; exact Ilo).
  specialize (Inc ltac:(lra)).
  assert (Matched : forall name f, In (name, f) fares ->
            exists i color,
              (i < 6)%nat
              /\ assoc name (choropleth_labels fares bins) = Some (Some i)
              /\ nth i bins 0 < f <= nth (S i) bins 0
              /\ nth_error (palette env) i = Some color
              /\ forall code, state_mapping env code = Ok name ->
                   state_entry env fares (choropleth_labels fares bins) code
                   = Ok (color, "$" ++ format_2f f)).
  { intros name f Hin.
    assert (Hf : In f (map snd fares)).
    { change f with (snd (name, f)). now apply in_map. }
    assert (F1 := Blo f Hf). assert (F2 := Bhi f Hf).
    destruct (@cut_bracket bins f 6 L) as (i & Ec & Hi & B1 & B2).
    { rewrite N0. lra. }
    { rewrite N6. lra. }
    destruct (nth_error (palette env) i) as [color|] eqn:Ep;
      [|apply nth_error_None in Ep; lia].
    assert (El : cut_labels bins (seq 0 6) f = Some i).
    { unfold cut_labels. rewrite Ec.
      do 6 (destruct i as [|i]; [reflexivity|]). lia. }
    assert (Ea : assoc name (choropleth_labels fares bins) = Some (Some i)).
    { unfold choropleth_labels. rewrite assoc_map.
      rewrite (assoc_In name f fares ND Hin). cbn [option_map]. now rewrite El. }
    exists i, color. repeat split; try assumption.
    intros code Hc. unfold state_entry. rewrite Hc. simpl.
    rewrite Ea, Ep. now rewrite (assoc_In name f fares ND Hin). }
  assert (Unmatched : forall code name,
            state_mapping env code = Ok name -> ~ In name (map fst fares) ->
            state_entry env fares (choropleth_labels fares bins) code
            = Ok ("#FFFFFF", "-")).
  { intros code name Hc Hn. unfold state_entry. rewrite Hc. simpl.
    unfold choropleth_labels. rewrite assoc_map, (assoc_None name fares Hn).
    reflexivity. }
  destruct (@result_map_total _ _
              (state_entry env fares (choropleth_labels fares bins))
              (rendered_codes env)) as (entries & Ee).
  { intros code Hcode.
    destruct (state_mapping_rendered env code Hcode) as (name & Hc).
    destruct (in_dec string_dec name (map fst fares)) as [Hin|Hn].
    - apply in_map_iff in Hin. destruct Hin as ([k f] & Ek & Hin). simpl in Ek.
      subst k. destruct (Matched name f Hin) as (i & color & _ & _ & _ & _ & H).
      rewrite (H code Hc). eauto.
    - rewrite (Unmatched code name Hc Hn). eauto. }
  exists lo, hi, bins, entries.
  split; [reflexivity|]. split; [reflexivity|].
  split; [unfold choropleth_bins; now rewrite Elo, Ehi|].
  split; [exact L|]. split; [exact Nth|]. split; [exact N0|]. split; [exact N6|].
  split; [exact Inc|]. split; [exact Matched|]. split; [exact Unmatched|].
  split; [exact Ee|].
  assert (F2 : Forall2 (fun code e =>
                          state_entry env fares (choropleth_labels fares bins) code
                          = Ok e)
                       (rendered_codes env) entries) by now apply result_map_Ok.
  split; [exact F2|].
  intros st c0 Ho Hset Hc0 Hlib.
  destruct (state_fares_origin env origin_value Hne) as (r & Hr & Hn).
  destruct (@airport_coords_total env origin_value r Hr (or_introl Hn)) as (xy & Exy).
  unfold _update_choropleth. rewrite bind_get, Hlib, Ho.
  apply String.eqb_neq in Hset. rewrite Hset.
  rewrite bind_bind, Exy, bind_lift_Ok.
  rewrite bind_bind, (@bind_modify_choropleth _ _ _ _ c0 Hc0).
  fold fares. unfold choropleth_bins. rewrite Elo, Ehi. fold bins.
  unfold state_entries. rewrite Ee.
  rewrite bind_bind, bind_lift_Ok, bind_modify_choropleth_set.
  match goal with
  | |- context [set_choropleth ?c1 st] =>
      destruct (dest_marker_keeps_colors env st c1) as (c & Ec & C1 & C2 & C3 & C4)
  end.
  exists c. split; [exact Ec|].
  split; [exact C1|]. split; [exact C2|]. split; [exact C3|]. split; [exact C4|].
  rewrite C1. cbn [colors with_state_colors].
  clear - F2 Matched Unmatched.
  induction F2 as [|code e codes es He _ IH]; simpl; constructor; [|exact IH].
  intros name Hname. split.
  - intros f Hin. destruct (Matched name f Hin) as (i & color & Hi & _ & Hb & Hp & Hs).
    rewrite (Hs code Hname) in He. injection He as <-.
    exists i. simpl. tauto.
  - intro Hnot. rewrite (Unmatched code name Hname Hnot) in He.
    now injection He as <-.
Qed.

Lemma choropleth_six_bins_witness :
  exists bins entries c,
    choropleth_bins (state_fares sample_env SAN) = Some bins
    /\ List.length bins = 7%nat
    /\ state_entries sample_env (state_fares sample_env SAN) bins = Ok entries
    /\ map fst entries = ["#1a9850"; "#d73027"; "#FFFFFF"; "#d9ef8b"]
    /\ choropleth (charts (state_of (_update_choropleth sample_env sample_origin_only)))
       = Some c
    /\ colors c = ["#1a9850"; "#d73027"; "#FFFFFF"; "#d9ef8b"]
    /\ avg_fares c = ["$119.38"; "$310.00"; "-"; "$210.40"].
Proof.
  destruct (choropleth_six_bins sample_env SAN)
    as (lo & hi & bins & entries & _ & _ & B & L & _ & _ & _ & _ & _ & _ & E & _ & U).
  - discriminate.
  - reflexivity.
  - destruct (choropleth (charts sample_origin_only)) as [c0|] eqn:E0;
      [|vm_compute in E0; discriminate E0].
    destruct (U sample_origin_only c0) as (c & Hc & C1 & C2 & _);
      [vm_compute; reflexivity | discriminate | exact E0 | reflexivity |].
    exists bins, entries, c. split; [exact B|]. split; [exact L|]. split; [exact E|].
    vm_compute in B. injection B as <-.
    vm_compute in E. injection E as <-.
    split; [reflexivity|]. split; [exact Hc|].
    split; [rewrite C1 | rewrite C2]; reflexivity.
Defined.

(** ** Rules for methods *)

Lemma hoare_ret {A} (P E : App -> Prop) (a : A) : hoare P (ret a) P E.
Proof. intros st H. exact H. Qed.

Lemma hoare_raise {A} (P Q : App -> Prop) (e : Exn) : hoare P (@raise A e) Q P.
Proof. intros st H. exact H. Qed.

Lemma hoare_print (P E : App -> Prop) (line : string) : hoare P (print line) P E.
Proof. intros st H. exact H. Qed.

Lemma hoare_lift {A} (P : App -> Prop) (r : Result A) : hoare P (lift r) P P.
Proof. intros st H. destruct r; exact H. Qed.

Lemma hoare_modify (P Q E : App -> Prop) (f : App -> App) :
  (forall st, P st -> Q (f st)) -> hoare P (modify f) Q E.
Proof. intros H st Hst. now apply H. Qed.

Lemma hoare_bind {A B} (P Q R E : App -> Prop) (m : M A) (k : A -> M B) :
  hoare P m Q E -> (forall a, hoare Q (k a) R E) -> hoare P (bind m k) R E.
Proof.
  intros Hm Hk st Hst. unfold bind. specialize (Hm st Hst).
  destruct (m st) as [[[a|e] st1] out1]; [|exact Hm].
  specialize (Hk a st1 Hm). destruct (k a st1) as [[[b|e] st2] out2]; exact Hk.
Qed.

(** Reading the state: the continuation may use that the value read is
    the current state. *)
Lemma hoare_get {B} (P R E : App -> Prop) (k : App -> M B) :
  (forall s, hoare (fun st => P st /\ st = s) (k s) R E) ->
  hoare P (bind get k) R E.
Proof.
  intros Hk st Hst. unfold bind, get. specialize (Hk st st (conj Hst eq_refl)).
  destruct (k st st) as [[[b|e] st2] out2]; exact Hk.
Qed.

Lemma hoare_weaken {A} (P P' Q Q' E E' : App -> Prop) (m : M A) :
  hoare P' m Q' E' ->
  (forall st, P st -> P' st) -> (forall st, Q' st -> Q st) ->
  (forall st, E' st -> E st) ->
  hoare P m Q E.
Proof.
  intros H HP HQ HE st Hst. specialize (H st (HP st Hst)).
  destruct (m st) as [[[a|e] st1] out1]; auto.
Qed.

Lemma hoare_state_of {A} (P Q : App -> Prop) (m : M A) (st : App) :
  hoare P m Q Q -> P st -> Q (state_of (m st)).
Proof.
  intros H Hst. specialize (H st Hst). unfold state_of.
  destruct (m st) as [[[a|e] st1] out1]; exact H.
Qed.

(** A method that only reads the state and assigns charts keeps every
    property that does not look at the charts. *)
Section ChartUpdates.
Variable env : Loaded.
Variable P : App -> Prop.
Hypothesis P_blind : chart_blind P.

Ltac keep_step :=
  lazymatch goal with
  | |- hoare _ (if ?c then _ else _) _ _ => destruct c
  | |- hoare _ (match ?c with _ => _ end) _ _ => destruct c
  | |- hoare _ (bind get _) _ _ =>
      apply hoare_get; intros ?;
      apply hoare_weaken with (P' := P) (Q' := P) (E' := P);
      [| intros ? [? _]; assumption | auto | auto]
  | |- hoare _ (bind _ _) _ _ => apply hoare_bind with (Q := P); [| intros ?]
  | |- hoare _ (modify _) _ _ =>
      apply hoare_modify; intros ? ?; apply P_blind; assumption
  | |- hoare _ (ret _) _ _ => apply hoare_ret
  | |- hoare _ (raise _) _ _ => apply hoare_raise
  | |- hoare _ (print _) _ _ => apply hoare_print
  | |- hoare _ (lift _) _ _ => apply hoare_lift
  end.

Ltac keep := repeat keep_step.

Lemma keep_modify_choropleth (f : Choropleth -> Choropleth) :
  hoare P (modify_choropleth f) P P.
Proof. unfold modify_choropleth. keep. Qed.

Lemma keep_update_choropleth : hoare P (_update_choropleth env) P P.
Proof.
  unfold _update_choropleth, reset_state_colors.
  keep; apply keep_modify_choropleth.
Qed.

Lemma keep_update_histogram : hoare P (_update_histogram env) P P.
Proof. unfold _update_histogram, event. keep. Qed.

Lemma keep_update_line_chart : hoare P (_update_line_chart env) P P.
Proof. unfold _update_line_chart, event. keep. Qed.

Lemma keep_update_seasonal_boxplot : hoare P (_update_seasonal_boxplot env) P P.
Proof. unfold _update_seasonal_boxplot, event. keep. Qed.

Lemma keep_update_lg_bar_chart : hoare P (_update_lg_bar_chart env) P P.
Proof. unfold _update_lg_bar_chart. keep. Qed.

Lemma keep_update_low_bar_chart : hoare P (_update_low_bar_chart env) P P.
Proof. unfold _update_low_bar_chart. keep. Qed.
End ChartUpdates.

(** ** The display while the FB Prophet model is selected *)

Lemma chart_blind_reset : chart_blind prophet_display_reset.
Proof. intros c st H. exact H. Qed.

Lemma chart_blind_placeholder : chart_blind shows_placeholder.
Proof. intros c st H. exact H. Qed.

Create HintDb methods.

#[local] Hint Resolve chart_blind_reset chart_blind_placeholder : methods.

(** Apply the rules along the text of a method whose assignments touch
    neither the model choice nor the display. *)
Ltac keep_display P :=
  repeat lazymatch goal with
    | |- hoare _ (if ?c then _ else _) _ _ => destruct c
    | |- hoare _ (match ?c with _ => _ end) _ _ => destruct c
    | |- hoare _ (bind get _) _ _ =>
        apply hoare_get; intros ?;
        apply hoare_weaken with (P' := P) (Q' := P) (E' := P);
        [| intros ? [? _]; assumption | auto | auto]
    | |- hoare _ (bind _ _) _ _ => apply hoare_bind with (Q := P); [| intros ?]
    | |- hoare _ (modify _) _ _ =>
        apply hoare_modify; let H := fresh in intros ? H; exact H
    | |- hoare _ (ret _) _ _ => apply hoare_ret
    | |- hoare _ (raise _) _ _ => apply hoare_raise
    | |- hoare _ (print _) _ _ => apply hoare_print
    | |- hoare _ (lift _) _ _ => apply hoare_lift
    | |- hoare _ (_update_choropleth _) _ _ =>
        apply keep_update_choropleth; auto with methods
    | |- hoare _ (_update_histogram _) _ _ =>
        apply keep_update_histogram; auto with methods
    | |- hoare _ (_update_line_chart _) _ _ =>
        apply keep_update_line_chart; auto with methods
    | |- hoare _ (_update_seasonal_boxplot _) _ _ =>
        apply keep_update_seasonal_boxplot; auto with methods
    | |- hoare _ (_update_lg_bar_chart _) _ _ =>
        apply keep_update_lg_bar_chart; auto with methods
    | |- hoare _ (_update_low_bar_chart _) _ _ =>
        apply keep_update_low_bar_chart; auto with methods
    end.

Lemma origin_change_keeps_display (env : Loaded) (new : string) :
  hoare prophet_display_reset (dispatch env (OriginChanged new))
        prophet_display_reset prophet_display_reset.
Proof.
  unfold dispatch, _handle_origin_input_change, clear_prophet.
  keep_display prophet_display_reset.
Qed.

Lemma destination_change_keeps_display (env : Loaded) (new : string) :
  hoare prophet_display_reset (dispatch env (DestinationChanged new))
        prophet_display_reset prophet_display_reset.
Proof.
  unfold dispatch, _handle_destination_input_change, clear_prophet.
  keep_display prophet_display_reset.
Qed.

(** [_update_analysis_results(0.)] leaves the placeholder, whatever was
    shown. *)
Lemma reset_display (P : App -> Prop) :
  hoare P (_update_analysis_results 0) shows_placeholder shows_placeholder.
Proof. intros st _. reflexivity. Qed.

Lemma season_change_resets_display (env : Loaded) (new : string) (P : App -> Prop) :
  hoare P (dispatch env (SeasonChanged new)) shows_placeholder shows_placeholder.
Proof.
  unfold dispatch, _handle_season_input_change.
  apply hoare_bind with (Q := fun _ => True).
  { intros st _. exact I. }
  intros _. apply hoare_bind with (Q := shows_placeholder); [apply reset_display|].
  intros _. keep_display shows_placeholder.
Qed.

Lemma model_change_resets_display (env : Loaded) (new : string) (P : App -> Prop) :
  hoare P (dispatch env (ModelChanged new)) shows_placeholder shows_placeholder.
Proof.
  unfold dispatch, _handle_ml_model_input_change, clear_prophet.
  apply hoare_bind with (Q := fun _ => True).
  { intros st _. exact I. }
  intros _. apply hoare_bind with (Q := shows_placeholder); [apply reset_display|].
  intros _. keep_display shows_placeholder.
Qed.

Lemma prophet_forecast_keeps_display (env : Loaded) (origin destination : string) :
  hoare shows_placeholder (prophet_forecast env origin destination)
        shows_placeholder shows_placeholder.
Proof.
  unfold prophet_forecast, print_ineligible.
  keep_display shows_placeholder.
Qed.

Lemma analyze_keeps_display (env : Loaded) :
  hoare prophet_display_reset (dispatch env AnalyzeClicked)
        prophet_display_reset prophet_display_reset.
Proof.
  unfold dispatch, _handle_analyze_button_click.
  apply hoare_get. intro s.
  destruct (mem_string (value (dropdown_ml_model s)) ["XGBoost"; "CatBoost"]) eqn:Etree.
  { unfold _update_analysis_results.
    destruct (Qeq_bool _ 0); apply hoare_modify; intros st [_ ->] Hm;
      cbn in Hm; rewrite Hm in Etree; discriminate. }
  destruct (value (dropdown_ml_model s) =? "FB Prophet")%string eqn:Eprophet.
  { apply hoare_weaken with (P' := fun _ => True) (Q' := shows_placeholder)
                            (E' := shows_placeholder);
      [| auto | intros st H _; exact H | intros st H _; exact H].
    apply hoare_bind with (Q := shows_placeholder); [apply reset_display|].
    intros _.
    match goal with |- hoare _ (if ?c then _ else _) _ _ => destruct c end;
      [apply hoare_print|].
    apply prophet_forecast_keeps_display. }
  apply String.eqb_neq in Eprophet.
  assert (Hs : forall t st, st = s -> prophet_display_reset (set_analysis_results_text t st)).
  { intros t st -> Hm. cbn in Hm. contradiction. }
  destruct (mem_string (value (dropdown_ml_model s))
                       ["Decision Tree"; "Random Forest"]).
  - match goal with |- hoare _ (if ?c then _ else _) _ _ => destruct c end.
    + apply hoare_weaken with (P' := prophet_display_reset)
                              (Q' := prophet_display_reset)
                              (E' := prophet_display_reset);
        [apply hoare_print | intros st [H _]; exact H | auto | auto].
    + unfold _update_analysis_results.
      destruct (Qeq_bool _ 0); apply hoare_modify; intros st [_ E]; now apply Hs.
  - apply hoare_weaken with (P' := prophet_display_reset)
                            (Q' := prophet_display_reset)
                            (E' := prophet_display_reset);
      [apply hoare_print | intros st [H _]; exact H | auto | auto].
Qed.

Lemma build_keeps_display (env : Loaded) :
  hoare prophet_display_reset (build env)
        prophet_display_reset prophet_display_reset.
Proof.
  unfold build, _initialize_choropleth, _initialize_histogram,
    _initialize_line_chart, _initialize_seasonal_boxplot,
    _initialize_lg_bar_chart, _initialize_low_bar_chart, render.
  keep_display prophet_display_reset.
Qed.

(** In every state the application can reach, the display shows the
    placeholder whenever the selected model is FB Prophet. *)
Lemma reachable_display_reset (env : Loaded) (st : App) :
  reachable env st -> prophet_display_reset st.
Proof.
  induction 1 as [|st ev _ IH].
  - eapply hoare_state_of; [apply build_keeps_display|].
    intros _. reflexivity.
  - destruct ev as [new|new|new|new|].
    + eapply hoare_state_of; [apply origin_change_keeps_display | exact IH].
    + eapply hoare_state_of; [apply destination_change_keeps_display | exact IH].
    + intros _. eapply hoare_state_of;
        [apply (season_change_resets_display env new (fun _ => True)) | exact I].
    + intros _. eapply hoare_state_of;
        [apply (model_change_resets_display env new (fun _ => True)) | exact I].
    + eapply hoare_state_of; [apply analyze_keeps_display | exact IH].
Qed.

(** ** The analyze button: FB Prophet *)

Lemma split_first_set (s w : string) : split_first s = Ok w -> (s =? "")%string = false.
Proof. destruct s; [discriminate | reflexivity]. Qed.

(** The two ways the FB Prophet branch finds a route ineligible: the
    history does not end in 2024, or the table it consults has no
    entry for the route.  Nothing is assigned. *)
Lemma prophet_forecast_ineligible (env : Loaded) (st : App)
      (origin destination src dst : string) :
  split_first origin = Ok src ->
  split_first destination = Ok dst ->
  year_max (_get_filtered_data env st false) <> Some 2024%Z
  \/ (periods_ok (_get_filtered_data env st false) = true
      /\ consulted_forecast env src dst = None) ->
  prophet_forecast env origin destination st = (Ok tt, st, ineligible_message).
Proof.
  intros Hs Hd H. unfold prophet_forecast, bind, get.
  rewrite Hs, Hd. cbn [lift ret].
  destruct (year_max (_get_filtered_data env st false)) as [m|] eqn:Ey;
    [destruct (Z.eqb_spec m 2024) as [->|Hm]|]; cbn [negb];
    try reflexivity.
  destruct H as [H|[Hok Hc]]; [congruence|].
  destruct (with_dates_total _ Hok) as (dated & ->). cbn [lift ret].
  unfold consulted_forecast in Hc.
  destruct (mem_string src multi_airport_codes || mem_string dst multi_airport_codes);
    rewrite Hc; reflexivity.
Qed.

Lemma analyze_prophet_ineligible (env : Loaded) (st : App) (src dst : string) :
  value (dropdown_ml_model st) = "FB Prophet" ->
  split_first (value (dropdown_origin st)) = Ok src ->
  split_first (value (dropdown_destination st)) = Ok dst ->
  year_max (_get_filtered_data env st false) <> Some 2024%Z
  \/ (periods_ok (_get_filtered_data env st false) = true
      /\ consulted_forecast env src dst = None) ->
  _handle_analyze_button_click env st
  = (Ok tt, set_analysis_results_text placeholder_text st, ineligible_message).
Proof.
  intros Hm Hs Hd H.
  unfold _handle_analyze_button_click. unfold bind at 1. unfold get.
  rewrite Hm. cbn [mem_string existsb String.eqb Ascii.eqb Bool.eqb orb].
  rewrite (split_first_set _ Hs), (split_first_set _ Hd). cbn [orb].
  unfold bind, _update_analysis_results. cbn [Qeq_bool Qnum Qden Z.mul Z.eqb modify].
  rewrite (@prophet_forecast_ineligible env
             (set_analysis_results_text placeholder_text st) _ _ src dst Hs Hd H).
  reflexivity.
Qed.

Lemma set_text_same (st : App) :
  analysis_results_text st = placeholder_text ->
  set_analysis_results_text placeholder_text st = st.
Proof. destruct st. cbn. now intros ->. Qed.

Lemma mem_string_In (s : string) (l : list string) :
  mem_string s l = true <-> In s l.
Proof.
  unfold mem_string. rewrite existsb_exists. split.
  - intros (x & Hx & E). apply String.eqb_eq in E. now subst.
  - intro H. exists s. split; [exact H | apply String.eqb_refl].
Qed.

(** C3.  With origin and destination set and the FB Prophet model, when
    the last year of the filtered route is not 2024 or the forecast
    table has no entry for the route key, the analyze handler prints
    the advisory that the route is ineligible, raises nothing and
    leaves the whole state, in particular the prediction display, the
    cached forecast and the charts, as it was before the click. *)
Theorem ineligible_route_state_unchanged (env : Loaded) (st : App) (src dst : string) :
  reachable env st ->
  value (dropdown_ml_model st) = "FB Prophet" ->
  split_first (value (dropdown_origin st)) = Ok src ->
  split_first (value (dropdown_destination st)) = Ok dst ->
  year_max (_get_filtered_data env st false) <> Some 2024%Z
  \/ (periods_ok (_get_filtered_data env st false) = true
      /\ consulted_forecast env src dst = None) ->
  _handle_analyze_button_click env st
  = (Ok tt, st,
     ["Selected route ineligible for FB Prophet forecasting.";
      "Please select a different route."]).
Proof.
  intros Hr Hm Hs Hd H.
  rewrite (analyze_prophet_ineligible env st Hm Hs Hd H).
  rewrite set_text_same; [reflexivity|].
  exact (reachable_display_reset Hr Hm).
Qed.

Lemma ineligible_route_state_unchanged_witness :
  year_max (_get_filtered_data sample_env sample_jfk_lax false) = Some 2023%Z
  /\ _handle_analyze_button_click sample_env sample_jfk_lax
     = (Ok tt, sample_jfk_lax, ineligible_message).
Proof.
  split; [vm_compute; reflexivity|].
  apply (@ineligible_route_state_unchanged sample_env sample_jfk_lax "JFK" "LAX").
  - unfold sample_jfk_lax, after, sample_start.
    do 3 apply reachable_event. exact (reachable_build sample_env).
  - vm_compute; reflexivity.
  - vm_compute; reflexivity.
  - vm_compute; reflexivity.
  - left. intro H. vm_compute in H. discriminate H.
Defined.

(** C9.  For a route whose origin or destination code is one of the
    multi-airport codes ACY, ORD, DTW, LGA, IAD and EGE, the FB Prophet
    branch always reports the route ineligible and stores no forecast:
    the secondary tables it consults for such a route are empty. *)
Theorem multi_airport_route_ineligible (env : Loaded) (st : App) (src dst : string) :
  value (dropdown_ml_model st) = "FB Prophet" ->
  split_first (value (dropdown_origin st)) = Ok src ->
  split_first (value (dropdown_destination st)) = Ok dst ->
  In src ["ACY"; "ORD"; "DTW"; "LGA"; "IAD"; "EGE"]
  \/ In dst ["ACY"; "ORD"; "DTW"; "LGA"; "IAD"; "EGE"] ->
  periods_ok (_get_filtered_data env st false) = true ->
  let out := _handle_analyze_button_click env st in
  consulted_forecast env src dst = None
  /\ result_of out = Ok tt
  /\ printed out = ["Selected route ineligible for FB Prophet forecasting.";
                    "Please select a different route."]
  /\ prophet_fare_df (state_of out) = prophet_fare_df st
  /\ prophet_fare_lg_df (state_of out) = prophet_fare_lg_df st
  /\ prophet_fare_low_df (state_of out) = prophet_fare_low_df st
  /\ charts (state_of out) = charts st.
Proof.
  intros Hm Hs Hd Hmulti Hok out.
  assert (Hc : consulted_forecast env src dst = None).
  { unfold consulted_forecast.
    assert (M : mem_string src multi_airport_codes
                || mem_string dst multi_airport_codes = true).
    { apply orb_true_iff. destruct Hmulti as [H|H]; [left|right];
        now apply mem_string_In. }
    now rewrite M. }
  split; [exact Hc|].
  unfold out.
  rewrite (analyze_prophet_ineligible env st Hm Hs Hd (or_intror (conj Hok Hc))).
  repeat split.
Qed.

Lemma multi_airport_route_ineligible_witness :
  year_max (_get_filtered_data sample_env sample_san_ord false) = Some 2024%Z
  /\ result_of (_handle_analyze_button_click sample_env sample_san_ord) = Ok tt
  /\ prophet_fare_df
       (state_of (_handle_analyze_button_click sample_env sample_san_ord)) = None.
Proof.
  split; [vm_compute; reflexivity|].
  destruct (@multi_airport_route_ineligible sample_env sample_san_ord "SAN" "ORD")
    as (_ & R & _ & F & _).
  - vm_compute; reflexivity.
  - vm_compute; reflexivity.
  - vm_compute; reflexivity.
  - right. simpl. tauto.
  - vm_compute; reflexivity.
  - split; [exact R|]. rewrite F. vm_compute; reflexivity.
Defined.

(** ** Opacity of the charts *)

(** The opacity test only looks at the origin. *)
Lemma chart_alpha_origin (st : App) :
  chart_alpha st = if (value (dropdown_origin st) =? "")%string then 0 else 0.8.
Proof.
  unfold chart_alpha, select_eq_str. now rewrite orb_false_r.
Qed.

(** C2 fails on the code.  With the origin set and the destination
    unset, the five redraw functions (histogram, line chart, seasonal
    box plot and both carrier bar charts) give their chart the opacity
    0.8, where the placeholder state asks for 0: the test compares the
    destination widget, not its value, with the empty string. *)
Theorem alpha_with_destination_unset :
  value (dropdown_origin sample_origin_only) = SAN
  /\ value (dropdown_destination sample_origin_only) = ""
  /\ spec_chart_alpha sample_origin_only = 0
  /\ chart_alpha sample_origin_only = 0.8
  /\ (exists h, _redraw_holoviews_histogram sample_env sample_origin_only = Ok h
                /\ hist_alpha h = 0.8)
  /\ (exists l, _redraw_holoviews_line_chart sample_env sample_origin_only = Ok l
                /\ line_alpha l = 0.8)
  /\ box_alpha (_redraw_holoviews_seasonal_boxplot sample_env sample_origin_only) = 0.8
  /\ bars_alpha (_redraw_holoviews_bar_chart sample_env sample_origin_only "lg") = 0.8
  /\ bars_alpha (_redraw_holoviews_bar_chart sample_env sample_origin_only "low") = 0.8.
Proof.
  split; [vm_compute; reflexivity|].
  split; [vm_compute; reflexivity|].
  split; [vm_compute; reflexivity|].
  split; [vm_compute; reflexivity|].
  split; [eexists; split; vm_compute; reflexivity|].
  split; [eexists; split; vm_compute; reflexivity|].
  repeat split; vm_compute; reflexivity.
Qed.

(** * Further properties of the handlers and chart builders *)

(** X1.  In every state the application can reach, whenever the FB
    Prophet model is selected the result display shows the placeholder
    text: the model-change handler and the FB Prophet branch of the
    analyze handler both reset the display before anything can fail. *)
Theorem prophet_selected_shows_placeholder (env : Loaded) (st : App) :
  reachable env st ->
  value (dropdown_ml_model st) = "FB Prophet" ->
  analysis_results_text st = "Est. Price:<h2>$   -  </h2>".
Proof.
  intros Hr Hm. exact (reachable_display_reset Hr Hm).
Qed.

Lemma prophet_selected_shows_placeholder_witness :
  analysis_results_text sample_forecasted = placeholder_text.
Proof.
  apply (@prophet_selected_shows_placeholder sample_env sample_forecasted).
  - unfold sample_forecasted, sample_san_lax, sample_origin_only, after, sample_start.
    do 4 apply reachable_event. exact (reachable_build sample_env).
  - vm_compute; reflexivity.
Defined.

(** A line chart drawn while no forecast is cached has no forecast
    curve. *)
Lemma line_chart_without_forecast (env : Loaded) (st : App) (l : LineChart) :
  prophet_fare_df st = None ->
  _redraw_holoviews_line_chart env st = Ok l ->
  prophet_curves l = None.
Proof.
  unfold _redraw_holoviews_line_chart. intros ->.
  destruct (with_dates _); simpl; [|discriminate].
  intro E. now injection E as <-.
Qed.

(** The charts of a state, put back, give the state. *)
Lemma set_charts_charts (st : App) : set_charts (charts st) st = st.
Proof. now destruct st. Qed.

(** A callback that gives a chart is a redraw that gives it. *)
Lemma callback_Ok {A} (env : Loaded) (c : ChartId) (redraw : App -> Result A)
      (st : App) (a : A) :
  callback env c redraw st = Ok a -> redraw st = Ok a.
Proof.
  unfold callback. destruct (library_raises env c st); [discriminate | tauto].
Qed.

(** X2.  Changing the model always resets the display to the
    placeholder and clears the three cached forecast frames, whatever
    the redraw of the line chart then does, and leaves the other
    dropdowns alone.  The redraw callback runs on the new state with
    the charts as they were: when it gives a chart, that chart is the
    line chart afterwards, it is the redraw for the state reached and
    it has no forecast curve; when it fails, the failure is not passed
    on and the line chart stays the one drawn before, with the forecast
    curve it may have. *)
Theorem model_change_clears_forecast (env : Loaded) (st : App) (new : string) :
  let out := dispatch env (ModelChanged new) st in
  let st' := state_of out in
  value (dropdown_ml_model st') = new
  /\ analysis_results_text st' = "Est. Price:<h2>$   -  </h2>"
  /\ prophet_fare_df st' = None
  /\ prophet_fare_lg_df st' = None
  /\ prophet_fare_low_df st' = None
  /\ dropdown_origin st' = dropdown_origin st
  /\ dropdown_destination st' = dropdown_destination st
  /\ dropdown_season st' = dropdown_season st
  /\ match callback env LineChartChart (_redraw_holoviews_line_chart env)
                    (set_charts (charts st) st') with
     | Ok l => hv_line_chart (charts st') = Some l
               /\ prophet_curves l = None
               /\ _redraw_holoviews_line_chart env st' = Ok l
     | Raise _ => hv_line_chart (charts st') = hv_line_chart (charts st)
     end.
Proof.
  cbv zeta.
  unfold dispatch, _handle_ml_model_input_change, clear_prophet,
    _update_line_chart, event.
  run.
  match goal with |- context [callback env LineChartChart ?f ?s] =>
    set (s1 := s); destruct (callback env LineChartChart f s1) as [l|e] eqn:El end.
  - change (state_of (modify (set_hv_line_chart l) s1)) with (set_hv_line_chart l s1).
    change (set_charts (charts st) (set_hv_line_chart l s1)) with s1.
    rewrite El. apply callback_Ok in El.
    repeat split.
    + now apply (@line_chart_without_forecast env s1).
    + exact El.
  - change (state_of (ret tt s1)) with s1.
    change (set_charts (charts st) s1) with s1.
    rewrite El. repeat split.
Qed.

Lemma model_change_clears_forecast_witness :
  prophet_fare_df sample_forecasted <> None
  /\ prophet_fare_df (after sample_env (ModelChanged "XGBoost") sample_forecasted)
     = None
  /\ exists l,
       hv_line_chart (charts (after sample_env (ModelChanged "XGBoost")
                                    sample_forecasted)) = Some l
       /\ prophet_curves l = None.
Proof.
  split; [vm_compute; discriminate|].
  destruct (model_change_clears_forecast sample_env sample_forecasted "XGBoost")
    as (_ & _ & P & _ & _ & _ & _ & _ & H).
  split; [exact P|].
  destruct (callback _ _ _ _) as [l|e] eqn:E in H;
    [|vm_compute in E; discriminate E].
  exists l. split; apply H.
Defined.

(** What a season change does to the state. *)
Lemma season_change_effect (env : Loaded) (st : App) (new : string) :
  let st' := state_of (dispatch env (SeasonChanged new) st) in
  value (dropdown_season st') = new
  /\ analysis_results_text st' = "Est. Price:<h2>$   -  </h2>"
  /\ prophet_fare_df st' = prophet_fare_df st
  /\ prophet_fare_lg_df st' = prophet_fare_lg_df st
  /\ prophet_fare_low_df st' = prophet_fare_low_df st
  /\ choropleth (charts st') = choropleth (charts st)
  /\ hv_line_chart (charts st') = hv_line_chart (charts st)
  /\ hv_seasonal_boxplot (charts st') = hv_seasonal_boxplot (charts st)
  /\ dropdown_origin st' = dropdown_origin st
  /\ dropdown_destination st' = dropdown_destination st
  /\ dropdown_ml_model st' = dropdown_ml_model st.
Proof.
  cbv zeta.
  unfold dispatch, _handle_season_input_change,
    _update_histogram, event, _update_lg_bar_chart, _update_low_bar_chart.
  run.
  match goal with |- context [callback env HistogramChart ?f ?s] =>
    destruct (callback env HistogramChart f s) end; run;
  repeat match goal with
         | |- context [if library_raises env ?c ?s then _ else _] =>
             destruct (library_raises env c s); run
         end;
    cbn; repeat split.
Qed.

(** What a season change redraws: the histogram through its callback,
    then the two bar charts. *)
Lemma season_change_redraws (env : Loaded) (st : App) (new : string) :
  let out := dispatch env (SeasonChanged new) st in
  let st' := state_of out in
  match callback env HistogramChart (_redraw_holoviews_histogram env)
                 (set_charts (charts st) st') with
  | Ok h => hv_histogram (charts st') = Some h
            /\ _redraw_holoviews_histogram env st' = Ok h
  | Raise _ => hv_histogram (charts st') = hv_histogram (charts st)
  end
  /\ (result_of out = Ok tt ->
      hv_lg_bar_chart (charts st')
      = Some (_redraw_holoviews_bar_chart env st' "lg")
      /\ hv_low_bar_chart (charts st')
         = Some (_redraw_holoviews_bar_chart env st' "low")).
Proof.
  cbv zeta.
  unfold dispatch, _handle_season_input_change,
    _update_histogram, event, _update_lg_bar_chart, _update_low_bar_chart.
  run.
  set (s1 := set_analysis_results_text placeholder_text _).
  destruct (callback env HistogramChart (_redraw_holoviews_histogram env) s1)
    as [h|e] eqn:Eh;
    run;
    repeat match goal with
           | |- context [if library_raises env ?c ?s then _ else _] =>
               destruct (library_raises env c s); run
           end;
    unfold state_of, result_of, modify, ret, raise; cbn [fst snd];
    match goal with
    | |- context [callback env HistogramChart ?f (set_charts (charts st) ?s)] =>
        change (set_charts (charts st) s) with s1
    end;
    rewrite Eh; try apply callback_Ok in Eh;
    (split; [first [split; [reflexivity | exact Eh] | reflexivity]
            | first [discriminate | intros _; split; reflexivity]]).
Qed.

(** X3.  Changing the season always resets the display to the
    placeholder and redraws the histogram and the two bar charts, and
    nothing else.  The histogram's callback runs on the new state with
    the charts as they were: the chart it gives is the histogram
    afterwards, and when it fails the histogram stays the one drawn
    before and the handler goes on.  When the handler returns, the two
    bar charts are those of the state reached.  The cached forecast,
    the choropleth, the line chart, the seasonal box plot and the other
    three dropdowns are left as they were, whether the handler returns
    or raises. *)
Theorem season_change_redraws_three_charts (env : Loaded) (st : App) (new : string) :
  let out := dispatch env (SeasonChanged new) st in
  let st' := state_of out in
  (value (dropdown_season st') = new
   /\ analysis_results_text st' = "Est. Price:<h2>$   -  </h2>"
   /\ prophet_fare_df st' = prophet_fare_df st
   /\ prophet_fare_lg_df st' = prophet_fare_lg_df st
   /\ prophet_fare_low_df st' = prophet_fare_low_df st
   /\ choropleth (charts st') = choropleth (charts st)
   /\ hv_line_chart (charts st') = hv_line_chart (charts st)
   /\ hv_seasonal_boxplot (charts st') = hv_seasonal_boxplot (charts st)
   /\ dropdown_origin st' = dropdown_origin st
   /\ dropdown_destination st' = dropdown_destination st
   /\ dropdown_ml_model st' = dropdown_ml_model st)
  /\ match callback env HistogramChart (_redraw_holoviews_histogram env)
                    (set_charts (charts st) st') with
     | Ok h => hv_histogram (charts st') = Some h
               /\ _redraw_holoviews_histogram env st' = Ok h
     | Raise _ => hv_histogram (charts st') = hv_histogram (charts st)
     end
  /\ (result_of out = Ok tt ->
      hv_lg_bar_chart (charts st')
      = Some (_redraw_holoviews_bar_chart env st' "lg")
      /\ hv_low_bar_chart (charts st')
         = Some (_redraw_holoviews_bar_chart env st' "low")).
Proof.
  cbv zeta. split.
  - exact (season_change_effect env st new).
  - exact (season_change_redraws env st new).
Qed.

Lemma season_change_redraws_three_charts_witness :
  (let st' := after sample_env (SeasonChanged "Spring") sample_san_lax in
   hv_histogram (charts st') = Some {| hist_alpha := 0.8; hist_fares := [120.5] |}
   /\ option_map (@avg_data) (hv_lg_bar_chart (charts st'))
      = Some [("WN - Southwest Airlines", 130)])
  /\ (let st' := after sample_env (SeasonChanged "Summer") sample_san_lax in
      hv_histogram (charts st') = hv_histogram (charts sample_san_lax)
      /\ option_map (@avg_data) (hv_lg_bar_chart (charts st')) = Some []).
Proof.
  split.
  - destruct (season_change_redraws_three_charts sample_env sample_san_lax "Spring")
      as (_ & H & B).
    destruct (callback _ _ _ _) as [h|e] eqn:E in H;
      [|vm_compute in E; discriminate E].
    cbv zeta. unfold after. split.
    + rewrite (proj1 H). vm_compute in E. now injection E as <-.
    + rewrite (proj1 (B ltac:(vm_compute; reflexivity))). vm_compute. reflexivity.
  - destruct (season_change_redraws_three_charts sample_env sample_san_lax "Summer")
      as (_ & H & B).
    destruct (callback _ _ _ _) as [h|e] eqn:E in H;
      [vm_compute in E; discriminate E|].
    cbv zeta. unfold after. split.
    + exact H.
    + rewrite (proj1 (B ltac:(vm_compute; reflexivity))). vm_compute. reflexivity.
Defined.

(** ** Order of strings *)

Lemma ascii_compare_N (a b : ascii) :
  Ascii.compare a b = N.compare (N_of_ascii a) (N_of_ascii b).
Proof. reflexivity. Qed.

Lemma ascii_compare_Eq (a b : ascii) : Ascii.compare a b = Eq <-> a = b.
Proof.
  split; [apply Ascii.compare_eq_iff|]. intros ->.
  rewrite ascii_compare_N. apply N.compare_refl.
Qed.

Lemma string_compare_trans (a b c : string) :
  String.compare a b <> Gt -> String.compare b c <> Gt -> String.compare a c <> Gt.
Proof.
  revert b c. induction a as [|x a IH]; intros [|y b] [|z c]; simpl;
    try congruence.
  rewrite !ascii_compare_N.
  destruct (N.compare_spec (N_of_ascii x) (N_of_ascii y)) as [Exy|Lxy|Gxy];
    destruct (N.compare_spec (N_of_ascii y) (N_of_ascii z)) as [Eyz|Lyz|Gyz];
    try congruence; intros H1 H2.
  - destruct (N.compare_spec (N_of_ascii x) (N_of_ascii z)); try lia.
    now apply IH with b.
  - destruct (N.compare_spec (N_of_ascii x) (N_of_ascii z)); try lia. discriminate.
  - destruct (N.compare_spec (N_of_ascii x) (N_of_ascii z)); try lia. discriminate.
  - destruct (N.compare_spec (N_of_ascii x) (N_of_ascii z)); try lia. discriminate.
Qed.

Lemma string_leb_trans (a b c : string) :
  String.leb a b = true -> String.leb b c = true -> String.leb a c = true.
Proof.
  unfold String.leb. intros H1 H2.
  assert (G : String.compare a c <> Gt).
  { apply string_compare_trans with b.
    - destruct (String.compare a b); congruence.
    - destruct (String.compare b c); congruence. }
  destruct (String.compare a c); congruence.
Qed.

(** The option list built for a dropdown is sorted, without duplicates,
    and holds exactly the values of the column. *)
Lemma airport_options_spec (col : Row -> string) (frame : DataFrame) :
  NoDup (airport_options col frame)
  /\ StronglySorted (fun a b => String.leb a b = true) (airport_options col frame)
  /\ forall v, In v (airport_options col frame) <-> exists r, In r frame /\ col r = v.
Proof.
  unfold airport_options. split; [|split].
  - apply sort_by_NoDup, (unique_NoDup String.eqb String.eqb_eq).
  - apply (@sort_by_sorted _ String.leb).
    + tauto.
    + apply String.leb_total.
    + apply string_leb_trans.
  - intro v. rewrite sort_by_In_any, (unique_In String.eqb String.leb String.eqb_eq), in_map_iff.
    split; intros (r & H1 & H2); exists r; tauto.
Qed.

(** Apply the rules along the text of a method that assigns only charts
    and forecast frames. *)
Ltac keep_fields P :=
  repeat lazymatch goal with
    | |- hoare _ (if ?c then _ else _) _ _ => destruct c
    | |- hoare _ (match ?c with _ => _ end) _ _ => destruct c
    | |- hoare _ (bind get _) _ _ =>
        apply hoare_get; intros ?;
        apply hoare_weaken with (P' := P) (Q' := P) (E' := P);
        [| intros ? [? _]; assumption | auto | auto]
    | |- hoare _ (bind _ _) _ _ => apply hoare_bind with (Q := P); [| intros ?]
    | |- hoare _ (modify _) _ _ =>
        apply hoare_modify; let H := fresh in intros ? H; exact H
    | |- hoare _ (ret _) _ _ => apply hoare_ret
    | |- hoare _ (raise _) _ _ => apply hoare_raise
    | |- hoare _ (print _) _ _ => apply hoare_print
    | |- hoare _ (lift _) _ _ => apply hoare_lift
    | |- hoare _ (_update_choropleth _) _ _ =>
        apply keep_update_choropleth; let H := fresh in intros ? ? H; exact H
    | |- hoare _ (_update_histogram _) _ _ =>
        apply keep_update_histogram; let H := fresh in intros ? ? H; exact H
    | |- hoare _ (_update_line_chart _) _ _ =>
        apply keep_update_line_chart; let H := fresh in intros ? ? H; exact H
    | |- hoare _ (_update_seasonal_boxplot _) _ _ =>
        apply keep_update_seasonal_boxplot; let H := fresh in intros ? ? H; exact H
    | |- hoare _ (_update_lg_bar_chart _) _ _ =>
        apply keep_update_lg_bar_chart; let H := fresh in intros ? ? H; exact H
    | |- hoare _ (_update_low_bar_chart _) _ _ =>
        apply keep_update_low_bar_chart; let H := fresh in intros ? ? H; exact H
    end.

(** The redraw cascade of the origin and destination handlers leaves
    the dropdowns and the display alone. *)
Lemma redraw_cascade_keeps (env : Loaded) (s0 : App) :
  let P := fun st => same_dropdowns s0 st
                     /\ analysis_results_text st = analysis_results_text s0 in
  hoare P
        (_update_choropleth env ;;
         _update_histogram env ;;
         clear_prophet ;;
         _update_line_chart env ;;
         _update_seasonal_boxplot env ;;
         _update_lg_bar_chart env ;;
         _update_low_bar_chart env)
        P P.
Proof.
  intro P. unfold clear_prophet. keep_fields P.
Qed.

(** X4.  When the origin changes, the destination dropdown offers the
    empty option followed by the destinations that occur with the new
    origin in the data store (all destinations when the origin is
    cleared), sorted and without duplicates.  This holds also when a
    later redraw fails.  The selected destination, the season, the
    model and the display are not changed: a destination that is no
    longer offered stays selected. *)
Theorem origin_change_destination_options (env : Loaded) (st : App) (new : string) :
  let st' := state_of (dispatch env (OriginChanged new) st) in
  exists opts,
    options (dropdown_destination st') = "" :: opts
    /\ NoDup opts
    /\ StronglySorted (fun a b => String.leb a b = true) opts
    /\ (forall d, In d opts <->
          exists r, In r (df env) /\ airport_name_concat_2 r = d
                    /\ (new = "" \/ airport_name_concat_1 r = new))
    /\ value (dropdown_origin st') = new
    /\ options (dropdown_origin st') = options (dropdown_origin st)
    /\ value (dropdown_destination st') = value (dropdown_destination st)
    /\ dropdown_season st' = dropdown_season st
    /\ dropdown_ml_model st' = dropdown_ml_model st
    /\ analysis_results_text st' = analysis_results_text st.
Proof.
  cbv zeta. unfold dispatch, _handle_origin_input_change.
  rewrite !bind_modify.
  match goal with |- context [bind _ _ ?s] => set (s0 := s) end.
  match goal with |- context [state_of ?o] => set (out := o) end.
  assert (K : same_dropdowns s0 (state_of out)
              /\ analysis_results_text (state_of out) = analysis_results_text s0).
  { unfold out.
    eapply (hoare_state_of (P := fun st => same_dropdowns s0 st
                                 /\ analysis_results_text st = analysis_results_text s0));
      [apply redraw_cascade_keeps | repeat split]. }
  destruct K as ((K1 & K2 & K3 & K4) & K5).
  rewrite K1, K2, K3, K4, K5. unfold s0. cbn.
  set (frame := if (new =? "")%string then df env
                else filter (fun r => (airport_name_concat_1 r =? new)%string) (df env)).
  exists (airport_options airport_name_concat_2 frame).
  destruct (airport_options_spec airport_name_concat_2 frame) as (N & S & I).
  split; [unfold frame; now destruct (new =? "")%string|].
  split; [exact N|]. split; [exact S|]. split; [|repeat split].
  intro d. rewrite I. unfold frame.
  destruct (String.eqb_spec new "") as [E|Hne].
  - split; intros (r & H1 & H2); exists r; tauto.
  - split.
    + intros (r & H1 & H2). apply filter_In in H1. destruct H1 as [H1 H3].
      apply String.eqb_eq in H3. exists r. tauto.
    + intros (r & H1 & H2 & [H3|H3]); [contradiction|].
      exists r. split; [|exact H2]. apply filter_In. split; [exact H1|].
      now apply String.eqb_eq.
Qed.

(** X5.  When the destination changes, the origin dropdown offers the
    empty option followed by the origins that occur with the new
    destination in the data store (all origins when the destination is
    cleared), sorted and without duplicates, also when a later redraw
    fails.  The selected origin, the season, the model and the display
    are not changed. *)
Theorem destination_change_origin_options (env : Loaded) (st : App) (new : string) :
  let st' := state_of (dispatch env (DestinationChanged new) st) in
  exists opts,
    options (dropdown_origin st') = "" :: opts
    /\ NoDup opts
    /\ StronglySorted (fun a b => String.leb a b = true) opts
    /\ (forall o, In o opts <->
          exists r, In r (df env) /\ airport_name_concat_1 r = o
                    /\ (new = "" \/ airport_name_concat_2 r = new))
    /\ value (dropdown_destination st') = new
    /\ options (dropdown_destination st') = options (dropdown_destination st)
    /\ value (dropdown_origin st') = value (dropdown_origin st)
    /\ dropdown_season st' = dropdown_season st
    /\ dropdown_ml_model st' = dropdown_ml_model st
    /\ analysis_results_text st' = analysis_results_text st.
Proof.
  cbv zeta. unfold dispatch, _handle_destination_input_change.
  rewrite !bind_modify.
  match goal with |- context [bind _ _ ?s] => set (s0 := s) end.
  match goal with |- context [state_of ?o] => set (out := o) end.
  assert (K : same_dropdowns s0 (state_of out)
              /\ analysis_results_text (state_of out) = analysis_results_text s0).
  { unfold out.
    eapply (hoare_state_of (P := fun st => same_dropdowns s0 st
                                 /\ analysis_results_text st = analysis_results_text s0));
      [apply redraw_cascade_keeps | repeat split]. }
  destruct K as ((K1 & K2 & K3 & K4) & K5).
  rewrite K1, K2, K3, K4, K5. unfold s0. cbn.
  set (frame := if (new =? "")%string then df env
                else filter (fun r => (airport_name_concat_2 r =? new)%string) (df env)).
  exists (airport_options airport_name_concat_1 frame).
  destruct (airport_options_spec airport_name_concat_1 frame) as (N & S & I).
  split; [unfold frame; now destruct (new =? "")%string|].
  split; [exact N|]. split; [exact S|]. split; [|repeat split].
  intro o. rewrite I. unfold frame.
  destruct (String.eqb_spec new "") as [E|Hne].
  - split; intros (r & H1 & H2); exists r; tauto.
  - split.
    + intros (r & H1 & H2). apply filter_In in H1. destruct H1 as [H1 H3].
      apply String.eqb_eq in H3. exists r. tauto.
    + intros (r & H1 & H2 & [H3|H3]); [contradiction|].
      exists r. split; [|exact H2]. apply filter_In. split; [exact H1|].
      now apply String.eqb_eq.
Qed.

(** ** The forecast after an airport change *)

(** The redraw of the line chart while no forecast is cached. *)
Lemma update_line_chart_no_forecast (env : Loaded) (old : option LineChart) :
  hoare (fun st => prophet_fare_df st = None
                   /\ prophet_fare_lg_df st = None
                   /\ prophet_fare_low_df st = None
                   /\ hv_line_chart (charts st) = old)
        (_update_line_chart env)
        (forecast_cleared env old) (forecast_cleared env old).
Proof.
  intros st (H1 & H2 & H3 & H4). unfold _update_line_chart, event.
  rewrite bind_get.
  destruct (callback env LineChartChart (_redraw_holoviews_line_chart env) st)
    as [l|e] eqn:E.
  - change (forecast_cleared env old (set_hv_line_chart l st)).
    split; [exact H1|]. split; [exact H2|]. split; [exact H3|].
    exists (charts st).
    change (set_charts (charts st) (set_hv_line_chart l st))
      with (set_charts (charts st) st).
    rewrite set_charts_charts, E. apply callback_Ok in E.
    split; [reflexivity|]. split; [|exact E].
    now apply (@line_chart_without_forecast env st).
  - change (forecast_cleared env old st).
    split; [exact H1|]. split; [exact H2|]. split; [exact H3|].
    exists (charts st). now rewrite set_charts_charts, E.
Qed.

(** The charts drawn after the line chart leave the cache and the line
    chart alone. *)
Lemma later_charts_keep_forecast (env : Loaded) (old : option LineChart) :
  hoare (forecast_cleared env old)
        (_update_seasonal_boxplot env ;;
         _update_lg_bar_chart env ;;
         _update_low_bar_chart env)
        (forecast_cleared env old) (forecast_cleared env old).
Proof.
  unfold _update_seasonal_boxplot, event, _update_lg_bar_chart, _update_low_bar_chart.
  keep_fields (forecast_cleared env old).
Qed.

(** The charts drawn before the cache is cleared leave the cache and
    the line chart alone. *)
Lemma earlier_charts_keep_forecast (env : Loaded) (s0 : App) :
  hoare (forecast_kept s0)
        (_update_choropleth env ;; _update_histogram env)
        (forecast_kept s0) (forecast_kept s0).
Proof.
  unfold _update_choropleth, reset_state_colors, modify_choropleth,
    _update_histogram, event.
  keep_fields (forecast_kept s0).
Qed.

Lemma cascade_clears_forecast (env : Loaded) (s0 : App) :
  let old := hv_line_chart (charts s0) in
  hoare (forecast_kept s0)
        (_update_choropleth env ;;
         _update_histogram env ;;
         clear_prophet ;;
         _update_line_chart env ;;
         _update_seasonal_boxplot env ;;
         _update_lg_bar_chart env ;;
         _update_low_bar_chart env)
        (forecast_cleared env old)
        (fun st => forecast_cleared env old st \/ forecast_kept s0 st).
Proof.
  intro old.
  assert (E : hoare (forecast_kept s0)
                    (_update_choropleth env ;; _update_histogram env)
                    (forecast_kept s0)
                    (fun st => forecast_cleared env old st \/ forecast_kept s0 st)).
  { eapply hoare_weaken; [apply (@earlier_charts_keep_forecast env s0) | | |]; auto. }
  intros st Hst. specialize (E st Hst).
  rewrite <- bind_bind.
  unfold bind at 1.
  destruct ((_update_choropleth env ;; _update_histogram env) st)
    as [[[[]|e] s1] o1]; [|exact E].
  unfold clear_prophet. rewrite bind_modify.
  assert (T : hoare (fun st => prophet_fare_df st = None
                               /\ prophet_fare_lg_df st = None
                               /\ prophet_fare_low_df st = None
                               /\ hv_line_chart (charts st) = old)
                    (_update_line_chart env ;;
                     _update_seasonal_boxplot env ;;
                     _update_lg_bar_chart env ;;
                     _update_low_bar_chart env)
                    (forecast_cleared env old) (forecast_cleared env old)).
  { apply hoare_bind with (Q := forecast_cleared env old);
      [apply update_line_chart_no_forecast | intros _; apply later_charts_keep_forecast]. }
  specialize (T (set_prophet None None None s1)).
  destruct ((_update_line_chart env ;; _update_seasonal_boxplot env ;;
             _update_lg_bar_chart env ;; _update_low_bar_chart env)
              (set_prophet None None None s1)) as [[[[]|e] s2] o2].
  - apply T. repeat split. apply E.
  - left. apply T. repeat split. apply E.
Qed.

(** X6.  The handler of an origin or destination change empties the
    forecast cache once the choropleth update has returned, whether the
    histogram before it and the charts after it could be drawn or not.
    The line chart is then what its callback, run on the state with the
    cache emptied, made of it: the redraw for the state reached,
    without forecast curve, or the chart drawn before when the callback
    failed.  Only when the handler raises before that point, in the
    choropleth update, are the cache and the line chart as they
    were. *)
Theorem airport_change_clears_forecast (env : Loaded) (st : App) (ev : Event) (new : string) :
  ev = OriginChanged new \/ ev = DestinationChanged new ->
  let out := dispatch env ev st in
  let st' := state_of out in
  (prophet_fare_df st' = None
   /\ prophet_fare_lg_df st' = None
   /\ prophet_fare_low_df st' = None
   /\ exists c,
        match callback env LineChartChart (_redraw_holoviews_line_chart env)
                       (set_charts c st') with
        | Ok l => hv_line_chart (charts st') = Some l
                  /\ prophet_curves l = None
                  /\ _redraw_holoviews_line_chart env st' = Ok l
        | Raise _ => hv_line_chart (charts st') = hv_line_chart (charts st)
        end)
  \/ (exists e, result_of out = Raise e
                /\ prophet_fare_df st' = prophet_fare_df st
                /\ prophet_fare_lg_df st' = prophet_fare_lg_df st
                /\ prophet_fare_low_df st' = prophet_fare_low_df st
                /\ hv_line_chart (charts st') = hv_line_chart (charts st)).
Proof.
  intros Hev out st'.
  assert (H : hoare (forecast_kept st) (dispatch env ev)
                    (forecast_cleared env (hv_line_chart (charts st)))
                    (fun s => forecast_cleared env (hv_line_chart (charts st)) s
                              \/ forecast_kept st s)).
  { destruct Hev as [-> | ->]; unfold dispatch,
      _handle_origin_input_change, _handle_destination_input_change;
      (apply hoare_bind with (Q := forecast_kept st);
       [apply hoare_modify; intros s Hs; exact Hs|]; intros _);
      (apply hoare_bind with (Q := forecast_kept st);
       [apply hoare_modify; intros s Hs; exact Hs|]; intros _);
      apply cascade_clears_forecast. }
  specialize (H st). subst st'. unfold result_of, state_of. fold out in H.
  destruct out as [[[[]|e] s] o]; cbn [fst snd].
  - left. apply H. repeat split.
  - destruct H as [H|H]; [repeat split | left; exact H |].
    right. exists e. split; [reflexivity | exact H].
Qed.

Lemma airport_change_clears_forecast_witness :
  prophet_fare_df sample_forecasted <> None
  /\ prophet_fare_df (after sample_env (OriginChanged JFK) sample_forecasted) = None
  /\ prophet_fare_df (after sample_env (DestinationChanged "") sample_forecasted) = None.
Proof.
  split; [vm_compute; discriminate|]. split.
  - destruct (@airport_change_clears_forecast sample_env sample_forecasted
                (OriginChanged JFK) JFK) as [H|(e & H & _)].
    + left; reflexivity.
    + apply H.
    + vm_compute in H. discriminate H.
  - destruct (@airport_change_clears_forecast sample_env sample_forecasted
                (DestinationChanged "") "") as [H|(e & H & _)].
    + right; reflexivity.
    + apply H.
    + vm_compute in H. discriminate H.
Defined.

(** ** The analyze button: incomplete input and the tree models *)

(** X7.  The analyze handler answers an incomplete or unknown selection
    with one printed line and no inference.  With FB Prophet and origin
    or destination unset it asks for both and only resets the display;
    with Decision Tree or Random Forest and origin, destination or
    season unset it asks for the three and changes nothing; with no
    known model selected it prints "Error" and changes nothing. *)
Theorem analyze_incomplete_selection (env : Loaded) (st : App) :
  let origin := value (dropdown_origin st) in
  let destination := value (dropdown_destination st) in
  let season_value := value (dropdown_season st) in
  let model_choice := value (dropdown_ml_model st) in
  (model_choice = "FB Prophet" -> origin = "" \/ destination = "" ->
   _handle_analyze_button_click env st
   = (Ok tt, set_analysis_results_text "Est. Price:<h2>$   -  </h2>" st,
      ["Please select valid Origin and Destination from dropdown."]))
  /\ (model_choice = "Decision Tree" \/ model_choice = "Random Forest" ->
      origin = "" \/ destination = "" \/ season_value = "" ->
      _handle_analyze_button_click env st
      = (Ok tt, st,
         ["Please select valid Origin and Destination and Season from dropdown."]))
  /\ (~ In model_choice ["XGBoost"; "CatBoost"; "FB Prophet";
                         "Decision Tree"; "Random Forest"] ->
      _handle_analyze_button_click env st = (Ok tt, st, ["Error"])).
Proof.
  cbv zeta. unfold _handle_analyze_button_click. rewrite bind_get.
  split; [|split].
  - intros Hm Hsel. rewrite Hm.
    cbn [mem_string existsb String.eqb Ascii.eqb Bool.eqb orb].
    rewrite update_analysis_results_zero, bind_modify.
    assert (E : (value (dropdown_origin st) =? "")%string
                || (value (dropdown_destination st) =? "")%string = true).
    { apply orb_true_iff. rewrite !String.eqb_eq. exact Hsel. }
    now rewrite E.
  - intros Hm Hsel.
    assert (E : (value (dropdown_origin st) =? "")%string
                || (value (dropdown_destination st) =? "")%string
                || (value (dropdown_season st) =? "")%string = true).
    { rewrite !orb_true_iff, !String.eqb_eq. tauto. }
    destruct Hm as [Hm|Hm]; rewrite Hm;
      cbn [mem_string existsb String.eqb Ascii.eqb Bool.eqb orb];
      now rewrite E.
  - intro Hm.
    assert (N : forall l, (forall x, In x l -> In x ["XGBoost"; "CatBoost"; "FB Prophet";
                                                     "Decision Tree"; "Random Forest"]) ->
                          mem_string (value (dropdown_ml_model st)) l = false).
    { intros l Hl. destruct (mem_string _ l) eqn:E; [|reflexivity].
      apply mem_string_In in E. exfalso. apply Hm. now apply Hl. }
    rewrite (N ["XGBoost"; "CatBoost"]) by (simpl; tauto).
    rewrite (N ["Decision Tree"; "Random Forest"]) by (simpl; tauto).
    destruct (String.eqb_spec (value (dropdown_ml_model st)) "FB Prophet") as [E|_];
      [|reflexivity].
    exfalso. apply Hm. rewrite E. simpl. tauto.
Qed.

Lemma analyze_incomplete_selection_witness :
  _handle_analyze_button_click sample_env sample_start
  = (Ok tt, sample_start, ["Error"]).
Proof.
  apply (analyze_incomplete_selection sample_env sample_start).
  vm_compute. intuition discriminate.
Defined.

Lemma one_hot_entry_le (c d1 d2 d3 : string) :
  ((if mem_string c [d1; d2; d3] then 1 else 0)
   <= count_occ string_dec [c] d1 + count_occ string_dec [c] d2
      + count_occ string_dec [c] d3)%nat.
Proof.
  unfold mem_string. simpl.
  destruct (String.eqb_spec c d1), (String.eqb_spec c d2), (String.eqb_spec c d3);
    destruct (string_dec c d1), (string_dec c d2), (string_dec c d3);
    simpl; try lia; congruence.
Qed.

Lemma one_hot_ones (columns : list string) (d1 d2 d3 : string) :
  (List.length (filter (fun c => mem_string c [d1; d2; d3]) columns)
   <= count_occ string_dec columns d1 + count_occ string_dec columns d2
      + count_occ string_dec columns d3)%nat.
Proof.
  induction columns as [|c l IH]; [simpl; lia|].
  assert (H := one_hot_entry_le c d1 d2 d3).
  cbn [filter]. cbn [count_occ] in *.
  destruct (mem_string c [d1; d2; d3]);
    destruct (string_dec c d1), (string_dec c d2), (string_dec c d3);
    cbn [List.length] in *; lia.
Qed.

(** X8.  With Decision Tree or Random Forest and origin, destination
    and season all set, the handler returns and displays the
    prediction of the chosen model for a row that has exactly the
    training columns, in training order: 1 in the columns named after
    the selected origin, destination and season, 0 in all others, so at
    most three ones when the training columns are distinct. *)
Theorem tree_model_one_hot_prediction (env : Loaded) (st : App) :
  let origin := value (dropdown_origin st) in
  let destination := value (dropdown_destination st) in
  let season_value := value (dropdown_season st) in
  let model_choice := value (dropdown_ml_model st) in
  let columns := decision_forest_model_columns env in
  let encoded := one_hot_row columns origin destination season_value in
  model_choice = "Decision Tree" \/ model_choice = "Random Forest" ->
  origin <> "" -> destination <> "" -> season_value <> "" ->
  List.length encoded = List.length columns
  /\ (forall i c, nth_error columns i = Some c ->
        nth_error encoded i
        = Some (if string_dec c ("airport_name_concat_1_" ++ origin) then 1%Z
                else if string_dec c ("airport_name_concat_2_" ++ destination) then 1%Z
                else if string_dec c ("season_" ++ season_value) then 1%Z
                else 0%Z))
  /\ (NoDup columns ->
      (List.length (filter (fun x => (x =? 1)%Z) encoded) <= 3)%nat)
  /\ _handle_analyze_button_click env st
     = _update_analysis_results
         (if (model_choice =? "Decision Tree")%string
          then decision_tree_model env encoded
          else random_forest_model env encoded) st.
Proof.
  cbv zeta. intros Hm Ho Hd Hs.
  set (d1 := "airport_name_concat_1_" ++ value (dropdown_origin st)).
  set (d2 := "airport_name_concat_2_" ++ value (dropdown_destination st)).
  set (d3 := "season_" ++ value (dropdown_season st)).
  assert (Hrow : one_hot_row (decision_forest_model_columns env)
                   (value (dropdown_origin st)) (value (dropdown_destination st))
                   (value (dropdown_season st))
                 = map (fun c => if mem_string c [d1; d2; d3] then 1%Z else 0%Z)
                       (decision_forest_model_columns env)) by reflexivity.
  rewrite Hrow. split; [apply length_map|]. split; [|split].
  - intros i c Hi. rewrite nth_error_map, Hi. cbn [option_map]. f_equal.
    unfold mem_string. cbn [existsb].
    destruct (String.eqb_spec c d1), (string_dec c d1); try congruence; [reflexivity|].
    destruct (String.eqb_spec c d2), (string_dec c d2); try congruence; [reflexivity|].
    destruct (String.eqb_spec c d3), (string_dec c d3); try congruence; reflexivity.
  - intro ND.
    assert (C := proj1 (NoDup_count_occ string_dec _) ND).
    assert (L := one_hot_ones (decision_forest_model_columns env) d1 d2 d3).
    assert (C1 := C d1). assert (C2 := C d2). assert (C3 := C d3).
    assert (F : List.length
                  (filter (fun x => (x =? 1)%Z)
                     (map (fun c => if mem_string c [d1; d2; d3] then 1%Z else 0%Z)
                          (decision_forest_model_columns env)))
                = List.length (filter (fun c => mem_string c [d1; d2; d3])
                                      (decision_forest_model_columns env))).
    { clear. induction (decision_forest_model_columns env) as [|c l IH];
        [reflexivity|]. cbn [map filter].
      destruct (mem_string c [d1; d2; d3]); simpl; simpl in IH; now rewrite IH. }
    rewrite F. lia.
  - unfold _handle_analyze_button_click. rewrite bind_get.
    assert (E : (value (dropdown_origin st) =? "")%string
                || (value (dropdown_destination st) =? "")%string
                || (value (dropdown_season st) =? "")%string = false).
    { apply String.eqb_neq in Ho, Hd, Hs. now rewrite Ho, Hd, Hs. }
    destruct Hm as [Hm|Hm]; rewrite Hm;
      cbn [mem_string existsb String.eqb Ascii.eqb Bool.eqb orb];
      rewrite E; reflexivity.
Qed.

Lemma tree_model_one_hot_prediction_witness :
  one_hot_row (decision_forest_model_columns sample_env) SAN LAX "Summer"
  = [1; 0; 1; 0; 0; 1; 0; 0]%Z
  /\ analysis_results_text
       (state_of (_handle_analyze_button_click sample_env
                    (after sample_env (ModelChanged "Decision Tree")
                       (after sample_env (SeasonChanged "Summer") sample_san_lax))))
     = "Est. Price:<h2>$ 120.00</h2>".
Proof.
  split; [vm_compute; reflexivity|].
  destruct (@tree_model_one_hot_prediction sample_env
              (after sample_env (ModelChanged "Decision Tree")
                 (after sample_env (SeasonChanged "Summer") sample_san_lax)))
    as (_ & _ & _ & H).
  - left. vm_compute; reflexivity.
  - vm_compute; discriminate.
  - vm_compute; discriminate.
  - vm_compute; discriminate.
  - rewrite H. vm_compute; reflexivity.
Defined.

(** ** The route key *)

Lemma take_word_no_space (w rest : string) :
  no_space w = true ->
  take_word (w ++ String " " rest) = w.
Proof.
  induction w as [|c w IH]; simpl; [reflexivity|].
  intro H. apply andb_true_iff in H. destruct H as [Hc Hw].
  apply negb_true_iff in Hc. rewrite Hc. now rewrite IH.
Qed.

Lemma take_word_spec (s : string) :
  no_space (take_word s) = true
  /\ exists post, s = take_word s ++ post
                  /\ (post = "" \/ exists c p, post = String c p /\ is_space c = true).
Proof.
  induction s as [|c s (IH1 & post & IH2 & IH3)]; simpl.
  - split; [reflexivity|]. exists "". split; [reflexivity | now left].
  - destruct (is_space c) eqn:E; simpl.
    + split; [reflexivity|]. exists (String c s). split; [reflexivity|].
      right. now exists c, s.
    + rewrite E, IH1. split; [reflexivity|]. exists post. split; [|exact IH3].
      now rewrite <- IH2.
Qed.

Lemma skip_spaces_spec (s : string) :
  exists pre, s = pre ++ skip_spaces s /\ all_spaces pre = true
              /\ (skip_spaces s = ""
                  \/ exists c p, skip_spaces s = String c p /\ is_space c = false).
Proof.
  induction s as [|c s (pre & IH1 & IH2 & IH3)]; simpl.
  - exists "". repeat split. now left.
  - destruct (is_space c) eqn:E.
    + exists (String c pre). simpl. rewrite E, IH2, <- IH1. repeat split. exact IH3.
    + exists "". repeat split. right. now exists c, s.
Qed.

Lemma all_spaces_skip (s : string) : all_spaces s = true <-> skip_spaces s = "".
Proof.
  induction s as [|c s IH]; simpl; [tauto|].
  destruct (is_space c); simpl; [exact IH|]. split; discriminate.
Qed.

(** X9.  [split()[0]] raises IndexError exactly on a string that is
    empty or all white space; otherwise it returns a non-empty word
    without white space that stands in the string after leading white
    space only and ends at the first white space or at the end.  For an
    airport name of the shape "CODE - Name" it returns CODE. *)
Theorem split_first_word (s : string) :
  (split_first s = Raise IndexError <-> all_spaces s = true)
  /\ (forall w, split_first s = Ok w ->
        w <> "" /\ no_space w = true
        /\ exists pre post,
             s = pre ++ w ++ post /\ all_spaces pre = true
             /\ (post = "" \/ exists c p, post = String c p /\ is_space c = true))
  /\ (forall e, split_first s = Raise e -> e = IndexError)
  /\ (forall code name,
        code <> "" -> no_space code = true ->
        s = code ++ " - " ++ name -> split_first s = Ok code).
Proof.
  unfold split_first. split; [|split; [|split]].
  - rewrite all_spaces_skip. destruct (skip_spaces s); split; congruence.
  - intros w E.
    destruct (skip_spaces_spec s) as (pre & P1 & P2 & P3).
    destruct (skip_spaces s) as [|c t] eqn:Es; [discriminate|].
    injection E as <-.
    destruct P3 as [P3|(c' & p & P3 & Hc)]; [discriminate|].
    injection P3 as <- <-.
    destruct (take_word_spec (String c t)) as (W1 & post & W2 & W3).
    split; [simpl; rewrite Hc; discriminate|]. split; [exact W1|].
    exists pre, post. split; [|tauto]. rewrite P1 at 1. f_equal. exact W2.
  - intros e E. destruct (skip_spaces s); congruence.
  - intros code name Hne Hns ->.
    destruct code as [|c code]; [contradiction|].
    simpl in Hns. apply andb_true_iff in Hns. destruct Hns as [Hc Hns].
    apply negb_true_iff in Hc.
    cbn [append skip_spaces]. rewrite Hc.
    f_equal.
    apply (take_word_no_space (String c code) ("- " ++ name)).
    simpl. now rewrite Hc, Hns.
Qed.

Lemma split_first_word_witness :
  split_first SAN = Ok "SAN" /\ split_first "   " = Raise IndexError.
Proof.
  split.
  - apply (split_first_word SAN) with (name := "San Diego International Airport");
      [discriminate | reflexivity | reflexivity].
  - apply (split_first_word "   "). reflexivity.
Defined.

(** ** Airport coordinates *)

(** X10.  The coordinate dictionary has an entry exactly for the
    airport names that occur in the data store, as origin or as
    destination; a look-up of any other name raises KeyError.  The
    entry comes from a row with that name, and from a destination
    column whenever the name occurs as a destination.  So every airport
    a dropdown offers has coordinates. *)
Theorem airport_coords_defined (env : Loaded) (name : string) :
  (airport_coords env name = Raise KeyError <->
   forall r, In r (df env) ->
             airport_name_concat_1 r <> name /\ airport_name_concat_2 r <> name)
  /\ (forall xy, airport_coords env name = Ok xy ->
        exists r, In r (df env)
                  /\ (airport_name_concat_2 r = name
                      /\ xy = (longitude_2 r, latitude_2 r)
                      \/ airport_name_concat_1 r = name
                         /\ xy = (longitude_1 r, latitude_1 r)
                         /\ forall r', In r' (df env) ->
                                       airport_name_concat_2 r' <> name))
  /\ (forall e, airport_coords env name = Raise e -> e = KeyError)
  /\ (In name (airport_options airport_name_concat_1 (df env))
      \/ In name (airport_options airport_name_concat_2 (df env)) ->
      exists xy, airport_coords env name = Ok xy).
Proof.
  unfold airport_coords.
  assert (F2 := coords_table_find airport_name_concat_2 longitude_2 latitude_2
                                  (df env) name).
  assert (F1 := coords_table_find airport_name_concat_1 longitude_1 latitude_1
                                  (df env) name).
  destruct (find _ (rev (coords_table airport_name_concat_2 _ _ _))) as [e2|].
  { destruct F2 as (r2 & I2 & N2 & X2).
    split; [|split; [|split]].
    - split; [discriminate|]. intro H. destruct (H r2 I2) as [_ H2]. contradiction.
    - intros xy E. injection E as <-. exists r2. split; [exact I2|]. left. tauto.
    - discriminate.
    - intros _. eauto. }
  destruct (find _ (rev (coords_table airport_name_concat_1 _ _ _))) as [e1|].
  { destruct F1 as (r1 & I1 & N1 & X1).
    split; [|split; [|split]].
    - split; [discriminate|]. intro H. destruct (H r1 I1) as [H1 _]. contradiction.
    - intros xy E. injection E as <-. exists r1. split; [exact I1|]. right. tauto.
    - discriminate.
    - intros _. eauto. }
  split; [|split; [|split]].
  - split; [|reflexivity]. intros _ r Hr. split; [now apply F1 | now apply F2].
  - discriminate.
  - intros e E. now injection E as <-.
  - intros [H|H]; apply airport_options_spec in H; destruct H as (r & Hr & Hn);
      exfalso; [exact (F1 r Hr Hn) | exact (F2 r Hr Hn)].
Qed.

Lemma airport_coords_defined_witness :
  (exists xy, airport_coords sample_env SEA = Ok xy)
  /\ airport_coords sample_env "BOS - Boston Logan" = Raise KeyError.
Proof.
  split.
  - apply (airport_coords_defined sample_env SEA). right. vm_compute. tauto.
  - apply (airport_coords_defined sample_env "BOS - Boston Logan").
    intros r Hr. vm_compute in Hr.
    repeat (destruct Hr as [<-|Hr]; [split; discriminate|]). contradiction.
Defined.

(** ** The choropleth update *)

(** X11.  When [_update_choropleth] returns, the colour column and the
    hover-text column of the state source still have one entry per
    drawn state; with no origin every state is white and the origin
    marker hidden, with an origin the marker is shown at the origin's
    coordinates; the destination marker is shown, at the destination's
    coordinates, exactly when a destination is set.  Nothing but the
    choropleth is changed. *)
Theorem choropleth_update_consistent (env : Loaded) (st : App) (c0 : Choropleth) :
  choropleth (charts st) = Some c0 ->
  result_of (_update_choropleth env st) = Ok tt ->
  let st' := state_of (_update_choropleth env st) in
  let origin := value (dropdown_origin st) in
  let destination := value (dropdown_destination st) in
  exists c,
    st' = set_choropleth c st
    /\ List.length (colors c) = List.length (rendered_codes env)
    /\ List.length (avg_fares c) = List.length (rendered_codes env)
    /\ (origin = "" ->
        colors c = map (fun _ => "#FFFFFF") (rendered_codes env)
        /\ avg_fares c = map (fun _ => "-") (rendered_codes env)
        /\ origin_marker_alpha c = 0)
    /\ (origin <> "" ->
        origin_marker_alpha c = 1
        /\ airport_coords env origin = Ok (origin_xy c))
    /\ (destination = "" -> dest_marker_alpha c = 0 /\ dest_xy c = dest_xy c0)
    /\ (destination <> "" ->
        dest_marker_alpha c = 1
        /\ airport_coords env destination = Ok (dest_xy c)).
Proof.
  intros Hc0. cbv zeta. unfold _update_choropleth. rewrite bind_get.
  destruct (library_raises env ChoroplethChart st); [discriminate|].
  assert (Dest : forall (c1 : Choropleth) (s1 : App),
             s1 = set_choropleth c1 st ->
             let tail := if (value (dropdown_destination st) =? "")%string
                         then modify_choropleth (fun c => with_dest_marker (dest_xy c) 0 c)
                         else (xy <- lift (airport_coords env (value (dropdown_destination st))) ;;
                               modify_choropleth (with_dest_marker xy 1)) in
             result_of (tail s1) = Ok tt ->
             exists c, state_of (tail s1) = set_choropleth c st
                       /\ colors c = colors c1 /\ avg_fares c = avg_fares c1
                       /\ origin_marker_alpha c = origin_marker_alpha c1
                       /\ origin_xy c = origin_xy c1
                       /\ (value (dropdown_destination st) = "" ->
                           dest_marker_alpha c = 0 /\ dest_xy c = dest_xy c1)
                       /\ (value (dropdown_destination st) <> "" ->
                           dest_marker_alpha c = 1
                           /\ airport_coords env (value (dropdown_destination st))
                              = Ok (dest_xy c))).
  { intros c1 s1 -> tail. subst tail.
    destruct (String.eqb_spec (value (dropdown_destination st)) "") as [Ed|Ed].
    - rewrite (@modify_choropleth_run _ _ c1) by reflexivity. intros _.
      eexists. split; [reflexivity|]. cbn. repeat split; congruence.
    - destruct (airport_coords env (value (dropdown_destination st))) as [xy|e] eqn:Exy.
      + rewrite bind_lift_Ok, (@modify_choropleth_run _ _ c1) by reflexivity. intros _.
        eexists. split; [reflexivity|]. cbn. repeat split; congruence.
      + rewrite bind_lift_Raise. discriminate. }
  destruct (String.eqb_spec (value (dropdown_origin st)) "") as [Eo|Eo].
  - unfold reset_state_colors.
    rewrite bind_bind, (@bind_modify_choropleth _ _ _ _ c0 Hc0).
    rewrite bind_modify_choropleth_set.
    intro Hok.
    edestruct Dest as (c & E & C1 & C2 & C3 & C4 & C5 & C6);
      [reflexivity | exact Hok |].
    exists c. rewrite E, C1, C2, C3. cbn.
    unfold choropleth_default_colors, choropleth_default_fares.
    rewrite !length_map. repeat split; try tauto; try contradiction; try apply C5; try apply C6; auto.
  - destruct (airport_coords env (value (dropdown_origin st))) as [xy|e] eqn:Exy;
      [|rewrite bind_bind, bind_lift_Raise; discriminate].
    rewrite bind_bind, bind_lift_Ok.
    rewrite bind_bind, (@bind_modify_choropleth _ _ _ _ c0 Hc0).
    destruct (choropleth_bins (state_fares env (value (dropdown_origin st))))
      as [bins|] eqn:Eb.
    + destruct (state_entries env (state_fares env (value (dropdown_origin st))) bins)
        as [entries|e] eqn:Ee;
        [|rewrite bind_bind, bind_lift_Raise; discriminate].
      rewrite bind_bind, bind_lift_Ok.
      rewrite bind_modify_choropleth_set.
      intro Hok.
      edestruct Dest as (c & E & C1 & C2 & C3 & C4 & C5 & C6);
        [reflexivity | exact Hok |].
      exists c. rewrite E, C1, C2, C3, C4. cbn.
      rewrite !length_map.
      unfold state_entries in Ee. rewrite (result_map_length _ _ Ee).
      repeat split; try tauto; try contradiction; try apply C5; try apply C6; auto.
    + rewrite bind_raise. discriminate.
Qed.

Lemma choropleth_update_consistent_witness :
  exists c,
    state_of (_update_choropleth sample_env sample_san_lax)
    = set_choropleth c sample_san_lax
    /\ dest_marker_alpha c = 1
    /\ List.length (colors c) = 4%nat.
Proof.
  destruct (choropleth (charts sample_san_lax)) as [c0|] eqn:E;
    [|vm_compute in E; discriminate E].
  destruct (@choropleth_update_consistent sample_env sample_san_lax c0 E)
    as (c & H1 & H2 & _ & _ & _ & _ & H3).
  - vm_compute; reflexivity.
  - exists c. split; [exact H1|]. split.
    + apply H3. vm_compute; discriminate.
    + rewrite H2. vm_compute; reflexivity.
Defined.

(** ** The analyze button: a forecast is stored *)

Lemma StronglySorted_map {A B} (R : A -> A -> Prop) (R' : B -> B -> Prop)
      (g : A -> B) (l : list A) :
  (forall a b, R a b -> R' (g a) (g b)) ->
  StronglySorted R l -> StronglySorted R' (map g l).
Proof.
  intros H. induction 1 as [|a l S IH F]; simpl; constructor; [exact IH|].
  apply Forall_map. eapply Forall_impl; [|exact F]. intros b. apply H.
Qed.

(** X12.  With FB Prophet, a route through no multi-airport code whose
    history ends in 2024 and has valid quarters, and a non-empty
    forecast in each of the three tables, the analyze handler stores
    for each series the history of the route, one point per row and in
    ascending date order, followed by the forecast; it prints nothing
    and leaves the placeholder in the display.  This holds also when
    the redraw of the line chart then fails. *)
Theorem prophet_forecast_stored (env : Loaded) (st : App) (src dst : string)
        (f flg flow : list Point) :
  value (dropdown_ml_model st) = "FB Prophet" ->
  split_first (value (dropdown_origin st)) = Ok src ->
  split_first (value (dropdown_destination st)) = Ok dst ->
  mem_string src multi_airport_codes = false ->
  mem_string dst multi_airport_codes = false ->
  year_max (_get_filtered_data env st false) = Some 2024%Z ->
  periods_ok (_get_filtered_data env st false) = true ->
  prophet_fare_dfs env (src ++ "-" ++ dst) = Some f -> f <> [] ->
  prophet_farelg_dfs env (src ++ "-" ++ dst) = Some flg -> flg <> [] ->
  prophet_farelow_dfs env (src ++ "-" ++ dst) = Some flow -> flow <> [] ->
  let out := _handle_analyze_button_click env st in
  exists dated,
    with_dates (_get_filtered_data env st false) = Ok dated
    /\ let hist := map ts_of_row (sort_by (fun a b => ts_leb (fst a) (fst b)) dated) in
       List.length hist = List.length (_get_filtered_data env st false)
       /\ StronglySorted (fun a b => ts_leb (ts_date a) (ts_date b) = true) hist
       /\ prophet_fare_df (state_of out) = stored_series ts_fare hist f
       /\ prophet_fare_lg_df (state_of out) = stored_series ts_fare_lg hist flg
       /\ prophet_fare_low_df (state_of out) = stored_series ts_fare_low hist flow
       /\ analysis_results_text (state_of out) = "Est. Price:<h2>$   -  </h2>"
       /\ printed out = [].
Proof.
  intros Hm Hs Hd Ms Md Hy Hok Ef Nf Elg Nlg Elow Nlow out.
  destruct (with_dates_total _ Hok) as (dated & Edated).
  exists dated. split; [exact Edated|]. cbv zeta.
  set (sorted := sort_by (fun a b => ts_leb (fst a) (fst b)) dated).
  split; [|split].
  { rewrite length_map. unfold sorted. rewrite sort_by_length.
    unfold with_dates in Edated. exact (result_map_length _ _ Edated). }
  { apply StronglySorted_map with (R := fun a b => ts_leb (fst a) (fst b) = true).
    - auto.
    - apply (@sort_by_sorted _ (fun a b => ts_leb (fst a) (fst b))).
      + tauto.
      + intros a b. apply ts_leb_total.
      + intros a b c. apply ts_leb_trans. }
  unfold out, _handle_analyze_button_click. rewrite bind_get, Hm.
  cbn [mem_string existsb String.eqb Ascii.eqb Bool.eqb orb].
  rewrite update_analysis_results_zero, bind_modify.
  rewrite (split_first_set _ Hs), (split_first_set _ Hd). cbn [orb].
  unfold prophet_forecast.
  cbn [dropdown_origin dropdown_destination set_analysis_results_text].
  rewrite Hs, bind_lift_Ok. cbv beta. rewrite Hd, bind_lift_Ok. cbv beta.
  rewrite bind_get. cbv beta.
  change (_get_filtered_data env (set_analysis_results_text placeholder_text st) false)
    with (_get_filtered_data env st false).
  rewrite Hy. cbn [Z.eqb Pos.eqb negb].
  rewrite Edated, bind_lift_Ok. cbv beta. rewrite Ms, Md. cbn [orb].
  rewrite Ef, Elg, Elow.
  destruct f as [|p f]; [contradiction|].
  destruct flg as [|plg flg]; [contradiction|].
  destruct flow as [|plow flow]; [contradiction|].
  cbn [forecast_frame]. rewrite !bind_lift_Ok, bind_modify.
  match goal with |- context [_update_line_chart env ?s] => set (s1 := s) end.
  set (P := fun s : App =>
              prophet_fare_df s = prophet_fare_df s1
              /\ prophet_fare_lg_df s = prophet_fare_lg_df s1
              /\ prophet_fare_low_df s = prophet_fare_low_df s1
              /\ analysis_results_text s = placeholder_text).
  assert (K : P (state_of (_update_line_chart env s1))).
  { eapply (hoare_state_of (P := P)).
    - apply keep_update_line_chart. intros c s H. exact H.
    - repeat split. }
  destruct K as (K1 & K2 & K3 & K4).
  unfold stored_series.
  split; [rewrite K1; reflexivity|]. split; [rewrite K2; reflexivity|].
  split; [rewrite K3; reflexivity|]. split; [exact K4|].
  unfold _update_line_chart, event. rewrite bind_get.
  now destruct (callback env LineChartChart (_redraw_holoviews_line_chart env) s1).
Qed.

Lemma prophet_forecast_stored_witness :
  option_map (map ds) (prophet_fare_df sample_forecasted)
  = Some [sample_date 2023 12 31; sample_date 2024 3 31; sample_date 2023 12 31;
          sample_date 2024 3 31; sample_date 2024 6 30; sample_date 2024 9 30].
Proof.
  assert (T := @prophet_forecast_stored sample_env sample_san_lax "SAN" "LAX"
                 (sample_forecast 1) (sample_forecast 1.1) (sample_forecast 0.8)).
  do 8 (specialize (T ltac:(vm_compute; reflexivity))).
  specialize (T ltac:(discriminate)).
  specialize (T ltac:(vm_compute; reflexivity)).
  specialize (T ltac:(discriminate)).
  specialize (T ltac:(vm_compute; reflexivity)).
  specialize (T ltac:(discriminate)).
  destruct T as (dated & E & _ & _ & H & _).
  vm_compute in E. injection E as <-.
  unfold sample_forecasted, after, dispatch. rewrite H. vm_compute. reflexivity.
Defined.

(** ** The series of the line chart *)

Lemma ts_eqb_eq (a b : Timestamp) : ts_eqb a b = true <-> a = b.
Proof.
  unfold ts_eqb. rewrite !andb_true_iff, !Z.eqb_eq.
  destruct a, b; simpl. split.
  - intros [[-> ->] ->]. reflexivity.
  - intro E. injection E as -> -> ->. tauto.
Qed.

Lemma with_dates_rows (frame : DataFrame) (dated : list (Timestamp * Row)) :
  with_dates frame = Ok dated ->
  map snd dated = frame
  /\ forall x, In x dated -> quarter_timestamp (year (snd x)) (quarter (snd x)) = Ok (fst x).
Proof.
  intro E. apply result_map_Ok in E.
  induction E as [|r x l out Hx _ [IH1 IH2]]; simpl; [split; [reflexivity | tauto]|].
  destruct (quarter_timestamp (year r) (quarter r)) as [d|e] eqn:Ed; simpl in Hx;
    [|discriminate].
  injection Hx as <-. simpl. split; [now rewrite IH1|].
  intros x [<-|Hx]; [exact Ed | now apply IH2].
Qed.

(** X13.  The line chart has one point per distinct quarter of the
    filtered rows, in ascending date order and without repeated dates;
    each point carries the means of the three fare columns over the
    rows of its quarter. *)
Theorem line_chart_one_point_per_quarter (env : Loaded) (st : App) (l : LineChart) :
  _redraw_holoviews_line_chart env st = Ok l ->
  let filtered_df := _get_filtered_data env st false in
  let dates := map date (avg_fare_by_year l) in
  NoDup dates
  /\ StronglySorted (fun a b => ts_leb a b = true) dates
  /\ (forall d, In d dates <->
        exists r, In r filtered_df /\ quarter_timestamp (year r) (quarter r) = Ok d)
  /\ (forall p, In p (avg_fare_by_year l) ->
        exists rows,
          rows <> []
          /\ (forall r, In r rows -> In r filtered_df
                /\ quarter_timestamp (year r) (quarter r) = Ok (date p))
          /\ avg_fare p = group_mean (map fare rows)
          /\ avg_fare_lg p = group_mean (map fare_lg rows)
          /\ avg_fare_low p = group_mean (map fare_low rows)).
Proof.
  intros E filtered_df dates.
  unfold _redraw_holoviews_line_chart in E. fold filtered_df in E.
  destruct (with_dates filtered_df) as [dated|e] eqn:Ed; simpl in E; [|discriminate].
  destruct (with_dates_rows _ Ed) as [Rows Dates].
  assert (Eavg : avg_fare_by_year l = mean_by_date dated).
  { destruct (prophet_fare_df st); [|now injection E as <-].
    destruct (prophet_fare_lg_df st); [|discriminate].
    destruct (prophet_fare_low_df st); [|discriminate]. now injection E as <-. }
  assert (Keys : dates = map fst (groupby ts_eqb ts_leb fst dated)).
  { unfold dates. rewrite Eavg. unfold mean_by_date. now rewrite !map_map. }
  split; [|split; [|split]].
  - rewrite Keys. apply (groupby_keys_NoDup ts_eqb ts_leb ts_eqb_eq).
  - rewrite Keys, groupby_keys.
    apply (@sort_by_sorted _ ts_leb); [tauto | apply ts_leb_total | apply ts_leb_trans].
  - intro d. rewrite Keys, groupby_keys, sort_by_In_any.
    rewrite (unique_In ts_eqb ts_leb ts_eqb_eq), in_map_iff. split.
    + intros (x & Hx1 & Hx2). exists (snd x). split.
      * rewrite <- Rows. now apply in_map.
      * rewrite <- Hx1. now apply Dates.
    + intros (r & Hr & Hd). rewrite <- Rows in Hr. apply in_map_iff in Hr.
      destruct Hr as (x & <- & Hx). exists x. split; [|exact Hx].
      specialize (Dates x Hx). rewrite Dates in Hd. now injection Hd.
  - intros p Hp. rewrite Eavg in Hp. unfold mean_by_date in Hp.
    apply in_map_iff in Hp. destruct Hp as ([k g] & <- & Hg). simpl.
    apply (groupby_In ts_eqb ts_leb ts_eqb_eq) in Hg. destruct Hg as [Hk ->].
    exists (map snd (filter (fun x => ts_eqb (fst x) k) dated)).
    split; [|split].
    + apply in_map_iff in Hk. destruct Hk as (x & <- & Hx).
      assert (Hin : In x (filter (fun x0 => ts_eqb (fst x0) (fst x)) dated)).
      { apply filter_In. split; [exact Hx | now apply ts_eqb_eq]. }
      intro N. apply (in_map snd) in Hin. rewrite N in Hin. contradiction.
    + intros r Hr. apply in_map_iff in Hr. destruct Hr as (x & <- & Hx).
      apply filter_In in Hx. destruct Hx as [Hx Hk'].
      apply ts_eqb_eq in Hk'. split.
      * rewrite <- Rows. now apply in_map.
      * rewrite <- Hk'. now apply Dates.
    + now rewrite !map_map.
Qed.

Lemma line_chart_one_point_per_quarter_witness :
  exists l,
    _redraw_holoviews_line_chart sample_env sample_origin_only = Ok l
    /\ NoDup (map date (avg_fare_by_year l)).
Proof.
  destruct (_redraw_holoviews_line_chart sample_env sample_origin_only) as [l|e] eqn:E;
    [|vm_compute in E; discriminate E].
  exists l. split; [reflexivity|].
  apply (@line_chart_one_point_per_quarter sample_env sample_origin_only l E).
Defined.

(** ** Sorting keeps the rows *)

Lemma insert_sorted_Permutation {A} (leb : A -> A -> bool) (x : A) (l : list A) :
  Permutation (insert_sorted leb x l) (x :: l).
Proof.
  induction l as [|h l IH]; simpl; [reflexivity|].
  destruct (leb x h); [reflexivity|].
  rewrite IH. apply perm_swap.
Qed.

Lemma sort_by_Permutation {A} (leb : A -> A -> bool) (l : list A) :
  Permutation (sort_by leb l) l.
Proof.
  induction l as [|h l IH]; simpl; [reflexivity|].
  rewrite insert_sorted_Permutation. now constructor.
Qed.

(** X14.  The seasonal box plot draws every filtered row once, ordered
    Spring, Summer, Fall, Winter; a row whose season is none of the
    four has no category and comes last. *)
Theorem boxplot_in_season_order (env : Loaded) (st : App) :
  let box := _redraw_holoviews_seasonal_boxplot env st in
  let rank := fun s => index_of s ["Spring"; "Summer"; "Fall"; "Winter"] in
  exists rows,
    Permutation rows (_get_filtered_data env st false)
    /\ StronglySorted (fun a b => (rank (season a) <= rank (season b))%nat) rows
    /\ box_data box
       = map (fun r => (if in_dec string_dec (season r)
                                  ["Spring"; "Summer"; "Fall"; "Winter"]
                        then Some (season r) else None, fare r)) rows
    /\ (forall r, In r rows ->
          (rank (season r) = 4%nat <->
           ~ In (season r) ["Spring"; "Summer"; "Fall"; "Winter"]))
    /\ box_alpha box = chart_alpha st.
Proof.
  cbv zeta. unfold _redraw_holoviews_seasonal_boxplot. cbn [box_data box_alpha].
  set (leb := fun a b : Row =>
                (index_of (season a) season_order <=? index_of (season b) season_order)%nat).
  exists (sort_by leb (_get_filtered_data env st false)).
  split; [apply sort_by_Permutation|]. split; [|split; [|split]].
  - apply (@sort_by_sorted _ leb).
    + intros a b. unfold leb. apply Nat.leb_le.
    + intros a b. unfold season_order. lia.
    + intros a b c. unfold season_order. lia.
  - apply map_ext. intro r. f_equal. unfold season_category, season_order.
    destruct (in_dec string_dec (season r) ["Spring"; "Summer"; "Fall"; "Winter"])
      as [H|H].
    + apply mem_string_In in H. now rewrite H.
    + destruct (mem_string (season r) ["Spring"; "Summer"; "Fall"; "Winter"]) eqn:E;
        [|reflexivity].
      apply mem_string_In in E. contradiction.
  - intros r _. cbn [index_of In].
    destruct (String.eqb_spec "Spring" (season r)); [split; [lia | tauto]|].
    destruct (String.eqb_spec "Summer" (season r)); [split; [lia | tauto]|].
    destruct (String.eqb_spec "Fall" (season r)); [split; [lia | tauto]|].
    destruct (String.eqb_spec "Winter" (season r)); [split; [lia | tauto]|].
    split; [tauto | reflexivity].
  - reflexivity.
Qed.

(** ** Carrier names of a bar chart *)

Lemma NoDup_map_firstn {A B} (g : A -> B) (n : nat) (l : list A) :
  NoDup (map g l) -> NoDup (map g (firstn n l)).
Proof.
  revert n. induction l as [|a l IH]; intros [|n] H; simpl; try constructor.
  - inversion H as [|? ? Ha Hl]; subst. intro Hin. apply Ha.
    apply in_map_iff in Hin. destruct Hin as (x & Ex & Hx).
    apply in_map_iff. exists x. split; [exact Ex|]. eapply In_firstn; exact Hx.
  - inversion H; subst. now apply IH.
Qed.

Lemma NoDup_map_filter {A B} (g : A -> B) (f : A -> bool) (l : list A) :
  NoDup (map g l) -> NoDup (map g (filter f l)).
Proof.
  induction l as [|a l IH]; intro H; simpl; [constructor|].
  inversion H as [|? ? Ha Hl]; subst.
  destruct (f a); [|now apply IH]. simpl. constructor; [|now apply IH].
  intro Hin. apply Ha. apply in_map_iff in Hin. destruct Hin as (x & Ex & Hx).
  apply in_map_iff. exists x. split; [exact Ex|]. now apply filter_In in Hx.
Qed.

(** X15.  No carrier name occurs twice in the data of a bar chart, so
    the names can serve as the factors of its categorical axis; each
    name is the carrier of some filtered row. *)
Theorem bar_chart_distinct_carriers (env : Loaded) (st : App) (carrier_type : string) :
  let bars := avg_data (_redraw_holoviews_bar_chart env st carrier_type) in
  let name_col := if (carrier_type =? "lg")%string
                  then carrier_lg_name_concat else carrier_low_name_concat in
  NoDup (map fst bars)
  /\ forall name, In name (map fst bars) ->
       exists r, In r (_get_filtered_data env st true) /\ name_col r = name.
Proof.
  cbv zeta. unfold _redraw_holoviews_bar_chart, bar_chart_data. cbn [avg_data].
  set (filtered_df := _get_filtered_data env st true).
  set (col := if (carrier_type =? "lg")%string then fare_lg else fare_low).
  set (name_col := if (carrier_type =? "lg")%string
                   then carrier_lg_name_concat else carrier_low_name_concat).
  split.
  - apply NoDup_map_filter, NoDup_map_firstn.
    apply (Permutation_NoDup
             (l := map fst (groupby_mean name_col col filtered_df))).
    + apply Permutation_map, Permutation_sym, sort_by_Permutation.
    + apply groupby_mean_NoDup.
  - intros name Hin. apply in_map_iff in Hin. destruct Hin as ([k v] & <- & Hin).
    apply filter_In in Hin. destruct Hin as [Hin _]. apply In_firstn in Hin.
    apply sort_by_In_any in Hin. apply groupby_mean_In in Hin.
    destruct Hin as [Hk _]. apply in_map_iff in Hk.
    destruct Hk as (r & Hr1 & Hr2). exists r. tauto.
Qed.

(** ** What the analyze handler leaves alone *)

Lemma analyze_frame_refl (s0 : App) : analyze_frame s0 s0.
Proof. repeat split. Qed.

Lemma update_line_chart_frame (env : Loaded) (s0 : App) :
  hoare (analyze_frame s0) (_update_line_chart env)
        (analyze_frame s0) (analyze_frame s0).
Proof.
  unfold _update_line_chart, event.
  apply hoare_get. intros s.
  apply hoare_weaken with (P' := analyze_frame s0) (Q' := analyze_frame s0)
                          (E' := analyze_frame s0);
    [| intros ? [? _]; assumption | auto | auto].
  destruct (callback env LineChartChart (_redraw_holoviews_line_chart env) s) as [l|e];
    [|apply hoare_ret].
  apply hoare_modify. intros st H. exact H.
Qed.

Lemma analyze_keeps_frame (env : Loaded) (s0 : App) :
  hoare (analyze_frame s0) (_handle_analyze_button_click env)
        (analyze_frame s0) (analyze_frame s0).
Proof.
  unfold _handle_analyze_button_click, prophet_forecast, print_ineligible,
    _update_analysis_results.
  repeat lazymatch goal with
    | |- hoare _ (if ?c then _ else _) _ _ => destruct c
    | |- hoare _ (match ?c with _ => _ end) _ _ => destruct c
    | |- hoare _ (bind get _) _ _ =>
        apply hoare_get; intros ?;
        apply hoare_weaken with (P' := analyze_frame s0) (Q' := analyze_frame s0)
                                (E' := analyze_frame s0);
        [| intros ? [? _]; assumption | auto | auto]
    | |- hoare _ (bind _ _) _ _ =>
        apply hoare_bind with (Q := analyze_frame s0); [| intros ?]
    | |- hoare _ (modify _) _ _ =>
        apply hoare_modify; let H := fresh in intros ? H; exact H
    | |- hoare _ (ret _) _ _ => apply hoare_ret
    | |- hoare _ (raise _) _ _ => apply hoare_raise
    | |- hoare _ (print _) _ _ => apply hoare_print
    | |- hoare _ (lift _) _ _ => apply hoare_lift
    | |- hoare _ (_update_line_chart _) _ _ => apply update_line_chart_frame
    end.
Qed.

(** X16.  A click on the analyze button never changes a dropdown, the
    choropleth, the histogram, the box plot or a bar chart, whether the
    handler returns or raises; with a model other than FB Prophet the
    handler returns and also leaves the line chart and the cached
    forecast as they were. *)
Theorem analyze_touches_only_results (env : Loaded) (st : App) :
  let out := _handle_analyze_button_click env st in
  let st' := state_of out in
  dropdown_origin st' = dropdown_origin st
  /\ dropdown_destination st' = dropdown_destination st
  /\ dropdown_season st' = dropdown_season st
  /\ dropdown_ml_model st' = dropdown_ml_model st
  /\ choropleth (charts st') = choropleth (charts st)
  /\ hv_histogram (charts st') = hv_histogram (charts st)
  /\ hv_seasonal_boxplot (charts st') = hv_seasonal_boxplot (charts st)
  /\ hv_lg_bar_chart (charts st') = hv_lg_bar_chart (charts st)
  /\ hv_low_bar_chart (charts st') = hv_low_bar_chart (charts st)
  /\ (value (dropdown_ml_model st) <> "FB Prophet" ->
      result_of out = Ok tt
      /\ hv_line_chart (charts st') = hv_line_chart (charts st)
      /\ prophet_fare_df st' = prophet_fare_df st
      /\ prophet_fare_lg_df st' = prophet_fare_lg_df st
      /\ prophet_fare_low_df st' = prophet_fare_low_df st).
Proof.
  cbv zeta.
  assert (F : analyze_frame st (state_of (_handle_analyze_button_click env st))).
  { eapply (hoare_state_of (P := analyze_frame st));
      [apply analyze_keeps_frame | apply analyze_frame_refl]. }
  destruct F as ((F1 & F2 & F3 & F4) & F5 & F6 & F7 & F8 & F9).
  repeat (split; [assumption|]).
  intro Hm. apply String.eqb_neq in Hm.
  unfold _handle_analyze_button_click, _update_analysis_results.
  rewrite bind_get, Hm.
  destruct (mem_string (value (dropdown_ml_model st)) ["XGBoost"; "CatBoost"]).
  { destruct (Qeq_bool _ 0); repeat split. }
  destruct (mem_string (value (dropdown_ml_model st))
                       ["Decision Tree"; "Random Forest"]); [|repeat split].
  match goal with |- context [if ?c then print _ else _] => destruct c end;
    [repeat split|].
  match goal with |- context [Qeq_bool ?v 0] => destruct (Qeq_bool v 0) end;
    repeat split.
Qed.

(** ** The tree-ensemble estimate and the season *)

(** X18.  The XGBoost and CatBoost estimate does not depend on the
    selected season: the row it uses is the first row of the data store
    for the selected origin and destination, whatever the season
    dropdown says, so a click after a season change shows the same
    estimate as a click before it. *)
Theorem tree_ensemble_ignores_season (env : Loaded) (st : App) (new : string) :
  let st' := state_of (dispatch env (SeasonChanged new) st) in
  _get_filtered_data env st' false = _get_filtered_data env st false
  /\ tree_ensemble_estimate env st' = tree_ensemble_estimate env st
  /\ (In (value (dropdown_ml_model st)) ["XGBoost"; "CatBoost"] ->
      analysis_results_text (state_of (_handle_analyze_button_click env st'))
      = analysis_results_text (state_of (_handle_analyze_button_click env st))).
Proof.
  cbv zeta.
  destruct (season_change_effect env st new)
    as (_ & _ & _ & _ & _ & _ & _ & _ & Eo & Ed & Em).
  cbv zeta in Eo, Ed, Em.
  set (st' := state_of (dispatch env (SeasonChanged new) st)) in *.
  assert (F : _get_filtered_data env st' false = _get_filtered_data env st false).
  { unfold _get_filtered_data. now rewrite Eo, Ed. }
  assert (T : tree_ensemble_estimate env st' = tree_ensemble_estimate env st).
  { unfold tree_ensemble_estimate. now rewrite F, Em. }
  split; [exact F|]. split; [exact T|].
  intro Hm. apply mem_string_In in Hm.
  unfold _handle_analyze_button_click. rewrite !bind_get, Em, Hm, T.
  unfold _update_analysis_results. now destruct (Qeq_bool _ 0).
Qed.

Lemma tree_ensemble_ignores_season_witness :
  analysis_results_text
    (state_of (_handle_analyze_button_click sample_env
                 (after sample_env (SeasonChanged "Summer")
                    (after sample_env (ModelChanged "XGBoost") sample_san_lax))))
  = analysis_results_text
      (state_of (_handle_analyze_button_click sample_env
                   (after sample_env (ModelChanged "XGBoost") sample_san_lax))).
Proof.
  apply (tree_ensemble_ignores_season sample_env
           (after sample_env (ModelChanged "XGBoost") sample_san_lax) "Summer").
  left. vm_compute; reflexivity.
Defined.
